(** * moto: CloudWatch backend and VPN gateway backend

    A shallow embedding of [moto/cloudwatch/models.py] and
    [moto/ec2/models/vpn_gateway.py], with the properties of the
    specification proved (or refuted) on it.

    Conventions of the embedding.
    - A Python [dict] is a [gmap]; a Python [set] is a [gset].  The iteration
      order of a [gmap] stands for the iteration order of the dictionary; no
      statement below depends on that order.  The iteration order of a set
      of strings changes from one run of the interpreter to the next: it is
      an argument of the method that iterates over a set.
    - A [datetime] is its date and time fields, as a number of microseconds
      since 0001-01-01T00:00:00, and the offset of its zone from UTC, if it
      has a zone; the zones are those of a fixed offset.  A [timedelta] is a
      number of microseconds.  Both have a range, and an operation that
      leaves it raises [OverflowError]; a comparison between a naive and an
      aware [datetime] raises [TypeError].
    - [json.loads] runs under the limits of the interpreter: the nesting
      that the recursion limit leaves and the longest integer literal that
      [int] converts.  They are an argument.
    - A metric value is an IEEE 754 binary64 number ([float]).
    - A raised exception is the [Raise] case of [result]; a method that
      mutates [self] returns the new backend next to its return value.
    - [datetime.utcnow()] and [uuid4()] read the outside world: the instant
      and the 128 random bits they would obtain are arguments. *)

From Stdlib Require Import ZArith Floats Uint63 Ascii String.
From stdpp Require Import gmap strings list fin_maps sorting pretty.

Local Open Scope string_scope.
Local Open Scope list_scope.
Local Open Scope Z_scope.

(** ** Exceptions and results *)

Inductive exn : Type :=
| RESTError (code message : string) (status : option Z)
| AssertionError
| RecursionError
| KeyError (key : string)
| ValueError (message : string)
| JSONDecodeError
| ZeroDivisionError
| TypeError
| OverflowError
| InvalidVPCIdError (vpc_id : string)
| InvalidVpnGatewayIdError (vpn_gateway_id : string)
| InvalidVpnGatewayAttachmentError (vpn_gateway_id vpc_id : string).

(** [except ValueError] catches [ValueError] and its subclass
    [json.JSONDecodeError]. *)
Definition is_ValueError (e : exn) : bool :=
  match e with
  | ValueError _ | JSONDecodeError => true
  | _ => false
  end.

Inductive result (A : Type) : Type :=
| Ok (a : A)
| Raise (e : exn).

Arguments Ok {A} a.
Arguments Raise {A} e.

#[global] Instance result_ret : MRet result := fun A a => Ok a.

#[global] Instance result_bind : MBind result := fun A B k r =>
  match r with
  | Ok a => k a
  | Raise e => Raise e
  end.

(** ** Dimension *)

Module Dimension.

Record t : Type := make { name : string; value : string }.

(** The right operand of [==] and [!=] is any object. *)
Inductive item : Type :=
| OfDimension (d : t)
| OfStr (s : string)
| OfNone.

(** [Dimension.__eq__] *)
Definition __eq__ (self : t) (it : item) : bool :=
  match it with
  | OfDimension d =>
      String.eqb (name self) (name d) && String.eqb (value self) (value d)
  | _ => false
  end.

(** [Dimension.__ne__].  Its body is [return self != item], which the
    interpreter evaluates by calling [self.__ne__(item)] again.  [depth] is
    the number of frames left before the interpreter's recursion limit, at
    which it raises [RecursionError]. *)
Fixpoint __ne__ (depth : nat) (self : t) (it : item) : result bool :=
  match depth with
  | O => Raise RecursionError
  | S depth' => __ne__ depth' self it
  end.

End Dimension.

(** ** [json.loads], as far as [set_alarm_state] uses it

    Only how [json.loads] ends matters: it returns, or it raises
    [JSONDecodeError], [ValueError] or [RecursionError].  The recogniser
    follows the decoder of the interpreter's [json] package on byte strings:
    white space is space, tab, line feed and carriage return; strings are
    scanned in strict mode; a number is an optional minus sign, an integer
    part (a lone zero, or a digit from 1 to 9 followed by digits), an
    optional fraction (a dot and at least one digit) and an optional
    exponent (e or E, an optional sign, at least one digit); the constants
    NaN, Infinity and -Infinity are accepted.

    Two limits of the interpreter show through the decoder.  Entering an
    array or an object takes one level of recursion, and the decoder raises
    [RecursionError] when none is left.  A number without fraction and
    exponent is converted by [int], which raises [ValueError] when the
    literal has more digits than the interpreter allows.  The text is read
    from left to right, so the first of these failures or of the syntax
    errors is the one raised. *)

Module Json.

Local Open Scope char_scope.

(** What the interpreter allows when the decoder starts. *)
Record limits : Type := make_limits {
  (** the levels of recursion that are left *)
  recursion_left : nat;
  (** [sys.get_int_max_str_digits()]; zero when there is no limit *)
  int_max_str_digits : nat
}.

Definition quote : ascii := "034".

Definition is_ws (c : ascii) : bool :=
  Ascii.eqb c " " || Ascii.eqb c "009" || Ascii.eqb c "010" || Ascii.eqb c "013".

Definition is_digit (c : ascii) : bool :=
  (48 <=? nat_of_ascii c)%nat && (nat_of_ascii c <=? 57)%nat.

Definition is_digit19 (c : ascii) : bool :=
  (49 <=? nat_of_ascii c)%nat && (nat_of_ascii c <=? 57)%nat.

Definition is_hex (c : ascii) : bool :=
  is_digit c
  || ((97 <=? nat_of_ascii c)%nat && (nat_of_ascii c <=? 102)%nat)
  || ((65 <=? nat_of_ascii c)%nat && (nat_of_ascii c <=? 70)%nat).

Definition is_control (c : ascii) : bool := (nat_of_ascii c <? 32)%nat.

Definition is_escape (c : ascii) : bool :=
  Ascii.eqb c quote || Ascii.eqb c "\" || Ascii.eqb c "/" || Ascii.eqb c "b"
  || Ascii.eqb c "f" || Ascii.eqb c "n" || Ascii.eqb c "r" || Ascii.eqb c "t".

Fixpoint skip_ws (s : string) : string :=
  match s with
  | String c r => if is_ws c then skip_ws r else s
  | EmptyString => s
  end.

Fixpoint skip_digits (s : string) : string :=
  match s with
  | String c r => if is_digit c then skip_digits r else s
  | EmptyString => s
  end.

(** The number of digits that [skip_digits] skips. *)
Fixpoint count_digits (s : string) : nat :=
  match s with
  | String c r => if is_digit c then S (count_digits r) else O
  | EmptyString => O
  end.

(** [expect lit s]: [s] with the prefix [lit] removed. *)
Fixpoint expect (lit s : string) : option string :=
  match lit, s with
  | EmptyString, _ => Some s
  | String a lit', String b s' => if Ascii.eqb a b then expect lit' s' else None
  | String _ _, EmptyString => None
  end.

(** [scanstring], entered after the opening quote; the rest of the input
    after the closing quote. *)
Fixpoint scanstring (s : string) : option string :=
  match s with
  | EmptyString => None
  | String c r =>
      if Ascii.eqb c quote then Some r
      else if is_control c then None
      else if Ascii.eqb c "\" then
        match r with
        | String "u" (String h1 (String h2 (String h3 (String h4 r')))) =>
            if is_hex h1 && is_hex h2 && is_hex h3 && is_hex h4
            then scanstring r' else None
        | String e r' =>
            if Ascii.eqb e "u" then None
            else if is_escape e then scanstring r' else None
        | EmptyString => None
        end
      else scanstring r
  end.

(** The digits of an optional group [intro digit+] of the number pattern,
    entered after [intro]: the group is there only when a digit follows. *)
Definition opt_digits (after_intro : string) : option string :=
  match after_intro with
  | String d r => if is_digit d then Some (skip_digits r) else None
  | EmptyString => None
  end.

Definition match_frac (s : string) : option string :=
  match s with
  | String "." r => opt_digits r
  | _ => None
  end.

Definition match_exp (s : string) : option string :=
  match s with
  | String e r =>
      if Ascii.eqb e "e" || Ascii.eqb e "E" then
        match r with
        | String sg r' =>
            if Ascii.eqb sg "-" || Ascii.eqb sg "+" then opt_digits r'
            else opt_digits r
        | EmptyString => None
        end
      else None
  | EmptyString => None
  end.

(** The integer part, with the number of its digits. *)
Definition match_int (s : string) : option (nat * string) :=
  match s with
  | String c r =>
      if Ascii.eqb c "0" then Some (1%nat, r)
      else if is_digit19 c then Some (S (count_digits r), skip_digits r)
      else None
  | EmptyString => None
  end.

(** A number of the text is converted by [int] when it has neither fraction
    nor exponent, and by [float] otherwise. *)
Inductive number : Type :=
| Int (digits : nat)
| Float.

Definition match_number (s : string) : option (number * string) :=
  let unsigned := match s with
                  | String "-" r => r
                  | _ => s
                  end in
  match match_int unsigned with
  | Some (digits, r) =>
      let '(frac, r) := match match_frac r with
                        | Some r' => (true, r')
                        | None => (false, r)
                        end in
      let '(exp, r) := match match_exp r with
                       | Some r' => (true, r')
                       | None => (false, r)
                       end in
      Some (if frac || exp then Float else Int digits, r)
  | None => None
  end.

(** [int] on a literal of [digits] digits: the interpreter counts the digits
    of literals longer than 640 digits and refuses those over its limit. *)
Definition int_of_literal (max_str_digits digits : nat) : result unit :=
  if (640 <? digits)%nat && (0 <? max_str_digits)%nat && (max_str_digits <? digits)%nat
  then Raise (ValueError ("Exceeds the limit (" +:+ pretty max_str_digits
                          +:+ " digits) for integer string conversion: value has "
                          +:+ pretty digits
                          +:+ " digits; use sys.set_int_max_str_digits() to increase the limit"))
  else Ok tt.

(** A syntax error, where the scanner finds no way on. *)
Definition syntax (rest : option string) : result string :=
  match rest with
  | Some r => Ok r
  | None => Raise JSONDecodeError
  end.

(** [scan_once], [JSONArray] and [JSONObject].  [depth] is the number of
    levels of recursion that are left.  [fuel] bounds the number of nested
    calls of the recogniser; every call consumes input, so twice the length
    of the input is never exhausted. *)
Fixpoint scan_once (max_str_digits fuel depth : nat) (s : string) : result string :=
  match fuel with
  | O => Raise JSONDecodeError
  | S fuel' =>
      match s with
      | EmptyString => Raise JSONDecodeError
      | String c r =>
          if Ascii.eqb c quote then syntax (scanstring r)
          else if Ascii.eqb c "{" then
            match depth with
            | O => Raise RecursionError
            | S depth' =>
                match skip_ws r with
                | String c' r' =>
                    if Ascii.eqb c' "}" then Ok r'
                    else if Ascii.eqb c' quote
                    then object_members max_str_digits fuel' depth' r'
                    else Raise JSONDecodeError
                | EmptyString => Raise JSONDecodeError
                end
            end
          else if Ascii.eqb c "[" then
            match depth with
            | O => Raise RecursionError
            | S depth' =>
                match skip_ws r with
                | String "]" r' => Ok r'
                | r' => array_items max_str_digits fuel' depth' r'
                end
            end
          else
            match match_number s with
            | Some (Int digits, r') =>
                _ ← int_of_literal max_str_digits digits; Ok r'
            | Some (Float, r') => Ok r'
            | None =>
                if Ascii.eqb c "n" then syntax (expect "null"%string s)
                else if Ascii.eqb c "t" then syntax (expect "true"%string s)
                else if Ascii.eqb c "f" then syntax (expect "false"%string s)
                else if Ascii.eqb c "N" then syntax (expect "NaN"%string s)
                else if Ascii.eqb c "I" then syntax (expect "Infinity"%string s)
                else if Ascii.eqb c "-" then syntax (expect "-Infinity"%string s)
                else Raise JSONDecodeError
            end
      end
  end
with array_items (max_str_digits fuel depth : nat) (s : string) : result string :=
  match fuel with
  | O => Raise JSONDecodeError
  | S fuel' =>
      r ← scan_once max_str_digits fuel' depth s;
      match skip_ws r with
      | String c r' =>
          if Ascii.eqb c "]" then Ok r'
          else if Ascii.eqb c ","
          then array_items max_str_digits fuel' depth (skip_ws r')
          else Raise JSONDecodeError
      | EmptyString => Raise JSONDecodeError
      end
  end
with object_members (max_str_digits fuel depth : nat) (s : string) : result string :=
  (* entered after the opening quote of a key *)
  match fuel with
  | O => Raise JSONDecodeError
  | S fuel' =>
      r ← syntax (scanstring s);
      match skip_ws r with
      | String ":" r1 =>
          r2 ← scan_once max_str_digits fuel' depth (skip_ws r1);
          match skip_ws r2 with
          | String c r3 =>
              if Ascii.eqb c "}" then Ok r3
              else if Ascii.eqb c "," then
                match skip_ws r3 with
                | String c' r4 =>
                    if Ascii.eqb c' quote
                    then object_members max_str_digits fuel' depth r4
                    else Raise JSONDecodeError
                | EmptyString => Raise JSONDecodeError
                end
              else Raise JSONDecodeError
          | EmptyString => Raise JSONDecodeError
          end
      | _ => Raise JSONDecodeError
      end
  end.

(** [json.loads s]: the value is decoded, and nothing but white space may
    follow it. *)
Definition loads (interpreter : limits) (s : string) : result unit :=
  r ← scan_once (int_max_str_digits interpreter) (2 * String.length s + 2)
                (recursion_left interpreter) (skip_ws s);
  match skip_ws r with
  | EmptyString => Ok tt
  | String _ _ => Raise JSONDecodeError
  end.

End Json.

(** ** Methods that mutate [self]

    A method is a function from the state before the call to the state after
    it and either the returned value or the raised exception: what was
    mutated before a [raise] stays mutated. *)

Definition method (S A : Type) : Type := S -> S * result A.

Definition ret {S A : Type} (a : A) : method S A := fun s => (s, Ok a).

Definition raise {S A : Type} (e : exn) : method S A := fun s => (s, Raise e).

Definition and_then {S A B : Type} (m : method S A) (k : A -> method S B) : method S B :=
  fun s =>
    match m s with
    | (s', Ok a) => k a s'
    | (s', Raise e) => (s', Raise e)
    end.

Definition gets {S A : Type} (f : S -> A) : method S A := fun s => (s, Ok (f s)).

Definition modify {S : Type} (f : S -> S) : method S unit := fun s => (f s, Ok tt).

Notation "'do' x <- m ; k" := (and_then m (fun x => k))
  (at level 10, x name, m at level 100, k at level 200).
Notation "'do' ' p <- m ; k" := (and_then m (fun p => k))
  (at level 10, p pattern, m at level 100, k at level 200).

(** [for x in xs: body(x)] *)
Fixpoint for_each {S A : Type} (xs : list A) (body : A -> method S unit) : method S unit :=
  match xs with
  | [] => ret tt
  | x :: xs' => do _ <- body x; for_each xs' body
  end.

(** [d[k]] on a dictionary read-only, outside any state. *)
Definition getitem {V : Type} (d : gmap string V) (k : string) : result V :=
  match d !! k with
  | Some v => Ok v
  | None => Raise (KeyError k)
  end.

(** A list comprehension whose element expression may raise. *)
Fixpoint comprehension {A B : Type} (f : A -> result B) (xs : list A) : result (list B) :=
  match xs with
  | [] => Ok []
  | x :: xs' => y ← f x; ys ← comprehension f xs'; Ok (y :: ys)
  end.

(** Truth value of a string argument that may be [None]. *)
Definition truthy (s : option string) : bool :=
  match s with
  | Some (String _ _) => true
  | _ => false
  end.

(** ** [str(uuid4())] *)

Module Uuid.

Local Open Scope N_scope.

(** [UUID(bytes=os.urandom(16), version=4)]: the variant and version bits
    are forced on the 128 random bits. *)
Definition uuid4 (random_bits : N) : N :=
  let i := N.land random_bits (N.ones 128) in
  let i := N.ldiff i (N.shiftl 0xc000 48) in
  let i := N.lor i (N.shiftl 0x8000 48) in
  let i := N.ldiff i (N.shiftl 0xf000 64) in
  N.lor i (N.shiftl 4 76).

Definition hex_digit (n : N) : ascii :=
  if n <? 10 then ascii_of_N (48 + n) else ascii_of_N (87 + n).

(** The [count] hexadecimal digits of [n] that end at digit [low]. *)
Fixpoint hex_field (count : nat) (low : N) (n : N) : string :=
  match count with
  | O => EmptyString
  | S count' =>
      String (hex_digit (N.land (N.shiftr n (4 * (low + N.of_nat count'))) 15))
             (hex_field count' low n)
  end.

(** [UUID.__str__] *)
Definition str (u : N) : string :=
  (hex_field 8 24 u ++ "-" ++ hex_field 4 20 u ++ "-" ++ hex_field 4 16 u
   ++ "-" ++ hex_field 4 12 u ++ "-" ++ hex_field 12 0 u)%string.

End Uuid.

(** ** datetime and timedelta

    A [timedelta] is its number of microseconds.  A [datetime] has the
    number of microseconds from 0001-01-01T00:00:00 to its date and time
    fields, and what its [utcoffset()] returns: [None] when it is naive, the
    offset of its zone from UTC, in microseconds, when it is aware.  The
    zones are those of a fixed offset, as [tzutc()] is. *)

Module datetime.

Record t : Type := make { wall : Z; utcoffset : option Z }.

(** One microsecond after [datetime.max], which is
    9999-12-31T23:59:59.999999: day 3652059 of the calendar has ended. *)
Definition end_of_time : Z := 3652059 * 86400 * 1000000.

(** The date and time fields that a [datetime] can hold. *)
Definition in_range (w : Z) : bool := (0 <=? w) && (w <? end_of_time).

Definition aware (dt : t) : bool :=
  match utcoffset dt with
  | Some _ => true
  | None => false
  end.

(** What the comparisons compare: the fields of a naive datetime, the
    fields less the offset of an aware one. *)
Definition instant (dt : t) : Z := wall dt - default 0 (utcoffset dt).

(** [a < b] and [a <= b] raise [TypeError] between a naive and an aware
    datetime. *)
Definition compare (op : Z -> Z -> bool) (a b : t) : result bool :=
  if Bool.eqb (aware a) (aware b) then Ok (op (instant a) (instant b))
  else Raise TypeError.

Definition lt : t -> t -> result bool := compare Z.ltb.

Definition le : t -> t -> result bool := compare Z.leb.

(** [a == b] is false between a naive and an aware datetime. *)
Definition eq (a b : t) : bool :=
  Bool.eqb (aware a) (aware b) && (instant a =? instant b).

(** [dt + delta] keeps the zone and raises [OverflowError] when the fields
    leave the range. *)
Definition add (dt : t) (delta : Z) : result t :=
  if in_range (wall dt + delta) then Ok (make (wall dt + delta) (utcoffset dt))
  else Raise OverflowError.

End datetime.

(** [timedelta(seconds=n)] for an integer [n], in microseconds.  A
    [timedelta] holds at most 999999999 days either way, and the days of [n]
    seconds are counted downwards. *)
Definition timedelta_seconds (n : Z) : result Z :=
  if (-999999999 <=? n / 86400) && (n / 86400 <=? 999999999) then Ok (n * 1000000)
  else Raise OverflowError.

(** ** FakeAlarm *)

Module FakeAlarm.

(** An entry of [history]: the tag, then the state fields it records. *)
Definition history_entry : Type := string * string * option string * string * Z.

Record t : Type := make {
  name : string;
  namespace : string;
  metric_name : string;
  comparison_operator : string;
  evaluation_periods : Z;
  period : Z;
  threshold : float;
  statistic : string;
  description : string;
  dimensions : list Dimension.t;
  actions_enabled : bool;
  alarm_actions : list string;
  ok_actions : list string;
  insufficient_data_actions : list string;
  unit : option string;
  configuration_updated_timestamp : Z;
  history : list history_entry;
  state_reason : string;
  state_reason_data : option string;
  state_value : string;
  state_updated_timestamp : Z
}.

(** [FakeAlarm.__init__]; [now1] and [now2] are its two readings of
    [datetime.utcnow()]. *)
Definition __init__
    (name namespace metric_name comparison_operator : string)
    (evaluation_periods period : Z) (threshold : float)
    (statistic description : string) (dimensions : list (gmap string string))
    (alarm_actions ok_actions insufficient_data_actions : list string)
    (unit : option string) (actions_enabled : bool) (now1 now2 : Z) : result t :=
  dims ← comprehension
            (fun dimension =>
               n ← getitem dimension "name";
               v ← getitem dimension "value";
               Ok (Dimension.make n v))
            dimensions;
  Ok {| name := name;
        namespace := namespace;
        metric_name := metric_name;
        comparison_operator := comparison_operator;
        evaluation_periods := evaluation_periods;
        period := period;
        threshold := threshold;
        statistic := statistic;
        description := description;
        dimensions := dims;
        actions_enabled := actions_enabled;
        alarm_actions := alarm_actions;
        ok_actions := ok_actions;
        insufficient_data_actions := insufficient_data_actions;
        unit := unit;
        configuration_updated_timestamp := now1;
        history := [];
        state_reason := EmptyString;
        state_reason_data := Some "{}";
        state_value := "OK";
        state_updated_timestamp := now2 |}.

(** [FakeAlarm.update_state] *)
Definition update_state (self : t) (reason : string) (reason_data : option string)
    (new_state_value : string) (now : Z) : t :=
  {| name := name self;
     namespace := namespace self;
     metric_name := metric_name self;
     comparison_operator := comparison_operator self;
     evaluation_periods := evaluation_periods self;
     period := period self;
     threshold := threshold self;
     statistic := statistic self;
     description := description self;
     dimensions := dimensions self;
     actions_enabled := actions_enabled self;
     alarm_actions := alarm_actions self;
     ok_actions := ok_actions self;
     insufficient_data_actions := insufficient_data_actions self;
     unit := unit self;
     configuration_updated_timestamp := configuration_updated_timestamp self;
     history := history self ++
                [("StateUpdate", state_reason self, state_reason_data self,
                  state_value self, state_updated_timestamp self)];
     state_reason := reason;
     state_reason_data := reason_data;
     state_value := new_state_value;
     state_updated_timestamp := now |}.

End FakeAlarm.

(** ** MetricDatum *)

Module MetricDatum.

Record t : Type := make {
  namespace : string;
  name : string;
  value : float;
  timestamp : datetime.t;
  dimensions : list Dimension.t
}.

(** [x in self.dimensions] *)
Definition has_dimension (self : t) (x : Dimension.t) : bool :=
  existsb (fun d => Dimension.__eq__ d (Dimension.OfDimension x)) (dimensions self).

(** [any(Dimension(d["Name"], d["Value"]) not in self.dimensions for d in ds)] *)
Fixpoint any_not_in (self : t) (ds : list (gmap string string)) : result bool :=
  match ds with
  | [] => Ok false
  | d :: ds' =>
      n ← getitem d "Name";
      v ← getitem d "Value";
      if negb (has_dimension self (Dimension.make n v)) then Ok true
      else any_not_in self ds'
  end.

(** [arg != field], for an argument that may be [None]. *)
Definition differs (arg : option string) (field : string) : bool :=
  match arg with
  | Some s => negb (String.eqb s field)
  | None => true
  end.

(** [MetricDatum.filter] *)
Definition filter (self : t) (namespace name : option string)
    (dimensions : option (list (gmap string string))) : result bool :=
  if truthy namespace && differs namespace (MetricDatum.namespace self) then Ok false
  else if truthy name && differs name (MetricDatum.name self) then Ok false
  else
    match dimensions with
    | Some (d :: ds) =>
        missing ← any_not_in self (d :: ds);
        Ok (negb missing)
    | _ => Ok true
    end.

(** [MetricDatum.__init__]; [now] is what [datetime.utcnow()] reads, which
    [replace(tzinfo=tzutc())] makes aware, at offset zero. *)
Definition __init__ (namespace name : string) (value : float)
    (dimensions : list (gmap string string)) (timestamp : option datetime.t) (now : Z)
    : result t :=
  let timestamp := match timestamp with
                   | Some given => given
                   | None => datetime.make now (Some 0)
                   end in
  dims ← comprehension
            (fun dimension =>
               n ← getitem dimension "Name";
               v ← getitem dimension "Value";
               Ok (Dimension.make n v))
            dimensions;
  Ok {| namespace := namespace;
        name := name;
        value := value;
        timestamp := timestamp;
        dimensions := dims |}.

End MetricDatum.

(** ** Dashboard *)

Module Dashboard.

Record t : Type := make {
  arn : string;
  name : string;
  body : string;
  last_modified : Z
}.

(** [Dashboard.__init__].  [make_arn_for_dashboard] and the account
    identifier are not part of these sources: they are parameters; [now] is
    what [datetime.now()] reads. *)
Definition __init__ (make_arn_for_dashboard : string -> string -> string)
    (DEFAULT_ACCOUNT_ID : string) (name body : string) (now : Z) : t :=
  {| arn := make_arn_for_dashboard DEFAULT_ACCOUNT_ID name;
     name := name;
     body := body;
     last_modified := now |}.

End Dashboard.

(** [[x for x in xs if cond(x)]], for a condition that may raise. *)
Fixpoint comprehension_if {A : Type} (cond : A -> result bool) (xs : list A)
    : result (list A) :=
  match xs with
  | [] => Ok []
  | x :: xs' =>
      keep ← cond x;
      rest ← comprehension_if cond xs';
      Ok (if keep : bool then x :: rest else rest)
  end.

(** [d.values()] *)
Definition values {V : Type} (d : gmap string V) : list V := (map_to_list d).*2.

(** ** CloudWatchBackend: alarms, dashboards, paginated listing *)

Module CloudWatchBackend.

Record t : Type := make {
  alarms : gmap string FakeAlarm.t;
  dashboards : gmap string Dashboard.t;
  metric_data : list MetricDatum.t;
  paged_metric_data : gmap string (list MetricDatum.t)
}.

(** [CloudWatchBackend.__init__] *)
Definition __init__ : t :=
  {| alarms := ∅; dashboards := ∅; metric_data := []; paged_metric_data := ∅ |}.

Definition set_alarms (f : gmap string FakeAlarm.t -> gmap string FakeAlarm.t) (self : t) : t :=
  {| alarms := f (alarms self);
     dashboards := dashboards self;
     metric_data := metric_data self;
     paged_metric_data := paged_metric_data self |}.

Definition set_dashboards (f : gmap string Dashboard.t -> gmap string Dashboard.t) (self : t) : t :=
  {| alarms := alarms self;
     dashboards := f (dashboards self);
     metric_data := metric_data self;
     paged_metric_data := paged_metric_data self |}.

Definition set_paged_metric_data
    (f : gmap string (list MetricDatum.t) -> gmap string (list MetricDatum.t)) (self : t) : t :=
  {| alarms := alarms self;
     dashboards := dashboards self;
     metric_data := metric_data self;
     paged_metric_data := f (paged_metric_data self) |}.

(** The module-level [metric_providers], as what each provider's
    [get_cloudwatch_metrics()] returns at the time of the call. *)
Definition providers : Type := list (string * list MetricDatum.t).

(** [aws_metric_data] *)
Definition aws_metric_data (metric_providers : providers) : list MetricDatum.t :=
  foldl (fun md service => md ++ service.2) [] metric_providers.

(** [put_metric_alarm] *)
Definition put_metric_alarm
    (name namespace metric_name comparison_operator : string)
    (evaluation_periods period : Z) (threshold : float)
    (statistic description : string) (dimensions : list (gmap string string))
    (alarm_actions ok_actions insufficient_data_actions : list string)
    (unit : option string) (actions_enabled : bool) (now1 now2 : Z)
    : method t FakeAlarm.t :=
  do alarm <- (fun self =>
                 (self, FakeAlarm.__init__ name namespace metric_name comparison_operator
                          evaluation_periods period threshold statistic description
                          dimensions alarm_actions ok_actions insufficient_data_actions
                          unit actions_enabled now1 now2));
  do _ <- modify (set_alarms (insert name alarm));
  ret alarm.

(** [get_all_alarms] *)
Definition get_all_alarms (self : t) : list FakeAlarm.t := values (alarms self).

(** [_list_element_starts_with] *)
Fixpoint _list_element_starts_with (items : list string) (needle : string) : bool :=
  match items with
  | [] => false
  | item :: items' =>
      if String.prefix needle item then true
      else _list_element_starts_with items' needle
  end.

(** [get_alarms_by_action_prefix] *)
Definition get_alarms_by_action_prefix (self : t) (action_prefix : string)
    : list FakeAlarm.t :=
  filter (fun alarm =>
            _list_element_starts_with (FakeAlarm.alarm_actions alarm) action_prefix = true)
         (values (alarms self)).

(** [get_alarms_by_alarm_name_prefix] *)
Definition get_alarms_by_alarm_name_prefix (self : t) (name_prefix : string)
    : list FakeAlarm.t :=
  filter (fun alarm => String.prefix name_prefix (FakeAlarm.name alarm) = true)
         (values (alarms self)).

(** [get_alarms_by_state_value], as the list that the returned [filter]
    object yields. *)
Definition get_alarms_by_state_value (self : t) (target_state : string)
    : list FakeAlarm.t :=
  filter (fun alarm => FakeAlarm.state_value alarm = target_state)
         (values (alarms self)).

(** [get_alarms_by_alarm_names] *)
Definition get_alarms_by_alarm_names (self : t) (alarm_names : list string)
    : list FakeAlarm.t :=
  filter (fun alarm => FakeAlarm.name alarm ∈ alarm_names) (values (alarms self)).

(** [delete_alarms] *)
Definition delete_alarms (alarm_names : list string) : method t unit :=
  for_each alarm_names (fun alarm_name => modify (set_alarms (delete alarm_name))).

(** [set_alarm_state]; [now] is what [datetime.utcnow()] reads, and
    [interpreter] what the interpreter allows [json.loads] at the time of the
    call. *)
Definition set_alarm_state (alarm_name reason : string) (reason_data : option string)
    (state_value : string) (now : Z) (interpreter : Json.limits) : method t unit :=
  do _ <- match reason_data with
          | Some text =>
              match Json.loads interpreter text with
              | Ok _ => ret tt
              | Raise e =>
                  if is_ValueError e then
                    raise (RESTError "InvalidFormat" "StateReasonData is invalid JSON" None)
                  else raise e
              end
          | None => ret tt
          end;
  do alarms_now <- gets alarms;
  match alarms_now !! alarm_name with
  | None =>
      raise (RESTError "ResourceNotFound" ("Alarm " +:+ alarm_name +:+ " not found")
                       (Some 404))
  | Some alarm =>
      if bool_decide (state_value ∈ ["OK"; "ALARM"; "INSUFFICIENT_DATA"]) then
        modify (set_alarms
                  (insert alarm_name
                          (FakeAlarm.update_state alarm reason reason_data state_value now)))
      else
        raise (RESTError "InvalidParameterValue"
                         "StateValue is not one of OK | ALARM | INSUFFICIENT_DATA" None)
  end.

(** [get_all_metrics] *)
Definition get_all_metrics (self : t) (metric_providers : providers) : list MetricDatum.t :=
  metric_data self ++ aws_metric_data metric_providers.

(** [get_filtered_metrics] *)
Definition get_filtered_metrics (self : t) (metric_providers : providers)
    (metric_name namespace : option string)
    (dimensions : option (list (gmap string string))) : result (list MetricDatum.t) :=
  comprehension_if (fun md => MetricDatum.filter md namespace metric_name dimensions)
                   (get_all_metrics self metric_providers).

(** [_get_paginated]; [random_bits] is what [uuid4()] draws when it is
    called. *)
Definition _get_paginated (metrics : list MetricDatum.t) (random_bits : N)
    : method t (option string * list MetricDatum.t) :=
  if (500 <? length metrics)%nat then
    let next_token := Uuid.str (Uuid.uuid4 random_bits) in
    do _ <- modify (set_paged_metric_data (insert next_token (drop 500 metrics)));
    ret (Some next_token, take 500 metrics)
  else ret (None, metrics).

(** [list_metrics] *)
Definition list_metrics (metric_providers : providers) (next_token namespace metric_name : option string)
    (dimensions : option (list (gmap string string))) (random_bits : N)
    : method t (option string * list MetricDatum.t) :=
  match next_token with
  | Some (String c r) =>
      let token := String c r in
      do paged <- gets paged_metric_data;
      match paged !! token with
      | None =>
          raise (RESTError "PaginationException" "Request parameter NextToken is invalid" None)
      | Some metrics =>
          do _ <- modify (set_paged_metric_data (delete token));
          _get_paginated metrics random_bits
      end
  | _ =>
      do metrics <- (fun self =>
                       (self, get_filtered_metrics self metric_providers
                                metric_name namespace dimensions));
      _get_paginated metrics random_bits
  end.

(** [put_dashboard] *)
Definition put_dashboard (make_arn_for_dashboard : string -> string -> string)
    (DEFAULT_ACCOUNT_ID : string) (name body : string) (now : Z) : method t unit :=
  modify (set_dashboards
            (insert name
                    (Dashboard.__init__ make_arn_for_dashboard DEFAULT_ACCOUNT_ID
                                        name body now))).

(** [list_dashboards], as the list that the generator yields. *)
Definition list_dashboards (self : t) (prefix : string) : list Dashboard.t :=
  (filter (fun item : string * Dashboard.t => String.prefix prefix item.1 = true)
          (map_to_list (dashboards self))).*2.

(** [sep.join(parts)] *)
Definition join (sep : string) (parts : list string) : string :=
  match parts with
  | [] => EmptyString
  | p :: ps => foldl (fun acc q => acc +:+ sep +:+ q) p ps
  end.

(** [del d[k]] *)
Definition delitem {V : Type} (k : string) (d : gmap string V) : result (gmap string V) :=
  match d !! k with
  | Some _ => Ok (delete k d)
  | None => Raise (KeyError k)
  end.

(** [delete_dashboards].  The sets are [to_delete], [all_dashboards] and
    [left_over].  The order in which the interpreter iterates over a set of
    strings depends on the hash seed of the process and on how the set was
    built: [iterate] is that order at the time of the call.  The failure is
    the returned pair. *)
Definition delete_dashboards (iterate : gset string -> list string) (names : list string)
    : method t (bool * option string) :=
  let to_delete : gset string := list_to_set names in
  do all_dashboards <- gets (fun self => dom (dashboards self));
  let left_over : gset string := to_delete ∖ all_dashboards in
  if (0 <? size left_over)%nat then
    ret (false,
         Some ("The specified dashboard does not exist. ["
               +:+ join ", " (iterate left_over) +:+ "]"))
  else
    do _ <- for_each (iterate to_delete)
              (fun dashboard self =>
                 match delitem dashboard (dashboards self) with
                 | Ok d => (set_dashboards (fun _ => d) self, Ok tt)
                 | Raise e => (self, Raise e)
                 end);
    ret (true, None).

(** [get_dashboard] *)
Definition get_dashboard (self : t) (dashboard : string) : option Dashboard.t :=
  dashboards self !! dashboard.

End CloudWatchBackend.

(** ** daterange *)

(** A generator that is run to its end: the values that it yields, and the
    exception that ends it when it does not end by returning. *)
Definition generated (A : Type) : Type := list A * option exn.

(** [for x in generator: body], on the state of the loop.  The body has run
    on every value that the generator yields before it raises. *)
Fixpoint for_in_list {S A : Type} (xs : list A) (body : S -> A -> result S) (s : S)
    : result S :=
  match xs with
  | [] => Ok s
  | x :: xs' => s' ← body s x; for_in_list xs' body s'
  end.

Definition for_in {S A : Type} (generator : generated A) (body : S -> A -> result S)
    (s : S) : result S :=
  s' ← for_in_list generator.1 body s;
  match generator.2 with
  | Some e => Raise e
  | None => Ok s'
  end.

(** The loop [while start < stop: yield start; start = start + step]: what
    it yields, and how it ends: with the value of [start] when the test
    fails, or with the exception of the test or of the addition.  [fuel]
    bounds the number of iterations. *)
Fixpoint daterange_forward (fuel : nat) (start stop : datetime.t) (step : Z)
    : list datetime.t * result datetime.t :=
  match datetime.lt start stop with
  | Raise e => ([], Raise e)
  | Ok false => ([], Ok start)
  | Ok true =>
      match fuel with
      | O => ([], Ok start)
      | S fuel' =>
          match datetime.add start step with
          | Raise e => ([start], Raise e)
          | Ok next =>
              let '(yielded, ending) := daterange_forward fuel' next stop step in
              (start :: yielded, ending)
          end
      end
  end.

(** The loop [while stop < start: yield start; start = start + step]. *)
Fixpoint daterange_backward (fuel : nat) (start stop : datetime.t) (step : Z)
    : list datetime.t * result datetime.t :=
  match datetime.lt stop start with
  | Raise e => ([], Raise e)
  | Ok false => ([], Ok start)
  | Ok true =>
      match fuel with
      | O => ([], Ok start)
      | S fuel' =>
          match datetime.add start step with
          | Raise e => ([start], Raise e)
          | Ok next =>
              let '(yielded, ending) := daterange_backward fuel' next stop step in
              (start :: yielded, ending)
          end
      end
  end.

(** [daterange], run to its end.  The assertion fails before anything is
    yielded.  A step moves [start] by at least one microsecond towards
    [stop], so the distance between them bounds the number of iterations. *)
Definition daterange (start stop : datetime.t) (step : Z) (inclusive : bool)
    : generated datetime.t :=
  if step =? 0 then ([], Some AssertionError)
  else
    let fuel := Z.to_nat (Z.abs (datetime.instant stop - datetime.instant start)) in
    let '(yielded, ending) :=
      if 0 <? step then daterange_forward fuel start stop step
      else daterange_backward fuel start stop step in
    match ending with
    | Raise e => (yielded, Some e)
    | Ok final =>
        (yielded ++ (if inclusive && datetime.eq final stop then [final] else []), None)
    end.

(** ** Statistics *)

Module Statistics.

Record t : Type := make {
  timestamp : string;
  values : list float;
  stats : list string
}.

(** [sum(values)]: the additions from left to right, from zero (the integer
    zero, which the first addition turns into a float; the sum of no value
    is never read on a window of the output). *)
Definition py_sum (vs : list float) : float := foldl PrimFloat.add 0%float vs.

(** [min(values)] and [max(values)]: the first value, replaced by each later
    one that compares below (above) it. *)
Definition py_min (vs : list float) : result float :=
  match vs with
  | [] => Raise (ValueError "min() arg is an empty sequence")
  | v :: vs' => Ok (foldl (fun m x => if PrimFloat.ltb x m then x else m) v vs')
  end.

Definition py_max (vs : list float) : result float :=
  match vs with
  | [] => Raise (ValueError "max() arg is an empty sequence")
  | v :: vs' => Ok (foldl (fun m x => if PrimFloat.ltb m x then x else m) v vs')
  end.

(** [float(n)] for a length [n]. *)
Definition float_of_len (n : nat) : float :=
  PrimFloat.of_uint63 (Uint63.of_Z (Z.of_nat n)).

Definition requested (stat : string) (self : t) : bool :=
  bool_decide (stat ∈ stats self).

Definition sample_count (self : t) : option nat :=
  if negb (requested "SampleCount" self) then None
  else Some (length (values self)).

Definition unit (self : t) : option string := None.

Definition sum (self : t) : option float :=
  if negb (requested "Sum" self) then None
  else Some (py_sum (values self)).

Definition minimum (self : t) : result (option float) :=
  if negb (requested "Minimum" self) then Ok None
  else m ← py_min (values self); Ok (Some m).

Definition maximum (self : t) : result (option float) :=
  if negb (requested "Maximum" self) then Ok None
  else m ← py_max (values self); Ok (Some m).

Definition average (self : t) : result (option float) :=
  if negb (requested "Average" self) then Ok None
  else
    match values self with
    | [] => Raise ZeroDivisionError
    | _ :: _ =>
        Ok (Some (PrimFloat.div (py_sum (values self))
                                (float_of_len (length (values self)))))
    end.

(** [s.values.append(v)] *)
Definition append_value (self : t) (v : float) : t :=
  {| timestamp := timestamp self; values := values self ++ [v]; stats := stats self |}.

Section init.
(** [moto.core.utils.iso_8601_datetime_without_milliseconds] is not part
    of these sources: it is a parameter. *)
Variable iso_8601_datetime_without_milliseconds : datetime.t -> string.

(** [Statistics.__init__] *)
Definition __init__ (stats : list string) (dt : datetime.t) : t :=
  {| timestamp := iso_8601_datetime_without_milliseconds dt;
     values := [];
     stats := stats |}.
End init.

End Statistics.

(** ** get_metric_statistics *)

(** [sorted(xs, key=lambda x: x.timestamp)].  The sort is stable, which
    determines its result when the timestamps can be compared: an element
    goes before the first one of the sorted rest whose timestamp is not
    smaller.  A sort cannot order a naive and an aware timestamp without
    comparing one of each kind, so [sorted] raises [TypeError] exactly on the
    lists that hold both, as the insertion does. *)
Fixpoint insert_by_timestamp (x : MetricDatum.t) (l : list MetricDatum.t)
    : result (list MetricDatum.t) :=
  match l with
  | [] => Ok [x]
  | y :: l' =>
      below ← datetime.lt (MetricDatum.timestamp y) (MetricDatum.timestamp x);
      if below : bool then l'' ← insert_by_timestamp x l'; Ok (y :: l'')
      else Ok (x :: y :: l')
  end.

Fixpoint sorted_by_timestamp (l : list MetricDatum.t) : result (list MetricDatum.t) :=
  match l with
  | [] => Ok []
  | x :: l' => sorted ← sorted_by_timestamp l'; insert_by_timestamp x sorted
  end.

(** The loop
    [while idx < len(filtered_data)
           and filtered_data[idx].timestamp < (dt + period_delta):
       s.values.append(filtered_data[idx].value); idx += 1]. *)
Fixpoint while_append (fuel : nat) (filtered_data : list MetricDatum.t) (dt : datetime.t)
    (period_delta : Z) (idx : nat) (s : Statistics.t) : result (nat * Statistics.t) :=
  match fuel with
  | O => Ok (idx, s)
  | S fuel' =>
      match filtered_data !! idx with
      | Some md =>
          bound ← datetime.add dt period_delta;
          below ← datetime.lt (MetricDatum.timestamp md) bound;
          if below : bool then
            while_append fuel' filtered_data dt period_delta (S idx)
                         (Statistics.append_value s (MetricDatum.value md))
          else Ok (idx, s)
      | None => Ok (idx, s)
      end
  end.

(** The condition of the list comprehension:
    [md.namespace == namespace and md.name == metric_name
     and start_time <= md.timestamp <= end_time]. *)
Definition selected (namespace metric_name : string) (start_time end_time : datetime.t)
    (md : MetricDatum.t) : result bool :=
  if String.eqb (MetricDatum.namespace md) namespace
     && String.eqb (MetricDatum.name md) metric_name
  then
    after ← datetime.le start_time (MetricDatum.timestamp md);
    if after : bool then datetime.le (MetricDatum.timestamp md) end_time else Ok false
  else Ok false.

(** [filtered_data], once sorted. *)
Definition filtered_data (self : CloudWatchBackend.t) (namespace metric_name : string)
    (start_time end_time : datetime.t) : result (list MetricDatum.t) :=
  filtered ← comprehension_if (selected namespace metric_name start_time end_time)
                              (CloudWatchBackend.metric_data self);
  sorted_by_timestamp filtered.

Section get_metric_statistics.
Variable iso_8601_datetime_without_milliseconds : datetime.t -> string.

(** One iteration of the [for dt in daterange(...)] loop, on the loop
    state [(idx, data)]. *)
Definition window_step (filtered_data : list MetricDatum.t) (period_delta : Z)
    (stats : list string) (state : nat * list Statistics.t) (dt : datetime.t)
    : result (nat * list Statistics.t) :=
  let '(idx, data) := state in
  let s := Statistics.__init__ iso_8601_datetime_without_milliseconds stats dt in
  '(idx, s) ← while_append (length filtered_data) filtered_data dt period_delta idx s;
  match Statistics.values s with
  | [] => Ok (idx, data)
  | _ :: _ => Ok (idx, data ++ [s])
  end.

(** [CloudWatchBackend.get_metric_statistics] *)
Definition get_metric_statistics (self : CloudWatchBackend.t)
    (namespace metric_name : string) (start_time end_time : datetime.t) (period : Z)
    (stats : list string) : result (list Statistics.t) :=
  period_delta ← timedelta_seconds period;
  filtered_data ← filtered_data self namespace metric_name start_time end_time;
  match filtered_data with
  | [] => Ok []
  | first :: _ =>
      stop ← datetime.add (MetricDatum.timestamp (List.last filtered_data first))
                          period_delta;
      state ← for_in (daterange (MetricDatum.timestamp first) stop period_delta false)
                     (window_step filtered_data period_delta stats) (O, []);
      Ok state.2
  end.
End get_metric_statistics.

(** ** VPN gateways

    An attachment object is reachable from the gateway's [attachments]
    dictionary and from whoever received it from [attach_vpn_gateway]; the
    backend therefore holds a store of attachment objects, and dictionaries
    hold references into it. *)

Module VPCGatewayAttachment.

Record t : Type := make {
  vpc_id : string;
  gateway_id : option string;
  state : option string
}.

Definition set_state (new_state : string) (self : t) : t :=
  {| vpc_id := vpc_id self; gateway_id := gateway_id self; state := Some new_state |}.

End VPCGatewayAttachment.

Module VpnGateway.

(** The gateway's tags are kept by the tagging backend, which is not part
    of these sources. *)
Record t : Type := make {
  id : string;
  type : string;
  amazon_side_asn : option string;
  availability_zone : option string;
  state : string;
  attachments : gmap string positive
}.

Definition set_attachments (f : gmap string positive -> gmap string positive) (self : t) : t :=
  {| id := id self;
     type := type self;
     amazon_side_asn := amazon_side_asn self;
     availability_zone := availability_zone self;
     state := state self;
     attachments := f (attachments self) |}.

Definition set_state (new_state : string) (self : t) : t :=
  {| id := id self;
     type := type self;
     amazon_side_asn := amazon_side_asn self;
     availability_zone := availability_zone self;
     state := new_state;
     attachments := attachments self |}.

(** [VpnGateway.__init__], with [state] at its default when [None]. *)
Definition __init__ (gateway_id gateway_type : string)
    (amazon_side_asn availability_zone : option string) (state : option string) : t :=
  {| id := gateway_id;
     type := gateway_type;
     amazon_side_asn := amazon_side_asn;
     availability_zone := availability_zone;
     state := match state with
              | Some s => s
              | None => "available"
              end;
     attachments := ∅ |}.

End VpnGateway.

Module VpnGatewayBackend.

Record t : Type := make {
  vpn_gateways : gmap string VpnGateway.t;
  (** the attachment objects, by reference *)
  objects : gmap positive VPCGatewayAttachment.t;
  (** the identifiers of the VPCs that the VPC backend knows *)
  vpcs : gset string
}.

Definition set_vpn_gateways (f : gmap string VpnGateway.t -> gmap string VpnGateway.t)
    (self : t) : t :=
  {| vpn_gateways := f (vpn_gateways self); objects := objects self; vpcs := vpcs self |}.

Definition set_objects
    (f : gmap positive VPCGatewayAttachment.t -> gmap positive VPCGatewayAttachment.t)
    (self : t) : t :=
  {| vpn_gateways := vpn_gateways self; objects := f (objects self); vpcs := vpcs self |}.

(** Modelled from the spec: [get_vpc] belongs to the VPC backend, which is
    not part of these sources; the lookup fails when the VPC is unknown. *)
Definition get_vpc (vpc_id : string) : method t unit :=
  do known <- gets vpcs;
  if bool_decide (vpc_id ∈ known) then ret tt else raise (InvalidVPCIdError vpc_id).

(** [create_vpn_gateway]; [vpn_gateway_id] is what [random_vpn_gateway_id()]
    draws. *)
Definition create_vpn_gateway (vpn_gateway_id : string) (gateway_type : string)
    (amazon_side_asn availability_zone : option string) : method t VpnGateway.t :=
  let vpn_gateway :=
    VpnGateway.__init__ vpn_gateway_id gateway_type amazon_side_asn availability_zone
                        None in
  do _ <- modify (set_vpn_gateways (insert vpn_gateway_id vpn_gateway));
  ret vpn_gateway.

(** [get_vpn_gateway] *)
Definition get_vpn_gateway (vpn_gateway_id : string) : method t VpnGateway.t :=
  do gateways <- gets vpn_gateways;
  match gateways !! vpn_gateway_id with
  | Some vpn_gateway => ret vpn_gateway
  | None => raise (InvalidVpnGatewayIdError vpn_gateway_id)
  end.

(** A new attachment object: a reference that the store does not hold. *)
Definition new_attachment (a : VPCGatewayAttachment.t) : method t positive :=
  do store <- gets objects;
  let r := fresh (dom store) in
  do _ <- modify (set_objects (insert r a));
  ret r.

(** The loop
    [for key in attachments.copy(): if key.startswith("vpc-"): attachments.pop(key)]. *)
Definition pop_vpc_keys (attachments : gmap string positive) : gmap string positive :=
  foldl (fun atts key => if String.prefix "vpc-" key then delete key atts else atts)
        attachments (map_to_list attachments).*1.

(** [attach_vpn_gateway] *)
Definition attach_vpn_gateway (vpn_gateway_id vpc_id : string) : method t positive :=
  do vpn_gateway <- get_vpn_gateway vpn_gateway_id;
  do _ <- get_vpc vpc_id;
  do attachment <- new_attachment (VPCGatewayAttachment.make vpc_id None (Some "attached"));
  do _ <- modify (set_vpn_gateways
                    (insert vpn_gateway_id
                       (VpnGateway.set_attachments
                          (fun atts => <[vpc_id := attachment]> (pop_vpc_keys atts))
                          vpn_gateway)));
  ret attachment.

(** [delete_vpn_gateway] *)
Definition delete_vpn_gateway (vpn_gateway_id : string) : method t VpnGateway.t :=
  do gateways <- gets vpn_gateways;
  match gateways !! vpn_gateway_id with
  | None => raise (InvalidVpnGatewayIdError vpn_gateway_id)
  | Some deleted =>
      let deleted := VpnGateway.set_state "deleted" deleted in
      do _ <- modify (set_vpn_gateways (insert vpn_gateway_id deleted));
      ret deleted
  end.

(** [detach_vpn_gateway] *)
Definition detach_vpn_gateway (vpn_gateway_id vpc_id : string) : method t positive :=
  do vpn_gateway <- get_vpn_gateway vpn_gateway_id;
  match VpnGateway.attachments vpn_gateway !! vpc_id with
  | None =>
      raise (InvalidVpnGatewayAttachmentError (VpnGateway.id vpn_gateway) vpc_id)
  | Some detached =>
      do _ <- modify (set_objects (alter (VPCGatewayAttachment.set_state "detached") detached));
      ret detached
  end.

End VpnGatewayBackend.

(** * Vocabulary of the properties *)

(** ** Failures named by the properties *)

Definition NotFound (alarm_name : string) : exn :=
  RESTError "ResourceNotFound" ("Alarm " +:+ alarm_name +:+ " not found") (Some 404).

Definition InvalidFormat : exn :=
  RESTError "InvalidFormat" "StateReasonData is invalid JSON" None.

Definition PaginationException : exn :=
  RESTError "PaginationException" "Request parameter NextToken is invalid" None.

(** The first check of [set_alarm_state]: how [json.loads] ends on a
    [reason_data] that is not [None]. *)
Definition reason_data_check (interpreter : Json.limits) (reason_data : option string)
    : result unit :=
  match reason_data with
  | Some text => Json.loads interpreter text
  | None => Ok tt
  end.

(** What [set_alarm_state] raises when the check raises [e]: [except
    ValueError] turns a [ValueError] into the invalid-format error, and any
    other exception goes through. *)
Definition check_failure (e : exn) : exn :=
  if is_ValueError e then InvalidFormat else e.

(** What the decoder raises: a [ValueError], of which [JSONDecodeError] is
    one, or [RecursionError]. *)
Definition decoder_failure (e : exn) : Prop := is_ValueError e = true \/ e = RecursionError.

(** An interpreter with its default limits: a recursion limit of 1000 and
    integer literals of at most 4300 digits. *)
Definition default_limits : Json.limits := Json.make_limits 1000 4300.

(** ** Alarms *)

(** Every alarm is stored under its own name: the invariant of [alarms]. *)
Definition alarms_keyed_by_name (self : CloudWatchBackend.t) : Prop :=
  forall key alarm,
    CloudWatchBackend.alarms self !! key = Some alarm -> FakeAlarm.name alarm = key.

(** The dimension dictionaries that [FakeAlarm.__init__] can read. *)
Definition dimension_dicts (dimensions : list (gmap string string)) : Prop :=
  Forall (fun d => is_Some (d !! "name") /\ is_Some (d !! "value")) dimensions.

(** The dimension built from a dictionary. *)
Definition dimension_of (d : gmap string string) (dim : Dimension.t) : Prop :=
  d !! "name" = Some (Dimension.name dim) /\ d !! "value" = Some (Dimension.value dim).

(** An alarm in state ALARM with one entry of history. *)
Definition alarm_in_alarm : FakeAlarm.t :=
  FakeAlarm.make "cpu" "AWS/EC2" "CPUUtilization" "GreaterThanThreshold" 1 60
    90%float "Average" "old" [] true [] [] [] None 5
    [("StateUpdate", EmptyString, Some "{}", "OK", 5)]
    "high" None "ALARM" 7.

(** ** Dashboards *)

(** The backend apart from its dashboards. *)
Definition same_but_dashboards (self self' : CloudWatchBackend.t) : Prop :=
  CloudWatchBackend.alarms self' = CloudWatchBackend.alarms self
  /\ CloudWatchBackend.metric_data self' = CloudWatchBackend.metric_data self
  /\ CloudWatchBackend.paged_metric_data self' = CloudWatchBackend.paged_metric_data self.

(** An order of iteration over sets: every element of the set, once. *)
Definition iteration_order (iterate : gset string -> list string) : Prop :=
  forall s, iterate s ≡ₚ elements s.

(** The parts one after the other, with the separator between two of
    them. *)
Fixpoint separated (sep : string) (parts : list string) : string :=
  match parts with
  | [] => EmptyString
  | p :: ps =>
      match ps with
      | [] => p
      | _ :: _ => p +:+ sep +:+ separated sep ps
      end
  end.

(** A text occurs in another. *)
Definition occurs_in (part whole : string) : Prop :=
  exists before after, whole = before +:+ part +:+ after.

(** ** Points and windows *)

(** A number of seconds, in microseconds. *)
Definition microseconds (seconds : Z) : Z := seconds * 1000000.

(** A number of seconds that [timedelta] takes. *)
Definition timedelta_range (seconds : Z) : Prop :=
  -999999999 * 86400 <= seconds < 1000000000 * 86400.

(** [dt] moved by [delta], whether or not the result is in the range of
    [datetime]. *)
Definition shifted (dt : datetime.t) (delta : Z) : datetime.t :=
  datetime.make (datetime.wall dt + delta) (datetime.utcoffset dt).

(** A datetime that is naive, and one in the zone of UTC, so many seconds
    after 0001-01-01T00:00:00. *)
Definition naive_at (seconds : Z) : datetime.t :=
  datetime.make (microseconds seconds) None.

Definition utc_at (seconds : Z) : datetime.t :=
  datetime.make (microseconds seconds) (Some 0).

(** The instant of a point. *)
Definition ts (md : MetricDatum.t) : Z := datetime.instant (MetricDatum.timestamp md).

Definition by_timestamp (a b : MetricDatum.t) : Prop := ts a <= ts b.

(** An earlier datetime. *)
Definition earlier (a b : datetime.t) : Prop := datetime.instant a < datetime.instant b.

(** The points that the call selects, when their timestamps can be compared
    with the start and the end. *)
Definition selects (namespace metric_name : string) (start_time end_time : datetime.t)
    (md : MetricDatum.t) : bool :=
  String.eqb (MetricDatum.namespace md) namespace
  && String.eqb (MetricDatum.name md) metric_name
  && ((datetime.instant start_time <=? ts md) && (ts md <=? datetime.instant end_time)).

(** The timestamps that the call compares can be compared: the start, the
    end and the stored points of the namespace and metric are all naive or
    all aware. *)
Definition comparable (self : CloudWatchBackend.t) (namespace metric_name : string)
    (start_time end_time : datetime.t) : Prop :=
  datetime.aware end_time = datetime.aware start_time
  /\ forall md, md ∈ CloudWatchBackend.metric_data self ->
       MetricDatum.namespace md = namespace ->
       MetricDatum.name md = metric_name ->
       datetime.aware (MetricDatum.timestamp md) = datetime.aware start_time.

(** The start, the end and the stored points of the namespace and metric are
    all naive, or all aware in one zone. *)
Definition one_zone (self : CloudWatchBackend.t) (namespace metric_name : string)
    (start_time end_time : datetime.t) : Prop :=
  datetime.utcoffset end_time = datetime.utcoffset start_time
  /\ forall md, md ∈ CloudWatchBackend.metric_data self ->
       MetricDatum.namespace md = namespace ->
       MetricDatum.name md = metric_name ->
       datetime.utcoffset (MetricDatum.timestamp md) = datetime.utcoffset start_time.

(** A stable sort by instant: an element goes before the first one of the
    sorted rest whose instant is not smaller. *)
Fixpoint insert_in_order (x : MetricDatum.t) (l : list MetricDatum.t)
    : list MetricDatum.t :=
  match l with
  | [] => [x]
  | y :: l' => if ts y <? ts x then y :: insert_in_order x l' else x :: y :: l'
  end.

Fixpoint in_order (l : list MetricDatum.t) : list MetricDatum.t :=
  match l with
  | [] => []
  | x :: l' => insert_in_order x (in_order l')
  end.

(** The stored points that the call selects, by timestamp, points of one
    timestamp in the order in which they are stored. *)
Definition selected_points (self : CloudWatchBackend.t) (namespace metric_name : string)
    (start_time end_time : datetime.t) : list MetricDatum.t :=
  in_order (List.filter (selects namespace metric_name start_time end_time)
                        (CloudWatchBackend.metric_data self)).

(** The points of the window that starts at the instant [dt] and lasts
    [period_delta]. *)
Definition in_window (dt period_delta : Z) (md : MetricDatum.t) : bool :=
  (dt <=? ts md) && (ts md <? dt + period_delta).

Definition window_points (points : list MetricDatum.t) (dt period_delta : Z)
    : list MetricDatum.t :=
  List.filter (in_window dt period_delta) points.

(** The windows that hold a point, among those that start at [dts]. *)
Definition windows (points : list MetricDatum.t) (period_delta : Z)
    (dts : list datetime.t) : list (datetime.t * list MetricDatum.t) :=
  omap (fun dt =>
          match window_points points (datetime.instant dt) period_delta with
          | [] => None
          | p :: ps => Some (dt, p :: ps)
          end) dts.

(** The window starts [start], [start + step], ..., [count] of them. *)
Fixpoint progression (count : nat) (start : datetime.t) (step : Z) : list datetime.t :=
  match count with
  | O => []
  | S count' => start :: progression count' (shifted start step) step
  end.

(** The points before [bound], and their number. *)
Definition before (bound : Z) (md : MetricDatum.t) : bool := ts md <? bound.

Definition count_before (bound : Z) (points : list MetricDatum.t) : nat :=
  length (List.filter (before bound) points).

(** A window with its points, as the [Statistics] object built for it. *)
Definition statistics_of (fmt : datetime.t -> string) (stats : list string)
    (w : datetime.t * list MetricDatum.t) : Statistics.t :=
  Statistics.make (fmt w.1) (map MetricDatum.value w.2) stats.

Definition with_values (s : Statistics.t) (vs : list float) : Statistics.t :=
  Statistics.make (Statistics.timestamp s) (Statistics.values s ++ vs) (Statistics.stats s).

(** ** Reachable backends *)

(** The state values that [set_alarm_state] accepts. *)
Definition state_values : list string := ["OK"; "ALARM"; "INSUFFICIENT_DATA"].

Definition InvalidParameterValue : exn :=
  RESTError "InvalidParameterValue"
            "StateValue is not one of OK | ALARM | INSUFFICIENT_DATA" None.

(** Every stored alarm is in one of the three states. *)
Definition alarm_states_valid (self : CloudWatchBackend.t) : Prop :=
  forall key alarm,
    CloudWatchBackend.alarms self !! key = Some alarm ->
    FakeAlarm.state_value alarm ∈ state_values.

(** The backends that the methods build from the initial one, whatever the
    calls return. *)
Inductive reachable : CloudWatchBackend.t -> Prop :=
| reachable_init : reachable CloudWatchBackend.__init__
| reachable_put_metric_alarm self
    name namespace metric_name comparison_operator evaluation_periods period threshold
    statistic description dimensions alarm_actions ok_actions insufficient_data_actions
    unit actions_enabled now1 now2 :
    reachable self ->
    reachable
      (CloudWatchBackend.put_metric_alarm name namespace metric_name comparison_operator
         evaluation_periods period threshold statistic description dimensions
         alarm_actions ok_actions insufficient_data_actions unit actions_enabled
         now1 now2 self).1
| reachable_delete_alarms self alarm_names :
    reachable self -> reachable (CloudWatchBackend.delete_alarms alarm_names self).1
| reachable_set_alarm_state self alarm_name reason reason_data state_value now
    interpreter :
    reachable self ->
    reachable
      (CloudWatchBackend.set_alarm_state alarm_name reason reason_data state_value now
         interpreter self).1
| reachable_put_dashboard self make_arn account name body now :
    reachable self ->
    reachable (CloudWatchBackend.put_dashboard make_arn account name body now self).1
| reachable_delete_dashboards self iterate names :
    reachable self -> reachable (CloudWatchBackend.delete_dashboards iterate names self).1
| reachable_list_metrics self metric_providers next_token namespace metric_name
    dimensions random_bits :
    reachable self ->
    reachable
      (CloudWatchBackend.list_metrics metric_providers next_token namespace metric_name
         dimensions random_bits self).1.

(** ** Metric data and listings *)

(** The dimension dictionaries that [MetricDatum] can read. *)
Definition metric_dimension_dicts (dimensions : list (gmap string string)) : Prop :=
  Forall (fun d => is_Some (d !! "Name") /\ is_Some (d !! "Value")) dimensions.

Definition metric_dimension_of (d : gmap string string) (dim : Dimension.t) : Prop :=
  d !! "Name" = Some (Dimension.name dim) /\ d !! "Value" = Some (Dimension.value dim).

(** A client that follows the continuation tokens: it presents the token of
    the previous page until a page comes without one, at most [fuel] times;
    [draws i] is what [uuid4()] draws in call [i].  The pages, in order. *)
Fixpoint pages_after (fuel : nat) (metric_providers : CloudWatchBackend.providers)
    (next_token : option string) (draws : nat -> N) (i : nat)
    : method CloudWatchBackend.t (list (list MetricDatum.t)) :=
  match next_token, fuel with
  | None, _ => ret []
  | Some _, O => ret []
  | Some token, S fuel' =>
      do '(next_token', page) <-
        CloudWatchBackend.list_metrics metric_providers (Some token) None None None
                                       (draws i);
      do pages <- pages_after fuel' metric_providers next_token' draws (S i);
      ret (page :: pages)
  end.

(** ** Running a method *)

Ltac run_method :=
  unfold and_then, gets, modify, ret, raise; simpl.

(** * Properties *)

(** ** The models run *)

Section json_examples.
Let q : string := String Json.quote EmptyString.

Example loads_empty_object : Json.loads default_limits "{}" = Ok tt.
Proof. reflexivity. Qed.

Example loads_nested :
  Json.loads default_limits
    (" {" +:+ q +:+ "a" +:+ q +:+ ": [1, -2.5e3, true, null, {}]} ") = Ok tt.
Proof. reflexivity. Qed.

Example loads_open_brace : Json.loads default_limits "{" = Raise JSONDecodeError.
Proof. reflexivity. Qed.

Example loads_trailing_comma : Json.loads default_limits "[1,]" = Raise JSONDecodeError.
Proof. reflexivity. Qed.

Example loads_leading_zero : Json.loads default_limits "01" = Raise JSONDecodeError.
Proof. reflexivity. Qed.

(** Three levels of nesting with two levels of recursion left, before and
    after a syntax error. *)
Example loads_too_deep :
  Json.loads (Json.make_limits 2 4300) "[[[]]]" = Raise RecursionError
  /\ Json.loads (Json.make_limits 2 4300) "[[[" = Raise RecursionError
  /\ Json.loads (Json.make_limits 2 4300) "[[}[" = Raise JSONDecodeError
  /\ Json.loads (Json.make_limits 3 4300) "[[[]]]" = Ok tt.
Proof. repeat split; reflexivity. Qed.
End json_examples.

Example uuid4_of_zero :
  Uuid.str (Uuid.uuid4 0) = "00000000-0000-4000-8000-000000000000".
Proof. reflexivity. Qed.

Example uuid4_of_ones :  Uuid.str (Uuid.uuid4 (N.ones 128)) = "ffffffff-ffff-4fff-bfff-ffffffffffff".
Proof. reflexivity. Qed.

Section statistics_example.
Variable fmt : datetime.t -> string.

Let point (seconds : Z) : MetricDatum.t :=
  MetricDatum.make "N" "M" 1%float (utc_at seconds) [].

Let backend : CloudWatchBackend.t :=
  CloudWatchBackend.make ∅ ∅ [point 0; point 30; point 70; point 130] ∅.

Example get_metric_statistics_runs :
  get_metric_statistics fmt backend "N" "M" (utc_at 0) (utc_at 200) 60
                        ["SampleCount"; "Sum"]
  = Ok [Statistics.make (fmt (utc_at 0)) [1%float; 1%float] ["SampleCount"; "Sum"];
        Statistics.make (fmt (utc_at 60)) [1%float] ["SampleCount"; "Sum"];
        Statistics.make (fmt (utc_at 120)) [1%float] ["SampleCount"; "Sum"]].
Proof. reflexivity. Qed.

(** A period that [timedelta] does not take, and a naive start with aware
    points. *)
Example get_metric_statistics_raises :
  get_metric_statistics fmt backend "N" "M" (utc_at 0) (utc_at 200) (10 ^ 15) ["Sum"]
  = Raise OverflowError
  /\ get_metric_statistics fmt backend "N" "M" (naive_at 0) (utc_at 200) 60 ["Sum"]
     = Raise TypeError.
Proof. split; reflexivity. Qed.
End statistics_example.

(** ** Dimension *)

Lemma Dimension_eq_refl (d : Dimension.t) :
  Dimension.__eq__ d (Dimension.OfDimension d) = true.
Proof.
  unfold Dimension.__eq__. by rewrite !String.eqb_refl.
Qed.

Lemma Dimension_eq_spec (a b : Dimension.t) :
  Dimension.__eq__ a (Dimension.OfDimension b) = true <-> a = b.
Proof.
  destruct a as [an av], b as [bn bv]; unfold Dimension.__eq__; simpl.
  rewrite andb_true_iff, !String.eqb_eq. split.
  - by intros [-> ->].
  - by intros [= -> ->].
Qed.

(** C10 (the code departs from the claim).  [a != b] never returns: whatever
    the recursion limit and the operands, [Dimension.__ne__] ends in
    [RecursionError], so it does not return the negation of [a == b]. *)
Theorem Dimension_ne_never_returns (depth : nat) (self : Dimension.t) (it : Dimension.item) :
  Dimension.__ne__ depth self it = Raise RecursionError
  /\ Dimension.__ne__ depth self it <> Ok (negb (Dimension.__eq__ self it)).
Proof.
  assert (H : Dimension.__ne__ depth self it = Raise RecursionError)
    by (induction depth as [|depth IH]; [reflexivity | exact IH]).
  by rewrite H.
Qed.

(** ** Alarms *)

(** A syntax error is the only failure of the scanner of strings and
    constants. *)
Lemma syntax_cases (rest : option string) (e : exn) :
  Json.syntax rest = Raise e -> e = JSONDecodeError.
Proof. destruct rest; simpl; congruence. Qed.

Lemma scan_cases (max_str_digits fuel : nat) :
  (forall depth s e,
     Json.scan_once max_str_digits fuel depth s = Raise e -> decoder_failure e)
  /\ (forall depth s e,
        Json.array_items max_str_digits fuel depth s = Raise e -> decoder_failure e)
  /\ (forall depth s e,
        Json.object_members max_str_digits fuel depth s = Raise e -> decoder_failure e).
Proof.
  assert (Hsyntax : decoder_failure JSONDecodeError) by (by left).
  assert (Hrec : decoder_failure RecursionError) by (by right).
  assert (Hs : forall rest e, Json.syntax rest = Raise e -> decoder_failure e)
    by (intros rest e ->%syntax_cases; exact Hsyntax).
  induction fuel as [|fuel (IHscan & IHarray & IHobject)].
  { repeat split; intros depth s e; simpl; intros [= <-]; exact Hsyntax. }
  split; [|split]; intros depth s e.
  - cbn [Json.scan_once]. destruct s as [|c r]; [by intros [= <-]|].
    destruct (Ascii.eqb c Json.quote); [apply Hs|].
    destruct (Ascii.eqb c "{").
    { destruct depth as [|depth]; [by intros [= <-]|].
      destruct (Json.skip_ws r) as [|c' r']; [by intros [= <-]|].
      destruct (Ascii.eqb c' "}"); [done|].
      destruct (Ascii.eqb c' Json.quote); [apply IHobject | by intros [= <-]]. }
    destruct (Ascii.eqb c "[").
    { destruct depth as [|depth]; [by intros [= <-]|].
      destruct (Json.skip_ws r) as [|c' r'] eqn:Hr; [apply IHarray|].
      destruct c' as [[] [] [] [] [] [] [] []]; first [done | apply IHarray]. }
    destruct (Json.match_number (String c r)) as [[[digits|] r']|].
    + unfold Json.int_of_literal. destruct (_ && _); simpl; [|done].
      intros [= <-]. by left.
    + done.
    + repeat (match goal with
              | |- context [if ?b then _ else _] => destruct b; [apply Hs|]
              end).
      by intros [= <-].
  - cbn [Json.array_items].
    destruct (Json.scan_once max_str_digits fuel depth s) as [r|e'] eqn:Hscan; simpl.
    + destruct (Json.skip_ws r) as [|c r']; [by intros [= <-]|].
      destruct (Ascii.eqb c "]"); [done|].
      destruct (Ascii.eqb c ","); [apply IHarray | by intros [= <-]].
    + intros [= <-]. by eapply IHscan.
  - cbn [Json.object_members].
    destruct (Json.syntax (Json.scanstring s)) as [r|e'] eqn:Hkey; simpl;
      [|intros [= <-]; by eapply Hs].
    destruct (Json.skip_ws r) as [|c r1]; [by intros [= <-]|].
    assert (Hvalue : forall r1 e,
               (r2 ← Json.scan_once max_str_digits fuel depth (Json.skip_ws r1);
                match Json.skip_ws r2 with
                | EmptyString => Raise JSONDecodeError
                | String c0 r3 =>
                    if Ascii.eqb c0 "}" then Ok r3
                    else if Ascii.eqb c0 "," then
                      match Json.skip_ws r3 with
                      | EmptyString => Raise JSONDecodeError
                      | String c' r4 =>
                          if Ascii.eqb c' Json.quote
                          then Json.object_members max_str_digits fuel depth r4
                          else Raise JSONDecodeError
                      end
                    else Raise JSONDecodeError
                end) = Raise e -> decoder_failure e).
    { clear r1. intros r1 e0.
      destruct (Json.scan_once max_str_digits fuel depth (Json.skip_ws r1))
        as [r2|e'] eqn:Hscan; simpl; [|intros [= <-]; by eapply IHscan].
      destruct (Json.skip_ws r2) as [|c0 r3]; [by intros [= <-]|].
      destruct (Ascii.eqb c0 "}"); [done|].
      destruct (Ascii.eqb c0 ","); [|by intros [= <-]].
      destruct (Json.skip_ws r3) as [|c' r4]; [by intros [= <-]|].
      destruct (Ascii.eqb c' Json.quote); [apply IHobject | by intros [= <-]]. }
    destruct c as [[] [] [] [] [] [] [] []];
      first [by intros [= <-] | apply Hvalue].
Qed.

(** [json.loads] returns, or raises a [ValueError] or [RecursionError]. *)
Lemma loads_cases (interpreter : Json.limits) (text : string) :
  Json.loads interpreter text = Ok tt
  \/ exists e, Json.loads interpreter text = Raise e /\ decoder_failure e.
Proof.
  unfold Json.loads.
  destruct (Json.scan_once _ _ _ _) as [r|e] eqn:Hscan; simpl.
  - destruct (Json.skip_ws r); [by left|]. right. eexists. split; [done|]. by left.
  - right. exists e. split; [done|]. exact (proj1 (scan_cases _ _) _ _ _ Hscan).
Qed.

Lemma reason_data_check_cases (interpreter : Json.limits) (reason_data : option string) :
  reason_data_check interpreter reason_data = Ok tt
  \/ exists e, reason_data_check interpreter reason_data = Raise e /\ decoder_failure e.
Proof.
  destruct reason_data as [text|]; [apply loads_cases | by left].
Qed.

(** The outcomes of [set_alarm_state], in the order of its checks. *)
Lemma set_alarm_state_cases (alarm_name reason : string) (reason_data : option string)
    (state_value : string) (now : Z) (interpreter : Json.limits)
    (self : CloudWatchBackend.t) :
  CloudWatchBackend.set_alarm_state alarm_name reason reason_data state_value now
    interpreter self
  = match reason_data_check interpreter reason_data with
    | Raise e => (self, Raise (check_failure e))
    | Ok _ =>
        match CloudWatchBackend.alarms self !! alarm_name with
        | None => (self, Raise (NotFound alarm_name))
        | Some alarm =>
            if bool_decide (state_value ∈ state_values) then
              (CloudWatchBackend.set_alarms
                 (insert alarm_name
                    (FakeAlarm.update_state alarm reason reason_data state_value now))
                 self,
               Ok tt)
            else (self, Raise InvalidParameterValue)
        end
    end.
Proof.
  unfold CloudWatchBackend.set_alarm_state, reason_data_check, check_failure.
  destruct reason_data as [text|]; run_method.
  - destruct (Json.loads interpreter text) as [[]|e]; simpl.
    + destruct (CloudWatchBackend.alarms self !! alarm_name); [|done].
      by destruct (bool_decide _).
    + by destruct (is_ValueError e).
  - destruct (CloudWatchBackend.alarms self !! alarm_name); [|done].
    by destruct (bool_decide _).
Qed.




Lemma keyed_by_name_init : alarms_keyed_by_name CloudWatchBackend.__init__.
Proof. intros key alarm H. simpl in H. by rewrite lookup_empty in H. Qed.

Lemma comprehension_dimensions (dimensions : list (gmap string string)) :
  dimension_dicts dimensions ->
  exists dims,
    comprehension
      (fun dimension =>
         n ← getitem dimension "name";
         v ← getitem dimension "value";
         Ok (Dimension.make n v)) dimensions = Ok dims
    /\ Forall2 dimension_of dimensions dims.
Proof.
  set (f := fun dimension : gmap string string => _).
  induction 1 as [|d ds [[n Hn] [v Hv]] _ (dims & IH & Hall)].
  - exists []. by split.
  - exists (Dimension.make n v :: dims).
    change (comprehension f (d :: ds))
      with (y ← f d; ys ← comprehension f ds; Ok (y :: ys)).
    rewrite IH. unfold f, getitem. rewrite Hn, Hv. simpl.
    split; [done|]. by constructor.
Qed.

Lemma filter_none {A : Type} (P : A -> Prop) `{!forall x, Decision (P x)} (l : list A) :
  Forall (fun x => ~ P x) l -> filter P l = [].
Proof.
  induction 1 as [|x l Hx _ IH]; [done|].
  by rewrite filter_cons_False.
Qed.

Lemma filter_values_insert {V : Type} (P : V -> Prop) `{!forall v, Decision (P v)}
    (m : gmap string V) (k : string) (v : V) :
  P v ->
  (forall k' v', k' <> k -> m !! k' = Some v' -> ~ P v') ->
  filter P (values (<[k := v]> m)) = [v].
Proof.
  intros Hv Hothers.
  apply Permutation_singleton_r.
  unfold values. rewrite <- insert_delete_eq.
  rewrite map_to_list_insert by apply lookup_delete_eq.
  rewrite fmap_cons, filter_cons_True by done. simpl.
  apply Permutation_skip.
  rewrite filter_none; [done|].
  apply Forall_fmap, Forall_forall. intros [k' v'] Hin. simpl.
  apply elem_of_map_to_list in Hin.
  apply lookup_delete_Some in Hin as [Hne Hlook]. eauto.
Qed.

Section put_metric_alarm.
Variables (name namespace metric_name comparison_operator : string).
Variables (evaluation_periods period : Z) (threshold : float).
Variables (statistic description : string) (dimensions : list (gmap string string)).
Variables (alarm_actions ok_actions insufficient_data_actions : list string).
Variables (unit : option string) (actions_enabled : bool) (now1 now2 : Z).

Local Abbreviation put :=
  (CloudWatchBackend.put_metric_alarm name namespace metric_name comparison_operator
     evaluation_periods period threshold statistic description dimensions
     alarm_actions ok_actions insufficient_data_actions unit actions_enabled now1 now2).

(** What [put_metric_alarm] does when the dimensions can be read. *)
Lemma put_metric_alarm_runs (self : CloudWatchBackend.t) :
  dimension_dicts dimensions ->
  exists dims,
    Forall2 dimension_of dimensions dims
    /\ let alarm :=
         FakeAlarm.make name namespace metric_name comparison_operator
           evaluation_periods period threshold statistic description dims
           actions_enabled alarm_actions ok_actions insufficient_data_actions unit
           now1 [] EmptyString (Some "{}") "OK" now2 in
       put self = (CloudWatchBackend.set_alarms (insert name alarm) self, Ok alarm).
Proof.
  intros Hdims.
  destruct (comprehension_dimensions dimensions Hdims) as (dims & Hcomp & Hall).
  exists dims. split; [done|].
  unfold CloudWatchBackend.put_metric_alarm, FakeAlarm.__init__.
  run_method. by rewrite Hcomp.
Qed.

Lemma put_metric_alarm_keyed (self self' : CloudWatchBackend.t) (r : result FakeAlarm.t) :
  alarms_keyed_by_name self -> put self = (self', r) -> alarms_keyed_by_name self'.
Proof.
  intros Hinv. unfold CloudWatchBackend.put_metric_alarm, FakeAlarm.__init__.
  run_method.
  destruct (comprehension _ dimensions) as [dims|e]; simpl; intros [= <- <-]; [|done].
  intros key alarm. simpl. rewrite lookup_insert. case_decide as Hk.
  - by intros [= <-].
  - apply Hinv.
Qed.

(** C7.  After [put_metric_alarm], [get_alarms_by_alarm_names] on the name
    returns the one alarm just built: the arguments in its configuration
    fields, state OK, empty reason, reason data "{}", empty history.  This
    holds whatever alarm the name held before. *)
Theorem put_then_get_by_name (self : CloudWatchBackend.t) :
  alarms_keyed_by_name self ->
  dimension_dicts dimensions ->
  exists alarm self',
    put self = (self', Ok alarm)
    /\ CloudWatchBackend.get_alarms_by_alarm_names self' [name] = [alarm]
    /\ FakeAlarm.name alarm = name
    /\ FakeAlarm.namespace alarm = namespace
    /\ FakeAlarm.metric_name alarm = metric_name
    /\ FakeAlarm.comparison_operator alarm = comparison_operator
    /\ FakeAlarm.evaluation_periods alarm = evaluation_periods
    /\ FakeAlarm.period alarm = period
    /\ FakeAlarm.threshold alarm = threshold
    /\ FakeAlarm.statistic alarm = statistic
    /\ FakeAlarm.description alarm = description
    /\ Forall2 dimension_of dimensions (FakeAlarm.dimensions alarm)
    /\ FakeAlarm.actions_enabled alarm = actions_enabled
    /\ FakeAlarm.alarm_actions alarm = alarm_actions
    /\ FakeAlarm.ok_actions alarm = ok_actions
    /\ FakeAlarm.insufficient_data_actions alarm = insufficient_data_actions
    /\ FakeAlarm.unit alarm = unit
    /\ FakeAlarm.state_value alarm = "OK"
    /\ FakeAlarm.state_reason alarm = EmptyString
    /\ FakeAlarm.state_reason_data alarm = Some "{}"
    /\ FakeAlarm.history alarm = [].
Proof.
  intros Hinv Hdims.
  destruct (put_metric_alarm_runs self Hdims) as (dims & Hall & Hput).
  eexists _, _. split; [exact Hput|].
  split; [|by repeat split].
  unfold CloudWatchBackend.get_alarms_by_alarm_names. simpl.
  apply filter_values_insert.
  - simpl. set_solver.
  - intros k' a' Hne Hlook Hin. apply Hinv in Hlook.
    apply list_elem_of_singleton in Hin. congruence.
Qed.

End put_metric_alarm.

Lemma delete_alarms_keyed (alarm_names : list string) (self : CloudWatchBackend.t) :
  alarms_keyed_by_name self ->
  alarms_keyed_by_name (CloudWatchBackend.delete_alarms alarm_names self).1.
Proof.
  revert self. induction alarm_names as [|n ns IH]; intros self Hinv; [done|].
  unfold CloudWatchBackend.delete_alarms. simpl. run_method.
  apply IH. intros key alarm. simpl.
  rewrite lookup_delete_Some. intros [_ H]. by apply Hinv.
Qed.

Lemma set_alarm_state_keyed (alarm_name reason : string) (reason_data : option string)
    (state_value : string) (now : Z) (interpreter : Json.limits)
    (self : CloudWatchBackend.t) :
  alarms_keyed_by_name self ->
  alarms_keyed_by_name
    (CloudWatchBackend.set_alarm_state alarm_name reason reason_data state_value now
       interpreter self).1.
Proof.
  intros Hinv. rewrite set_alarm_state_cases.
  destruct (reason_data_check interpreter reason_data) as [[]|e]; [|exact Hinv].
  destruct (CloudWatchBackend.alarms self !! alarm_name) as [alarm|] eqn:Hlook;
    [|exact Hinv].
  case_bool_decide; [|exact Hinv].
  intros key a. simpl. rewrite lookup_insert. case_decide as Hk; [|apply Hinv].
  intros [= <-]. simpl. subst key. by apply Hinv.
Qed.

Lemma put_then_get_by_name_witness :
  let prior :=
    CloudWatchBackend.set_alarms (insert "cpu" alarm_in_alarm) CloudWatchBackend.__init__ in
  let dims : list (gmap string string) :=
    [<["name" := "InstanceId"]> (<["value" := "i-1"]> ∅)] in
  exists alarm self',
    CloudWatchBackend.put_metric_alarm "cpu" "N" "M" "LessThanThreshold" 2 300
      1%float "Sum" "new" dims ["a"] ["o"] ["i"] (Some "Count") false 10 11 prior
    = (self', Ok alarm)
    /\ CloudWatchBackend.get_alarms_by_alarm_names self' ["cpu"] = [alarm]
    /\ FakeAlarm.state_value alarm = "OK"
    /\ FakeAlarm.history alarm = [].
Proof.
  intros prior dims.
  assert (Hinv : alarms_keyed_by_name prior).
  { intros key alarm H. simpl in H.
    apply lookup_insert_Some in H as [[<- <-] | [_ H]]; [reflexivity|].
    by rewrite lookup_empty in H. }
  assert (Hdims : dimension_dicts dims).
  { repeat constructor; eexists; vm_compute; reflexivity. }
  destruct (put_then_get_by_name "cpu" "N" "M" "LessThanThreshold" 2 300
              1%float "Sum" "new" dims ["a"] ["o"] ["i"] (Some "Count") false 10 11
              prior Hinv Hdims)
    as (alarm & self' & Hput & Hget & Hrest).
  exists alarm, self'. repeat split; try done; apply Hrest.
Defined.

(** ** Dashboards *)

(** The loop [for dashboard in to_delete: del self.dashboards[dashboard]]
    on names that are all present: no [KeyError], every name removed. *)
Lemma delete_each_present (keys : list string) (self : CloudWatchBackend.t) :
  NoDup keys ->
  (forall k, k ∈ keys -> is_Some (CloudWatchBackend.dashboards self !! k)) ->
  exists self',
    for_each keys
      (fun dashboard self =>
         match CloudWatchBackend.delitem dashboard (CloudWatchBackend.dashboards self) with
         | Ok d => (CloudWatchBackend.set_dashboards (fun _ => d) self, Ok tt)
         | Raise e => (self, Raise e)
         end) self = (self', Ok tt)
    /\ same_but_dashboards self self'
    /\ forall k, CloudWatchBackend.dashboards self' !! k
                 = if decide (k ∈ keys) then None
                   else CloudWatchBackend.dashboards self !! k.
Proof.
  revert self. induction keys as [|key keys IH]; intros self Hnodup Hpresent.
  - exists self. split; [done|]. split; [done|]. intros k.
    case_decide as Hk; [by apply elem_of_nil in Hk | done].
  - apply NoDup_cons in Hnodup as [Hfresh Hnodup].
    destruct (Hpresent key) as [d Hd]; [by left|].
    simpl. unfold and_then at 1, CloudWatchBackend.delitem at 1. rewrite Hd.
    set (self1 := CloudWatchBackend.set_dashboards _ self).
    destruct (IH self1 Hnodup) as (self' & Hrun & Hsame & Hlook).
    { intros k Hk. subst self1. simpl. rewrite lookup_delete_ne.
      - apply Hpresent. by right.
      - intros ->. done. }
    exists self'. split; [exact Hrun|]. split.
    { destruct Hsame as (? & ? & ?). by repeat split. }
    intros k. rewrite Hlook. subst self1. simpl.
    destruct (decide (k ∈ keys)) as [Hk|Hk], (decide (k ∈ key :: keys)) as [Hk'|Hk'];
      try done.
    + exfalso. apply Hk'. by right.
    + apply elem_of_cons in Hk' as [->|?]; [apply lookup_delete_eq | done].
    + rewrite lookup_delete_ne; [done|]. intros <-. apply Hk'. by left.
Qed.

Lemma string_app_assoc (a b c : string) : (a +:+ b) +:+ c = a +:+ b +:+ c.
Proof.
  induction a as [|x a IH]; [done|].
  change (String x ((a +:+ b) +:+ c) = String x (a +:+ b +:+ c)). by rewrite IH.
Qed.

(** [sep.join(parts)] puts the separator between the parts. *)
Lemma join_separated (sep : string) (parts : list string) :
  CloudWatchBackend.join sep parts = separated sep parts.
Proof.
  unfold CloudWatchBackend.join. destruct parts as [|p ps]; [done|].
  assert (H : forall acc q qs,
             foldl (fun acc q => acc +:+ sep +:+ q) acc (q :: qs)
             = acc +:+ sep +:+ separated sep (q :: qs)).
  { intros acc q qs. revert acc q. induction qs as [|q' qs IH]; intros acc q; [done|].
    change (foldl (fun acc q => acc +:+ sep +:+ q) acc (q :: q' :: qs))
      with (foldl (fun acc q => acc +:+ sep +:+ q) (acc +:+ sep +:+ q) (q' :: qs)).
    rewrite IH. cbn [separated]. by rewrite !string_app_assoc. }
  destruct ps as [|q qs]; [done|]. apply H.
Qed.

Lemma separated_occurs (sep : string) (parts : list string) (part : string) :
  part ∈ parts -> occurs_in part (separated sep parts).
Proof.
  induction parts as [|p ps IH]; [by intros ?%elem_of_nil|].
  intros [->|Hin]%elem_of_cons; cbn [separated].
  - destruct ps as [|q qs].
    + exists EmptyString, EmptyString. clear. induction p as [|x p IH]; [done|].
      change (String x p = String x (EmptyString +:+ p +:+ EmptyString)).
      by rewrite <- IH.
    + by exists EmptyString, (sep +:+ separated sep (q :: qs)).
  - destruct ps as [|q qs]; [by apply elem_of_nil in Hin|].
    destruct (IH Hin) as (before & after & ->).
    exists (p +:+ sep +:+ before), after. by rewrite !string_app_assoc.
Qed.

Lemma iteration_order_elem_of (iterate : gset string -> list string) (s : gset string)
    (x : string) :
  iteration_order iterate -> x ∈ iterate s <-> x ∈ s.
Proof. intros H. by rewrite (H s), elem_of_elements. Qed.

Lemma iteration_order_NoDup (iterate : gset string -> list string) (s : gset string) :
  iteration_order iterate -> NoDup (iterate s).
Proof. intros H. rewrite (H s). apply NoDup_elements. Qed.

(** The names that [delete_dashboards] finds missing. *)
Lemma left_over_spec (self : CloudWatchBackend.t) (names : list string) (n : string) :
  n ∈ (list_to_set names : gset string) ∖ dom (CloudWatchBackend.dashboards self)
  <-> n ∈ names /\ CloudWatchBackend.dashboards self !! n = None.
Proof. rewrite elem_of_difference, elem_of_list_to_set, not_elem_of_dom. done. Qed.

(** C5.  When every requested name exists, [delete_dashboards] succeeds and
    removes exactly the requested dashboards.  When some requested name does
    not exist, it returns the failure and the backend is unchanged; the
    message lists the missing names, each of them once and no other name,
    separated by a comma and a space between the brackets, in the order in
    which the set of the missing names is iterated; so every missing name
    occurs in the message.  With only "a" stored, deleting "a" and "missing"
    changes nothing and reports "missing". *)
Theorem delete_dashboards_all_or_nothing (iterate : gset string -> list string) :
  iteration_order iterate ->
  (forall (self : CloudWatchBackend.t) (names : list string),
     (forall n, n ∈ names -> is_Some (CloudWatchBackend.dashboards self !! n)) ->
     exists self',
       CloudWatchBackend.delete_dashboards iterate names self = (self', Ok (true, None))
       /\ same_but_dashboards self self'
       /\ forall k, CloudWatchBackend.dashboards self' !! k
                    = if decide (k ∈ names) then None
                      else CloudWatchBackend.dashboards self !! k)
  /\ (forall (self : CloudWatchBackend.t) (names : list string),
        (exists n, n ∈ names /\ CloudWatchBackend.dashboards self !! n = None) ->
        exists (missing : list string) (message : string),
          CloudWatchBackend.delete_dashboards iterate names self
          = (self, Ok (false, Some message))
          /\ NoDup missing
          /\ (forall n, n ∈ missing
                        <-> n ∈ names /\ CloudWatchBackend.dashboards self !! n = None)
          /\ message = "The specified dashboard does not exist. ["
                       +:+ separated ", " missing +:+ "]"
          /\ (forall n, n ∈ names -> CloudWatchBackend.dashboards self !! n = None ->
                occurs_in n message))
  /\ (forall (self : CloudWatchBackend.t) (a : Dashboard.t),
        CloudWatchBackend.dashboards self = {["a" := a]} ->
        CloudWatchBackend.delete_dashboards iterate ["a"; "missing"] self
        = (self, Ok (false,
                     Some "The specified dashboard does not exist. [missing]"))
        /\ CloudWatchBackend.get_dashboard self "a" = Some a).
Proof.
  intros Horder.
  assert (Hmissing : forall (self : CloudWatchBackend.t) (names : list string),
             (exists n, n ∈ names /\ CloudWatchBackend.dashboards self !! n = None) ->
             CloudWatchBackend.delete_dashboards iterate names self
             = (self,
                Ok (false,
                    Some ("The specified dashboard does not exist. ["
                          +:+ separated ", "
                                (iterate ((list_to_set names : gset string)
                                          ∖ dom (CloudWatchBackend.dashboards self)))
                          +:+ "]")))).
  { intros self names (n & Hn & Hnone).
    unfold CloudWatchBackend.delete_dashboards. run_method.
    set (left_over := _ ∖ _).
    assert (Hpos : (0 < size left_over)%nat).
    { assert (size left_over <> 0%nat); [|lia].
      apply size_non_empty_iff. intros Heq.
      apply (not_elem_of_empty (C := gset string) n). rewrite <- Heq.
      by apply left_over_spec. }
    apply Nat.ltb_lt in Hpos. rewrite Hpos. by rewrite join_separated. }
  split; [|split].
  - intros self names Hpresent.
    unfold CloudWatchBackend.delete_dashboards. run_method.
    set (left_over := _ ∖ _).
    assert (Hempty : size left_over = 0%nat).
    { apply size_empty_iff. intros n. split; [|by intros ?%not_elem_of_empty].
      intros [Hn Hnone]%left_over_spec. destruct (Hpresent n Hn) as [d Hd]. congruence. }
    rewrite Hempty. simpl.
    destruct (delete_each_present (iterate (list_to_set names : gset string)) self)
      as (self' & Hrun & Hsame & Hlook).
    { by apply iteration_order_NoDup. }
    { intros k Hk. apply Hpresent.
      by apply (iteration_order_elem_of iterate), elem_of_list_to_set in Hk. }
    rewrite Hrun. exists self'. split; [done|]. split; [done|].
    intros k. rewrite Hlook.
    destruct (decide (k ∈ names)) as [Hk|Hk].
    + rewrite decide_True; [done|].
      by apply (iteration_order_elem_of iterate), elem_of_list_to_set.
    + rewrite decide_False; [done|].
      by rewrite (iteration_order_elem_of iterate), elem_of_list_to_set.
  - intros self names Hsome.
    pose proof (Hmissing self names Hsome) as Hrun.
    set (left_over := (list_to_set names : gset string)
                      ∖ dom (CloudWatchBackend.dashboards self)) in Hrun.
    assert (Hin : forall n, n ∈ iterate left_over
                            <-> n ∈ names /\ CloudWatchBackend.dashboards self !! n = None).
    { intros n. rewrite (iteration_order_elem_of iterate) by done. apply left_over_spec. }
    clearbody left_over.
    eexists (iterate left_over), _.
    split; [exact Hrun|]. split; [by apply iteration_order_NoDup|].
    split; [exact Hin|]. split; [reflexivity|].
    intros n Hn Hnone.
    destruct (separated_occurs ", " (iterate left_over) n) as (before & after & Heq).
    { apply Hin. by split. }
    exists ("The specified dashboard does not exist. [" +:+ before), (after +:+ "]").
    rewrite Heq. by rewrite !string_app_assoc.
  - intros self a Hdash. split; [|unfold CloudWatchBackend.get_dashboard;
                                   rewrite Hdash; apply lookup_singleton_eq].
    rewrite Hmissing.
    + assert (Hleft : (list_to_set ["a"; "missing"] : gset string)
                      ∖ dom (CloudWatchBackend.dashboards self) = {["missing"]}).
      { apply set_eq. intros n. rewrite left_over_spec, Hdash, elem_of_singleton.
        rewrite !elem_of_cons, elem_of_nil, lookup_singleton_None. split.
        - intros [[->|[->|[]]] Hne]; done.
        - intros ->. split; [by right; left | done]. }
      rewrite Hleft.
      assert (Hone : iterate {["missing"]} = ["missing"]).
      { apply Permutation_singleton_r. rewrite (Horder _). by rewrite elements_singleton. }
      by rewrite Hone.
    + exists "missing". split; [by right; left|].
      rewrite Hdash. by apply lookup_singleton_None.
Qed.

(** ** Paginated listing *)

Lemma uuid_str_not_empty (u : N) : exists c r, Uuid.str u = String c r.
Proof. eexists _, _. reflexivity. Qed.

Lemma get_paginated_more (metrics : list MetricDatum.t) (random_bits : N)
    (self : CloudWatchBackend.t) :
  (500 < length metrics)%nat ->
  CloudWatchBackend._get_paginated metrics random_bits self
  = (CloudWatchBackend.set_paged_metric_data
       (insert (Uuid.str (Uuid.uuid4 random_bits)) (drop 500 metrics)) self,
     Ok (Some (Uuid.str (Uuid.uuid4 random_bits)), take 500 metrics)).
Proof.
  intros H. unfold CloudWatchBackend._get_paginated.
  apply Nat.ltb_lt in H. by rewrite H.
Qed.

Lemma get_paginated_last (metrics : list MetricDatum.t) (random_bits : N)
    (self : CloudWatchBackend.t) :
  (length metrics <= 500)%nat ->
  CloudWatchBackend._get_paginated metrics random_bits self = (self, Ok (None, metrics)).
Proof.
  intros H. unfold CloudWatchBackend._get_paginated.
  apply Nat.ltb_ge in H. by rewrite H.
Qed.

(** Without filters the selection keeps every metric. *)
Lemma get_filtered_metrics_no_filter (self : CloudWatchBackend.t)
    (metric_providers : CloudWatchBackend.providers) :
  CloudWatchBackend.get_filtered_metrics self metric_providers None None None
  = Ok (CloudWatchBackend.get_all_metrics self metric_providers).
Proof.
  unfold CloudWatchBackend.get_filtered_metrics.
  induction (CloudWatchBackend.get_all_metrics self metric_providers) as [|md l IH];
    [done|].
  simpl. by rewrite IH.
Qed.

(** A call that presents a token that is not outstanding. *)
Lemma list_metrics_unknown_token (metric_providers : CloudWatchBackend.providers)
    (token : string) (namespace metric_name : option string)
    (dimensions : option (list (gmap string string))) (random_bits : N)
    (self : CloudWatchBackend.t) :
  token <> EmptyString ->
  CloudWatchBackend.paged_metric_data self !! token = None ->
  CloudWatchBackend.list_metrics metric_providers (Some token) namespace metric_name
    dimensions random_bits self
  = (self, Raise PaginationException).
Proof.
  intros Hne Hnone. destruct token as [|c r]; [done|].
  unfold CloudWatchBackend.list_metrics. run_method. by rewrite Hnone.
Qed.

(** A call that presents an outstanding token: the token is consumed and
    the metrics kept under it are paginated again. *)
Lemma list_metrics_known_token (metric_providers : CloudWatchBackend.providers)
    (token : string) (namespace metric_name : option string)
    (dimensions : option (list (gmap string string))) (random_bits : N)
    (self : CloudWatchBackend.t) (metrics : list MetricDatum.t) :
  token <> EmptyString ->
  CloudWatchBackend.paged_metric_data self !! token = Some metrics ->
  CloudWatchBackend.list_metrics metric_providers (Some token) namespace metric_name
    dimensions random_bits self
  = CloudWatchBackend._get_paginated metrics random_bits
      (CloudWatchBackend.set_paged_metric_data (delete token) self).
Proof.
  intros Hne Hsome. destruct token as [|c r]; [done|].
  unfold CloudWatchBackend.list_metrics. run_method. by rewrite Hsome.
Qed.

(** C2.  With no outstanding token and 1200 metrics, listing without filters
    and without a token returns the first 500 metrics and a token; presenting
    that token returns the next 500 and a new token; presenting the new token
    returns the last 200 and no token; after that, presenting either token
    fails with the pagination error.  In every state, a token that is not
    outstanding fails with the pagination error and changes nothing, and a
    token that is presented is no longer outstanding after the call unless
    that very call issued it anew. *)
Theorem list_metrics_pagination :
  (forall (self : CloudWatchBackend.t) (metric_providers : CloudWatchBackend.providers)
          (namespace metric_name : option string)
          (dimensions : option (list (gmap string string))) (r1 r2 r3 r4 : N),
     CloudWatchBackend.paged_metric_data self = ∅ ->
     length (CloudWatchBackend.get_all_metrics self metric_providers) = 1200%nat ->
     let metrics := CloudWatchBackend.get_all_metrics self metric_providers in
     let list_metrics token :=
       CloudWatchBackend.list_metrics metric_providers token namespace metric_name
         dimensions in
     exists (t1 t2 : string) (self1 self2 self3 : CloudWatchBackend.t),
       CloudWatchBackend.list_metrics metric_providers None None None None r1 self
       = (self1, Ok (Some t1, take 500 metrics))
       /\ list_metrics (Some t1) r2 self1
          = (self2, Ok (Some t2, take 500 (drop 500 metrics)))
       /\ list_metrics (Some t2) r3 self2 = (self3, Ok (None, drop 1000 metrics))
       /\ length (take 500 metrics) = 500%nat
       /\ length (take 500 (drop 500 metrics)) = 500%nat
       /\ length (drop 1000 metrics) = 200%nat
       /\ metrics = take 500 metrics ++ take 500 (drop 500 metrics) ++ drop 1000 metrics
       /\ list_metrics (Some t1) r4 self3 = (self3, Raise PaginationException)
       /\ list_metrics (Some t2) r4 self3 = (self3, Raise PaginationException))
  /\ (forall (self : CloudWatchBackend.t) (metric_providers : CloudWatchBackend.providers)
             (token : string) (namespace metric_name : option string)
             (dimensions : option (list (gmap string string))) (random_bits : N),
        token <> EmptyString ->
        CloudWatchBackend.paged_metric_data self !! token = None ->
        CloudWatchBackend.list_metrics metric_providers (Some token) namespace
          metric_name dimensions random_bits self
        = (self, Raise PaginationException))
  /\ (forall (self : CloudWatchBackend.t) (metric_providers : CloudWatchBackend.providers)
             (token : string) (namespace metric_name : option string)
             (dimensions : option (list (gmap string string))) (random_bits : N),
        token <> EmptyString ->
        is_Some (CloudWatchBackend.paged_metric_data self !! token) ->
        exists self' next_token page,
          CloudWatchBackend.list_metrics metric_providers (Some token) namespace
            metric_name dimensions random_bits self
          = (self', Ok (next_token, page))
          /\ (next_token <> Some token ->
              CloudWatchBackend.paged_metric_data self' !! token = None)).
Proof.
  split; [|split].
  - intros self metric_providers namespace metric_name dimensions r1 r2 r3 r4
           Hpaged Hlen metrics list_metrics.
    change (length metrics = 1200%nat) in Hlen.
    set (t1 := Uuid.str (Uuid.uuid4 r1)). set (t2 := Uuid.str (Uuid.uuid4 r2)).
    assert (Ht1 : t1 <> EmptyString)
      by (destruct (uuid_str_not_empty (Uuid.uuid4 r1)) as (c & r & H);
          unfold t1; by rewrite H).
    assert (Ht2 : t2 <> EmptyString)
      by (destruct (uuid_str_not_empty (Uuid.uuid4 r2)) as (c & r & H);
          unfold t2; by rewrite H).
    set (self1 := CloudWatchBackend.set_paged_metric_data
                    (insert t1 (drop 500 metrics)) self).
    set (self2 := CloudWatchBackend.set_paged_metric_data
                    (insert t2 (drop 500 (drop 500 metrics)))
                    (CloudWatchBackend.set_paged_metric_data (delete t1) self1)).
    set (self3 := CloudWatchBackend.set_paged_metric_data (delete t2) self2).
    assert (Hempty3 : CloudWatchBackend.paged_metric_data self3 = ∅).
    { unfold self3, self2, self1. simpl. rewrite Hpaged.
      by rewrite !delete_insert_eq, !delete_empty. }
    exists t1, t2, self1, self2, self3.
    split; [|split; [|split]].
    + unfold CloudWatchBackend.list_metrics, and_then.
      rewrite get_filtered_metrics_no_filter.
      apply get_paginated_more. fold metrics. lia.
    + unfold list_metrics.
      rewrite (list_metrics_known_token _ t1 _ _ _ _ self1 (drop 500 metrics) Ht1)
        by (unfold self1; simpl; apply lookup_insert_eq).
      apply get_paginated_more. rewrite length_drop. lia.
    + unfold list_metrics.
      rewrite (list_metrics_known_token _ t2 _ _ _ _ self2
                 (drop 500 (drop 500 metrics)) Ht2)
        by (unfold self2; simpl; apply lookup_insert_eq).
      rewrite get_paginated_last by (rewrite !length_drop; lia).
      by rewrite drop_drop.
    + rewrite !length_take, !length_drop.
      repeat split; try lia.
      * rewrite <- (take_drop 500 metrics) at 1. f_equal.
        rewrite <- (take_drop 500 (drop 500 metrics)) at 1.
        by rewrite drop_drop.
      * apply list_metrics_unknown_token; [done|]. by rewrite Hempty3.
      * apply list_metrics_unknown_token; [done|]. by rewrite Hempty3.
  - intros. by apply list_metrics_unknown_token.
  - intros self metric_providers token namespace metric_name dimensions random_bits
           Hne [metrics Hsome].
    rewrite (list_metrics_known_token _ token _ _ _ _ self metrics Hne Hsome).
    unfold CloudWatchBackend._get_paginated.
    destruct (500 <? length metrics)%nat; run_method.
    + eexists _, _, _. split; [reflexivity|].
      intros Hfresh. simpl. rewrite lookup_insert_ne by congruence.
      apply lookup_delete_eq.
    + eexists _, _, _. split; [reflexivity|].
      intros _. simpl. apply lookup_delete_eq.
Qed.

(** ** VPN gateway attachments *)

Lemma pop_keys_lookup (keys : list string) (atts : gmap string positive) (k : string) :
  foldl (fun atts key => if String.prefix "vpc-" key then delete key atts else atts)
        atts keys !! k
  = if decide (k ∈ keys /\ String.prefix "vpc-" k = true) then None else atts !! k.
Proof.
  revert atts. induction keys as [|key keys IH]; intros atts.
  - destruct (decide _) as [[H _]|]; [|done]. by apply elem_of_nil in H.
  - cbn [foldl]. rewrite IH. destruct (decide (k = key)) as [->|Hne].
    + destruct (String.prefix "vpc-" key) eqn:Hp.
      * rewrite lookup_delete_eq.
        destruct (decide (key ∈ keys /\ _)), (decide (key ∈ key :: keys /\ _)) as [|Hn];
          try done; exfalso; apply Hn; (split; [by left | done]).
      * by rewrite !decide_False by (by intros [_ ?]).
    + assert (Hiff : k ∈ key :: keys <-> k ∈ keys)
        by (rewrite elem_of_cons; split; [intros [?|?]; done | by right]).
      assert (Hlook : (if String.prefix "vpc-" key then delete key atts else atts) !! k
                      = atts !! k).
      { destruct (String.prefix "vpc-" key); [by rewrite lookup_delete_ne | done]. }
      rewrite Hlook.
      destruct (decide (k ∈ keys /\ _)) as [[]|Hn1], (decide (k ∈ key :: keys /\ _))
        as [[]|Hn2]; try done.
      * exfalso. apply Hn2. split; [by apply Hiff | done].
      * exfalso. apply Hn1. split; [by apply Hiff | done].
Qed.

(** The loop of [attach_vpn_gateway] removes the keys that start with
    "vpc-" and no others. *)
Lemma pop_vpc_keys_lookup (atts : gmap string positive) (k : string) :
  VpnGatewayBackend.pop_vpc_keys atts !! k
  = if String.prefix "vpc-" k then None else atts !! k.
Proof.
  unfold VpnGatewayBackend.pop_vpc_keys. rewrite pop_keys_lookup.
  destruct (String.prefix "vpc-" k) eqn:Hp.
  - destruct (decide _) as [|H]; [done|].
    destruct (atts !! k) as [r|] eqn:Hlook; [|done].
    exfalso. apply H. split; [|done].
    apply list_elem_of_fmap. exists (k, r). split; [done|].
    by apply elem_of_map_to_list.
  - destruct (decide _) as [[]|]; done.
Qed.

(** [attach_vpn_gateway] on a known gateway and a known VPC. *)
Lemma attach_vpn_gateway_runs (self : VpnGatewayBackend.t)
    (vpn_gateway_id vpc_id : string) (vpn_gateway : VpnGateway.t) :
  VpnGatewayBackend.vpn_gateways self !! vpn_gateway_id = Some vpn_gateway ->
  vpc_id ∈ VpnGatewayBackend.vpcs self ->
  let attachment := fresh (dom (VpnGatewayBackend.objects self)) in
  VpnGatewayBackend.attach_vpn_gateway vpn_gateway_id vpc_id self
  = (VpnGatewayBackend.make
       (<[vpn_gateway_id :=
            VpnGateway.set_attachments
              (fun atts => <[vpc_id := attachment]> (VpnGatewayBackend.pop_vpc_keys atts))
              vpn_gateway]> (VpnGatewayBackend.vpn_gateways self))
       (<[attachment := VPCGatewayAttachment.make vpc_id None (Some "attached")]>
          (VpnGatewayBackend.objects self))
       (VpnGatewayBackend.vpcs self),
     Ok attachment).
Proof.
  intros Hgw Hvpc attachment.
  unfold VpnGatewayBackend.attach_vpn_gateway, VpnGatewayBackend.get_vpn_gateway,
    VpnGatewayBackend.get_vpc, VpnGatewayBackend.new_attachment.
  run_method. rewrite Hgw. simpl. by rewrite bool_decide_eq_true_2.
Qed.

(** [detach_vpn_gateway] on an attachment that the gateway holds. *)
Lemma detach_vpn_gateway_runs (self : VpnGatewayBackend.t)
    (vpn_gateway_id vpc_id : string) (vpn_gateway : VpnGateway.t) (detached : positive) :
  VpnGatewayBackend.vpn_gateways self !! vpn_gateway_id = Some vpn_gateway ->
  VpnGateway.attachments vpn_gateway !! vpc_id = Some detached ->
  VpnGatewayBackend.detach_vpn_gateway vpn_gateway_id vpc_id self
  = (VpnGatewayBackend.set_objects
       (alter (VPCGatewayAttachment.set_state "detached") detached) self,
     Ok detached).
Proof.
  intros Hgw Hatt.
  unfold VpnGatewayBackend.detach_vpn_gateway, VpnGatewayBackend.get_vpn_gateway.
  run_method. rewrite Hgw. simpl. by rewrite Hatt.
Qed.

(** C9.  A gateway holds an attachment entry for a first VPC.  Attaching it
    to a second VPC removes the entry of the first and inserts an entry for
    the second, whose attachment is in state attached.  Detaching the second
    VPC afterwards keeps its entry, which refers to the same attachment, now
    in state detached. *)
Theorem attach_then_detach (self : VpnGatewayBackend.t) (vpn_gateway_id vpc1 vpc2 : string)
    (vpn_gateway : VpnGateway.t) (attachment1 : positive) :
  VpnGatewayBackend.vpn_gateways self !! vpn_gateway_id = Some vpn_gateway ->
  VpnGateway.attachments vpn_gateway !! vpc1 = Some attachment1 ->
  String.prefix "vpc-" vpc1 = true ->
  vpc2 ∈ VpnGatewayBackend.vpcs self ->
  vpc1 <> vpc2 ->
  exists (attachment2 : positive) (self1 self2 : VpnGatewayBackend.t)
         (gateway1 gateway2 : VpnGateway.t),
    VpnGatewayBackend.attach_vpn_gateway vpn_gateway_id vpc2 self = (self1, Ok attachment2)
    /\ VpnGatewayBackend.vpn_gateways self1 !! vpn_gateway_id = Some gateway1
    /\ VpnGateway.attachments gateway1 !! vpc1 = None
    /\ VpnGateway.attachments gateway1 !! vpc2 = Some attachment2
    /\ VpnGatewayBackend.objects self1 !! attachment2
       = Some (VPCGatewayAttachment.make vpc2 None (Some "attached"))
    /\ VpnGatewayBackend.detach_vpn_gateway vpn_gateway_id vpc2 self1
       = (self2, Ok attachment2)
    /\ VpnGatewayBackend.vpn_gateways self2 !! vpn_gateway_id = Some gateway2
    /\ VpnGateway.attachments gateway2 !! vpc1 = None
    /\ VpnGateway.attachments gateway2 !! vpc2 = Some attachment2
    /\ VpnGatewayBackend.objects self2 !! attachment2
       = Some (VPCGatewayAttachment.make vpc2 None (Some "detached")).
Proof.
  intros Hgw Hatt1 Hprefix Hvpc Hne.
  pose proof (attach_vpn_gateway_runs self vpn_gateway_id vpc2 vpn_gateway Hgw Hvpc)
    as Hattach.
  simpl in Hattach.
  set (attachment2 := fresh (dom (VpnGatewayBackend.objects self))) in *.
  set (gateway1 := VpnGateway.set_attachments _ vpn_gateway) in *.
  set (self1 := VpnGatewayBackend.make _ _ _) in *.
  assert (Hgw1 : VpnGatewayBackend.vpn_gateways self1 !! vpn_gateway_id = Some gateway1)
    by apply lookup_insert_eq.
  assert (Hatt2 : VpnGateway.attachments gateway1 !! vpc2 = Some attachment2)
    by apply lookup_insert_eq.
  assert (Hgone : VpnGateway.attachments gateway1 !! vpc1 = None).
  { unfold gateway1. simpl. rewrite lookup_insert_ne by done.
    rewrite pop_vpc_keys_lookup. by rewrite Hprefix. }
  eexists attachment2, self1, _, gateway1, gateway1.
  split; [exact Hattach|].
  split; [exact Hgw1|]. split; [exact Hgone|]. split; [exact Hatt2|].
  split; [apply lookup_insert_eq|].
  split; [exact (detach_vpn_gateway_runs self1 vpn_gateway_id vpc2 gateway1
                   attachment2 Hgw1 Hatt2)|].
  split; [exact Hgw1|]. split; [exact Hgone|]. split; [exact Hatt2|].
  simpl. rewrite lookup_alter_eq, lookup_insert_eq. reflexivity.
Qed.

(** ** datetime and timedelta *)

Lemma bind_ok {A B : Type} (a : A) (k : A -> result B) : (Ok a ≫= k) = k a.
Proof. reflexivity. Qed.

Lemma bind_raise {A B : Type} (e : exn) (k : A -> result B) : (Raise e ≫= k) = Raise e.
Proof. reflexivity. Qed.

Lemma compare_comparable (op : Z -> Z -> bool) (a b : datetime.t) :
  datetime.aware a = datetime.aware b ->
  datetime.compare op a b = Ok (op (datetime.instant a) (datetime.instant b)).
Proof. unfold datetime.compare. intros ->. by rewrite Bool.eqb_reflx. Qed.

Lemma compare_returns (op : Z -> Z -> bool) (a b : datetime.t) (c : bool) :
  datetime.compare op a b = Ok c ->
  datetime.aware a = datetime.aware b
  /\ c = op (datetime.instant a) (datetime.instant b).
Proof.
  unfold datetime.compare.
  destruct (Bool.eqb_spec (datetime.aware a) (datetime.aware b)); [|done].
  by intros [= <-].
Qed.

Lemma compare_raises (op : Z -> Z -> bool) (a b : datetime.t) (e : exn) :
  datetime.compare op a b = Raise e ->
  e = TypeError /\ datetime.aware a <> datetime.aware b.
Proof.
  unfold datetime.compare.
  destruct (Bool.eqb_spec (datetime.aware a) (datetime.aware b)); [done|].
  by intros [= <-].
Qed.

Lemma add_in_range (dt : datetime.t) (delta : Z) :
  datetime.in_range (datetime.wall dt + delta) = true ->
  datetime.add dt delta = Ok (shifted dt delta).
Proof. unfold datetime.add. by intros ->. Qed.

Lemma add_out_of_range (dt : datetime.t) (delta : Z) :
  datetime.in_range (datetime.wall dt + delta) = false ->
  datetime.add dt delta = Raise OverflowError.
Proof. unfold datetime.add. by intros ->. Qed.

Lemma in_range_spec (w : Z) :
  datetime.in_range w = true <-> 0 <= w < datetime.end_of_time.
Proof. unfold datetime.in_range. rewrite andb_true_iff, Z.leb_le, Z.ltb_lt. done. Qed.

Lemma instant_shifted (dt : datetime.t) (delta : Z) :
  datetime.instant (shifted dt delta) = datetime.instant dt + delta.
Proof. unfold datetime.instant, shifted. simpl. lia. Qed.

Lemma aware_shifted (dt : datetime.t) (delta : Z) :
  datetime.aware (shifted dt delta) = datetime.aware dt.
Proof. done. Qed.

Lemma shifted_shifted (dt : datetime.t) (a b : Z) :
  shifted (shifted dt a) b = shifted dt (a + b).
Proof. unfold shifted. simpl. f_equal. lia. Qed.

Lemma shifted_0 (dt : datetime.t) : shifted dt 0 = dt.
Proof. destruct dt as [w o]. unfold shifted. simpl. f_equal. lia. Qed.

Lemma timedelta_range_spec (n : Z) :
  timedelta_range n <-> -999999999 <= n / 86400 /\ n / 86400 <= 999999999.
Proof. unfold timedelta_range. Z.div_mod_to_equations. lia. Qed.

Lemma timedelta_seconds_range (n : Z) :
  timedelta_range n -> timedelta_seconds n = Ok (microseconds n).
Proof.
  intros [Hlo Hhi]%timedelta_range_spec. unfold timedelta_seconds.
  apply Z.leb_le in Hlo, Hhi. by rewrite Hlo, Hhi.
Qed.

Lemma timedelta_seconds_overflow (n : Z) :
  ~ timedelta_range n -> timedelta_seconds n = Raise OverflowError.
Proof.
  intros Hout. unfold timedelta_seconds.
  destruct (_ && _) eqn:Hin; [|done].
  exfalso. apply Hout, timedelta_range_spec.
  apply andb_true_iff in Hin as [Hlo Hhi]. by apply Z.leb_le in Hlo, Hhi.
Qed.

Lemma timedelta_seconds_returns (n delta : Z) :
  timedelta_seconds n = Ok delta -> timedelta_range n /\ delta = microseconds n.
Proof.
  unfold timedelta_seconds. destruct (_ && _) eqn:Hin; [|done].
  intros [= <-]. split; [|done]. apply timedelta_range_spec.
  apply andb_true_iff in Hin as [Hlo Hhi]. by apply Z.leb_le in Hlo, Hhi.
Qed.

(** ** Sorting by timestamp *)

Lemma insert_in_order_perm (x : MetricDatum.t) (l : list MetricDatum.t) :
  insert_in_order x l ≡ₚ x :: l.
Proof.
  induction l as [|y l IH]; simpl; [done|].
  destruct (ts y <? ts x); [|done].
  rewrite IH. apply Permutation_swap.
Qed.

Lemma in_order_perm (l : list MetricDatum.t) : in_order l ≡ₚ l.
Proof.
  induction l as [|x l IH]; simpl; [done|].
  by rewrite insert_in_order_perm, IH.
Qed.

Lemma insert_in_order_sorted (x : MetricDatum.t) (l : list MetricDatum.t) :
  StronglySorted by_timestamp l -> StronglySorted by_timestamp (insert_in_order x l).
Proof.
  induction 1 as [|y l Hsorted IH Hall]; simpl.
  - repeat constructor.
  - destruct (ts y <? ts x) eqn:Hlt.
    + constructor; [done|].
      rewrite insert_in_order_perm. constructor; [|done].
      apply Z.ltb_lt in Hlt. unfold by_timestamp. lia.
    + apply Z.ltb_ge in Hlt.
      constructor; [by constructor|].
      constructor; [done|].
      eapply Forall_impl; [exact Hall|]. unfold by_timestamp. intros z Hz. lia.
Qed.

Lemma in_order_sorted (l : list MetricDatum.t) : StronglySorted by_timestamp (in_order l).
Proof.
  induction l as [|x l IH]; simpl; [constructor|].
  by apply insert_in_order_sorted.
Qed.

(** On timestamps of one kind, all naive or all aware, the sort of the code
    is the stable sort by instant. *)
Lemma insert_by_timestamp_in_order (x : MetricDatum.t) (l : list MetricDatum.t) :
  Forall (fun y => datetime.aware (MetricDatum.timestamp y)
                   = datetime.aware (MetricDatum.timestamp x)) l ->
  insert_by_timestamp x l = Ok (insert_in_order x l).
Proof.
  induction 1 as [|y l Hy _ IH]; [done|].
  cbn [insert_by_timestamp insert_in_order]. unfold datetime.lt.
  rewrite (compare_comparable _ _ _ Hy). unfold ts. simpl.
  destruct (_ <? _); [|done]. by rewrite IH.
Qed.

Lemma sorted_by_timestamp_in_order (kind : bool) (l : list MetricDatum.t) :
  Forall (fun y => datetime.aware (MetricDatum.timestamp y) = kind) l ->
  sorted_by_timestamp l = Ok (in_order l).
Proof.
  induction 1 as [|x l Hx Hall IH]; [done|].
  cbn [sorted_by_timestamp in_order]. rewrite IH. simpl.
  apply insert_by_timestamp_in_order. rewrite in_order_perm.
  eapply Forall_impl; [exact Hall|]. intros y Hy. simpl in *. congruence.
Qed.

(** A list that holds a naive and an aware timestamp is not sorted. *)
Lemma insert_by_timestamp_returns (x : MetricDatum.t) (l r : list MetricDatum.t) :
  insert_by_timestamp x l = Ok r -> l <> [] ->
  exists y, y ∈ l /\ datetime.aware (MetricDatum.timestamp y)
                     = datetime.aware (MetricDatum.timestamp x).
Proof.
  destruct l as [|y l]; [done|]. intros Hrun _. exists y. split; [by left|].
  cbn [insert_by_timestamp] in Hrun.
  destruct (datetime.lt _ _) as [below|e] eqn:Hlt; [|done].
  by apply compare_returns in Hlt as [? _].
Qed.

Lemma sorted_by_timestamp_returns (l r : list MetricDatum.t) :
  sorted_by_timestamp l = Ok r ->
  r = in_order l
  /\ forall x y, x ∈ l -> y ∈ l ->
       datetime.aware (MetricDatum.timestamp x) = datetime.aware (MetricDatum.timestamp y).
Proof.
  revert r. induction l as [|x l IH]; intros r.
  - intros [= <-]. split; [done|]. by intros x y ?%elem_of_nil.
  - cbn [sorted_by_timestamp].
    destruct (sorted_by_timestamp l) as [sorted|e] eqn:Hsorted; [|done]. simpl.
    destruct (IH sorted eq_refl) as [-> Hkind]. intros Hinsert.
    assert (Hall : Forall (fun y => datetime.aware (MetricDatum.timestamp y)
                                    = datetime.aware (MetricDatum.timestamp x)) l).
    { destruct l as [|z l']; [constructor|].
      destruct (insert_by_timestamp_returns _ _ _ Hinsert) as (y & Hy & Hsame).
      { intros Hnil. apply (f_equal length) in Hnil.
        rewrite (Permutation_length (in_order_perm (z :: l'))) in Hnil. done. }
      rewrite in_order_perm in Hy.
      apply Forall_forall. intros y' Hy'. rewrite <- Hsame. by apply Hkind. }
    split.
    + rewrite insert_by_timestamp_in_order in Hinsert.
      * by injection Hinsert as <-.
      * by rewrite in_order_perm.
    + rewrite Forall_forall in Hall.
      intros a b [->|Ha]%elem_of_cons [->|Hb]%elem_of_cons; try done.
      * symmetry. by apply Hall.
      * by apply Hall.
      * by apply Hkind.
Qed.

(** ** The selection *)

Lemma selects_spec (namespace metric_name : string) (start_time end_time : datetime.t)
    (md : MetricDatum.t) :
  selects namespace metric_name start_time end_time md = true
  <-> MetricDatum.namespace md = namespace
      /\ MetricDatum.name md = metric_name
      /\ datetime.instant start_time <= ts md <= datetime.instant end_time.
Proof.
  unfold selects. rewrite !andb_true_iff, !String.eqb_eq, !Z.leb_le. tauto.
Qed.

(** The condition of the comprehension returns what [selects] says, and
    raises nothing but [TypeError]. *)
Lemma selected_returns (namespace metric_name : string) (start_time end_time : datetime.t)
    (md : MetricDatum.t) (keep : bool) :
  selected namespace metric_name start_time end_time md = Ok keep ->
  keep = selects namespace metric_name start_time end_time md
  /\ (keep = true ->
      datetime.aware (MetricDatum.timestamp md) = datetime.aware start_time).
Proof.
  unfold selected, selects, datetime.le.
  destruct (_ && _); [|by intros [= <-]].
  destruct (datetime.compare Z.leb start_time _) as [after|e] eqn:Hafter; [|done].
  apply compare_returns in Hafter as [Hkind ->]. simpl.
  destruct (_ <=? _) eqn:Hle.
  - intros [_ ->]%compare_returns. split; [reflexivity | by intros _].
  - intros [= <-]. split; [reflexivity | done].
Qed.

Lemma selected_raises (namespace metric_name : string) (start_time end_time : datetime.t)
    (md : MetricDatum.t) (e : exn) :
  selected namespace metric_name start_time end_time md = Raise e -> e = TypeError.
Proof.
  unfold selected, datetime.le.
  destruct (_ && _); [|done].
  destruct (datetime.compare Z.leb start_time _) as [[]|e'] eqn:Hafter; simpl.
  - by intros [-> _]%compare_raises.
  - done.
  - intros [= <-]. by apply compare_raises in Hafter as [-> _].
Qed.

Lemma selected_comparable (namespace metric_name : string)
    (start_time end_time : datetime.t) (md : MetricDatum.t) :
  datetime.aware end_time = datetime.aware start_time ->
  (MetricDatum.namespace md = namespace -> MetricDatum.name md = metric_name ->
   datetime.aware (MetricDatum.timestamp md) = datetime.aware start_time) ->
  selected namespace metric_name start_time end_time md
  = Ok (selects namespace metric_name start_time end_time md).
Proof.
  intros Hend Hmd. unfold selected, selects, datetime.le.
  destruct (String.eqb_spec (MetricDatum.namespace md) namespace) as [Hns|]; [|done].
  destruct (String.eqb_spec (MetricDatum.name md) metric_name) as [Hname|]; [|done].
  specialize (Hmd Hns Hname). simpl.
  rewrite !compare_comparable by congruence. simpl. unfold ts.
  by destruct (datetime.instant start_time <=? _).
Qed.

Lemma selection_returns (namespace metric_name : string) (start_time end_time : datetime.t)
    (l r : list MetricDatum.t) :
  comprehension_if (selected namespace metric_name start_time end_time) l = Ok r ->
  r = List.filter (selects namespace metric_name start_time end_time) l
  /\ Forall (fun md => datetime.aware (MetricDatum.timestamp md)
                       = datetime.aware start_time) r.
Proof.
  revert r. induction l as [|md l IH]; intros r.
  - by intros [= <-].
  - cbn [comprehension_if List.filter].
    destruct (selected _ _ _ _ md) as [keep|e] eqn:Hmd; [|done]. simpl.
    destruct (comprehension_if _ l) as [rest|e] eqn:Hrest; [|done]. simpl.
    intros [= <-]. destruct (IH rest eq_refl) as [-> Hall].
    apply selected_returns in Hmd as [<- Hkind].
    destruct keep; [|done]. split; [done|]. constructor; [by apply Hkind | done].
Qed.

Lemma selection_raises (namespace metric_name : string) (start_time end_time : datetime.t)
    (l : list MetricDatum.t) (e : exn) :
  comprehension_if (selected namespace metric_name start_time end_time) l = Raise e ->
  e = TypeError.
Proof.
  induction l as [|md l IH]; [done|].
  cbn [comprehension_if].
  destruct (selected _ _ _ _ md) as [keep|e'] eqn:Hmd; simpl.
  - destruct (comprehension_if _ l) as [rest|e'']; simpl; [done|].
    intros [= <-]. by apply IH.
  - intros [= <-]. by apply selected_raises in Hmd.
Qed.

Lemma selection_comparable (namespace metric_name : string)
    (start_time end_time : datetime.t) (l : list MetricDatum.t) :
  datetime.aware end_time = datetime.aware start_time ->
  (forall md, md ∈ l -> MetricDatum.namespace md = namespace ->
     MetricDatum.name md = metric_name ->
     datetime.aware (MetricDatum.timestamp md) = datetime.aware start_time) ->
  comprehension_if (selected namespace metric_name start_time end_time) l
  = Ok (List.filter (selects namespace metric_name start_time end_time) l).
Proof.
  intros Hend. induction l as [|md l IH]; intros Hall; [done|].
  cbn [comprehension_if List.filter].
  rewrite selected_comparable; [|done|apply Hall; by left].
  rewrite IH by (intros md' Hmd'; apply Hall; by right). simpl.
  by destruct (selects _ _ _ _ md).
Qed.

Lemma selected_points_in (self : CloudWatchBackend.t) (namespace metric_name : string)
    (start_time end_time : datetime.t) (md : MetricDatum.t) :
  md ∈ selected_points self namespace metric_name start_time end_time
  <-> md ∈ CloudWatchBackend.metric_data self
      /\ MetricDatum.namespace md = namespace
      /\ MetricDatum.name md = metric_name
      /\ datetime.instant start_time <= ts md <= datetime.instant end_time.
Proof.
  unfold selected_points. rewrite in_order_perm.
  rewrite list_elem_of_In, filter_In, <- list_elem_of_In. by rewrite selects_spec.
Qed.

Lemma selected_points_sorted (self : CloudWatchBackend.t) (namespace metric_name : string)
    (start_time end_time : datetime.t) :
  StronglySorted by_timestamp
    (selected_points self namespace metric_name start_time end_time).
Proof. apply in_order_sorted. Qed.

(** [filtered_data] is the selection in order, with timestamps of the kind
    of the start, when the comparisons of the comprehension succeed; it
    raises nothing but [TypeError]. *)
Lemma filtered_data_returns (self : CloudWatchBackend.t) (namespace metric_name : string)
    (start_time end_time : datetime.t) (l : list MetricDatum.t) :
  filtered_data self namespace metric_name start_time end_time = Ok l ->
  l = selected_points self namespace metric_name start_time end_time
  /\ Forall (fun md => datetime.aware (MetricDatum.timestamp md)
                       = datetime.aware start_time) l.
Proof.
  unfold filtered_data, selected_points.
  destruct (comprehension_if _ _) as [filtered|e] eqn:Hfiltered; [|done]. simpl.
  apply selection_returns in Hfiltered as [-> Hkind].
  rewrite (sorted_by_timestamp_in_order _ _ Hkind). intros [= <-].
  split; [done|]. by rewrite in_order_perm.
Qed.

Lemma filtered_data_raises (self : CloudWatchBackend.t) (namespace metric_name : string)
    (start_time end_time : datetime.t) (e : exn) :
  filtered_data self namespace metric_name start_time end_time = Raise e ->
  e = TypeError.
Proof.
  unfold filtered_data.
  destruct (comprehension_if _ _) as [filtered|e'] eqn:Hfiltered; simpl.
  - apply selection_returns in Hfiltered as [-> Hkind].
    by rewrite (sorted_by_timestamp_in_order _ _ Hkind).
  - intros [= <-]. by apply selection_raises in Hfiltered.
Qed.

Lemma filtered_data_comparable (self : CloudWatchBackend.t)
    (namespace metric_name : string) (start_time end_time : datetime.t) :
  comparable self namespace metric_name start_time end_time ->
  filtered_data self namespace metric_name start_time end_time
  = Ok (selected_points self namespace metric_name start_time end_time).
Proof.
  intros [Hend Hall]. unfold filtered_data, selected_points.
  rewrite selection_comparable by done. simpl.
  apply (sorted_by_timestamp_in_order (datetime.aware start_time)).
  apply Forall_forall. intros md Hmd.
  apply list_elem_of_In, filter_In in Hmd as [Hmd Hsel].
  apply selects_spec in Hsel as (Hns & Hname & _).
  apply Hall; [by apply list_elem_of_In | done | done].
Qed.

Lemma one_zone_comparable (self : CloudWatchBackend.t) (namespace metric_name : string)
    (start_time end_time : datetime.t) :
  one_zone self namespace metric_name start_time end_time ->
  comparable self namespace metric_name start_time end_time.
Proof.
  intros [Hend Hall]. split; [unfold datetime.aware; by rewrite Hend|].
  intros md Hmd Hns Hname. unfold datetime.aware. by rewrite (Hall md Hmd Hns Hname).
Qed.

(** ** Windows of a sorted list of points *)

Lemma filter_all_false {A : Type} (f : A -> bool) (l : list A) :
  Forall (fun x => f x = false) l -> List.filter f l = [].
Proof.
  induction 1 as [|x l Hx _ IH]; simpl; [done|]. by rewrite Hx.
Qed.

Lemma filter_all_true {A : Type} (f : A -> bool) (l : list A) :
  Forall (fun x => f x = true) l -> List.filter f l = l.
Proof.
  induction 1 as [|x l Hx _ IH]; simpl; [done|]. by rewrite Hx, IH.
Qed.

Lemma filter_agree {A : Type} (f g : A -> bool) (l : list A) :
  Forall (fun x => f x = g x) l -> List.filter f l = List.filter g l.
Proof.
  induction 1 as [|x l Hx _ IH]; simpl; [done|]. by rewrite Hx, IH.
Qed.

(** In a sorted list the points before a bound are a prefix. *)
Lemma sorted_split (bound : Z) (l : list MetricDatum.t) :
  StronglySorted by_timestamp l ->
  take (count_before bound l) l = List.filter (before bound) l
  /\ Forall (fun md => bound <= ts md) (drop (count_before bound l) l).
Proof.
  unfold count_before, before.
  induction 1 as [|x l Hsorted [IHtake IHdrop] Hall]; simpl; [by split|].
  destruct (ts x <? bound) eqn:Hlt; simpl.
  - by rewrite IHtake.
  - apply Z.ltb_ge in Hlt.
    rewrite filter_all_false.
    + simpl. split; [done|]. constructor; [done|].
      eapply Forall_impl; [exact Hall|]. unfold by_timestamp. intros y Hy. lia.
    + eapply Forall_impl; [exact Hall|]. unfold by_timestamp. intros y Hy. simpl in *.
      apply Z.ltb_ge. lia.
Qed.

Lemma sorted_drop (n : nat) (l : list MetricDatum.t) :
  StronglySorted by_timestamp l -> StronglySorted by_timestamp (drop n l).
Proof.
  intros H. rewrite <- (take_drop n l) in H.
  by apply StronglySorted_app_1_r in H.
Qed.

Lemma window_of_app (a b : Z) (l1 l2 : list MetricDatum.t) :
  a <= b ->
  Forall (fun md => before a md = true) l1 ->
  Forall (fun md => a <= ts md) l2 ->
  List.filter (before b) l2 = window_points (l1 ++ l2) a (b - a)
  /\ length (List.filter (before b) (l1 ++ l2))
     = (length l1 + length (List.filter (before b) l2))%nat.
Proof.
  intros Hab Hl1 Hl2. unfold window_points, in_window, before in *. split.
  - rewrite List.filter_app, (filter_all_false _ l1).
    + simpl. apply filter_agree.
      eapply Forall_impl; [exact Hl2|]. intros md Hmd. simpl in *.
      apply Z.leb_le in Hmd. rewrite Hmd. simpl. f_equal. lia.
    + eapply Forall_impl; [exact Hl1|]. intros md Hmd. simpl in *.
      apply Z.ltb_lt in Hmd. apply andb_false_iff. left. apply Z.leb_gt. lia.
  - rewrite List.filter_app, length_app. f_equal.
    rewrite filter_all_true; [done|].
    eapply Forall_impl; [exact Hl1|]. intros md Hmd. simpl in *.
    apply Z.ltb_lt in Hmd. apply Z.ltb_lt. lia.
Qed.

Section sorted_points.
Variable points : list MetricDatum.t.
Hypothesis points_sorted : StronglySorted by_timestamp points.

(** The points from [a] on that are before [b] are the window from [a] to
    [b]. *)
Lemma window_from_count (a b : Z) :
  a <= b ->
  List.filter (before b) (drop (count_before a points) points)
  = window_points points a (b - a)
  /\ (count_before a points
      + length (List.filter (before b) (drop (count_before a points) points))
      = count_before b points)%nat.
Proof.
  intros Hab.
  destruct (sorted_split a points points_sorted) as [Htake Hdrop].
  assert (Hbefore : Forall (fun md => before a md = true)
                      (take (count_before a points) points)).
  { rewrite Htake. apply Forall_forall. intros md Hmd.
    apply list_elem_of_In, filter_In in Hmd. tauto. }
  destruct (window_of_app a b _ _ Hab Hbefore Hdrop) as [Hwin Hlen].
  rewrite take_drop in Hwin, Hlen. split; [exact Hwin|].
  unfold count_before at 3. rewrite Hlen. f_equal.
  rewrite length_take. unfold count_before.
  pose proof (List.filter_length_le (before a) points). lia.
Qed.

End sorted_points.

(** ** The loops of get_metric_statistics *)

Lemma with_values_nil (s : Statistics.t) : with_values s [] = s.
Proof. destruct s. unfold with_values. simpl. by rewrite app_nil_r. Qed.

Lemma with_values_append (s : Statistics.t) (v : float) (vs : list float) :
  with_values (Statistics.append_value s v) vs = with_values s (v :: vs).
Proof. unfold with_values. simpl. by rewrite <- app_assoc. Qed.

Lemma windows_cons (points : list MetricDatum.t) (period_delta : Z) (dt : datetime.t)
    (dts : list datetime.t) :
  windows points period_delta (dt :: dts)
  = windows points period_delta [dt] ++ windows points period_delta dts.
Proof.
  unfold windows. simpl.
  by destruct (window_points points (datetime.instant dt) period_delta).
Qed.

Section loops.
Variable fmt : datetime.t -> string.
Variable points : list MetricDatum.t.
Hypothesis points_sorted : StronglySorted by_timestamp points.
(** The points are all naive or all aware. *)
Variable kind : bool.
Hypothesis points_kind :
  Forall (fun md => datetime.aware (MetricDatum.timestamp md) = kind) points.

(** The inner loop raises nothing but the [OverflowError] of
    [dt + period_delta]. *)
Lemma while_append_cases (dt : datetime.t) (period_delta : Z) (fuel idx : nat)
    (s : Statistics.t) :
  datetime.aware dt = kind ->
  (exists r, while_append fuel points dt period_delta idx s = Ok r)
  \/ while_append fuel points dt period_delta idx s = Raise OverflowError.
Proof.
  intros Hdt. revert idx s. induction fuel as [|fuel IH]; intros idx s; [left; by eexists|].
  cbn [while_append]. destruct (points !! idx) as [md|] eqn:Hlook; [|left; by eexists].
  destruct (datetime.in_range (datetime.wall dt + period_delta)) eqn:Hrange.
  - rewrite add_in_range by done. simpl. unfold datetime.lt.
    rewrite compare_comparable.
    + simpl. destruct (_ <? _); [apply IH | left; by eexists].
    + rewrite aware_shifted, Hdt.
      rewrite Forall_forall in points_kind. apply points_kind.
      by eapply list_elem_of_lookup_2.
  - rewrite add_out_of_range by done. by right.
Qed.

(** The inner loop appends the values of the points from [idx] on that are
    before the bound, and stops at the first point that is not. *)
Lemma while_append_sorted (dt : datetime.t) (period_delta : Z) (fuel idx : nat)
    (s : Statistics.t) :
  datetime.aware dt = kind ->
  datetime.in_range (datetime.wall dt + period_delta) = true ->
  (length points - idx <= fuel)%nat ->
  let bound := datetime.instant dt + period_delta in
  while_append fuel points dt period_delta idx s
  = Ok ((idx + length (List.filter (before bound) (drop idx points)))%nat,
        with_values s (map MetricDatum.value
                           (List.filter (before bound) (drop idx points)))).
Proof.
  intros Hdt Hrange Hfuel bound. revert idx s Hfuel.
  induction fuel as [|fuel IH]; intros idx s Hfuel.
  - rewrite drop_ge by lia. simpl. by rewrite with_values_nil, Nat.add_0_r.
  - cbn [while_append]. destruct (points !! idx) as [md|] eqn:Hlook.
    + pose proof (sorted_drop idx points points_sorted) as Hsorted.
      rewrite add_in_range by done. simpl. unfold datetime.lt.
      rewrite compare_comparable.
      2:{ rewrite aware_shifted, Hdt.
          rewrite Forall_forall in points_kind. apply points_kind.
          by eapply list_elem_of_lookup_2. }
      rewrite instant_shifted. fold bound. simpl.
      assert (Hbefore : before bound md
                        = (datetime.instant (MetricDatum.timestamp md) <? bound))
        by done.
      rewrite (drop_S _ _ _ Hlook) in *. cbn [List.filter]. rewrite !Hbefore.
      destruct (_ <? bound) eqn:Hlt.
      * rewrite IH.
        -- cbn [length map]. rewrite with_values_append. do 2 f_equal. lia.
        -- apply lookup_lt_Some in Hlook. lia.
      * apply Z.ltb_ge in Hlt. apply StronglySorted_inv in Hsorted as [_ Hall].
        rewrite filter_all_false.
        -- simpl. by rewrite with_values_nil, Nat.add_0_r.
        -- eapply Forall_impl; [exact Hall|]. unfold by_timestamp, before, ts.
           intros y Hy. simpl in *. apply Z.ltb_ge. lia.
    + apply lookup_ge_None in Hlook. rewrite drop_ge by lia. simpl.
      by rewrite with_values_nil, Nat.add_0_r.
Qed.

Lemma window_step_cases (period_delta : Z) (stats : list string)
    (state : nat * list Statistics.t) (dt : datetime.t) :
  datetime.aware dt = kind ->
  (exists r, window_step fmt points period_delta stats state dt = Ok r)
  \/ window_step fmt points period_delta stats state dt = Raise OverflowError.
Proof.
  intros Hdt. destruct state as [idx data]. unfold window_step.
  destruct (while_append_cases dt period_delta (length points) idx
              (Statistics.__init__ fmt stats dt) Hdt) as [[[idx' s] ->] | ->];
    [|by right].
  left. simpl. destruct (Statistics.values s); by eexists.
Qed.

Lemma for_in_list_cases (period_delta : Z) (stats : list string) (dts : list datetime.t)
    (state : nat * list Statistics.t) :
  Forall (fun dt => datetime.aware dt = kind) dts ->
  (exists r, for_in_list dts (window_step fmt points period_delta stats) state = Ok r)
  \/ for_in_list dts (window_step fmt points period_delta stats) state
     = Raise OverflowError.
Proof.
  intros Hdts. revert state. induction Hdts as [|dt dts Hdt _ IH]; intros state.
  - left. by eexists.
  - cbn [for_in_list].
    destruct (window_step_cases period_delta stats state dt Hdt) as [[r ->] | ->];
      [apply IH | by right].
Qed.

(** One iteration of the outer loop, entered with the index of the first
    point that is not before the window. *)
Lemma window_step_sorted (period_delta : Z) (stats : list string) (dt : datetime.t)
    (data : list Statistics.t) :
  0 <= period_delta ->
  datetime.aware dt = kind ->
  datetime.in_range (datetime.wall dt + period_delta) = true ->
  window_step fmt points period_delta stats
              (count_before (datetime.instant dt) points, data) dt
  = Ok (count_before (datetime.instant dt + period_delta) points,
        data ++ map (statistics_of fmt stats) (windows points period_delta [dt])).
Proof.
  intros Hpd Hdt Hrange. unfold window_step.
  rewrite while_append_sorted by (done || lia). cbn zeta.
  destruct (window_from_count points points_sorted (datetime.instant dt)
              (datetime.instant dt + period_delta))
    as [Hwin Hcount]; [lia|].
  replace (datetime.instant dt + period_delta - datetime.instant dt)
    with period_delta in Hwin by lia.
  rewrite Hcount, Hwin. unfold windows. simpl.
  destruct (window_points points (datetime.instant dt) period_delta) as [|p ps]; simpl.
  - by rewrite app_nil_r.
  - reflexivity.
Qed.

(** The outer loop over consecutive windows. *)
Lemma fold_windows_sorted (period_delta : Z) (stats : list string) (count : nat)
    (dt : datetime.t) (data : list Statistics.t) :
  0 <= period_delta ->
  datetime.aware dt = kind ->
  (forall k : nat, (1 <= k <= count)%nat ->
     datetime.in_range (datetime.wall dt + Z.of_nat k * period_delta) = true) ->
  for_in_list (progression count dt period_delta)
              (window_step fmt points period_delta stats)
              (count_before (datetime.instant dt) points, data)
  = Ok (count_before (datetime.instant dt + Z.of_nat count * period_delta) points,
        data ++ map (statistics_of fmt stats)
                    (windows points period_delta (progression count dt period_delta))).
Proof.
  intros Hpd. revert dt data. induction count as [|count IH]; intros dt data Hdt Hrange.
  - replace (datetime.instant dt + Z.of_nat 0 * period_delta)
      with (datetime.instant dt) by lia.
    simpl. by rewrite app_nil_r.
  - replace (datetime.instant dt + Z.of_nat (S count) * period_delta)
      with (datetime.instant (shifted dt period_delta) + Z.of_nat count * period_delta)
      by (rewrite instant_shifted; lia).
    cbn [progression for_in_list]. rewrite window_step_sorted; [|done|done|].
    2:{ specialize (Hrange 1%nat).
        replace (datetime.wall dt + Z.of_nat 1 * period_delta)
          with (datetime.wall dt + period_delta) in Hrange by lia.
        apply Hrange. lia. }
    rewrite bind_ok, <- instant_shifted, IH.
    + by rewrite (windows_cons _ _ dt (progression _ _ _)), map_app, app_assoc.
    + by rewrite aware_shifted.
    + intros k Hk. specialize (Hrange (S k)).
      replace (datetime.wall (shifted dt period_delta) + Z.of_nat k * period_delta)
        with (datetime.wall dt + Z.of_nat (S k) * period_delta)
        by (unfold shifted; simpl; lia).
      apply Hrange. lia.
Qed.

(** Windows that end at or before the first point take nothing. *)
Lemma fold_windows_before (period_delta : Z) (stats : list string) (dts : list datetime.t)
    (first : MetricDatum.t) (rest : list MetricDatum.t) :
  points = first :: rest ->
  Forall (fun dt => datetime.aware dt = kind
                    /\ datetime.instant dt + period_delta <= ts first
                    /\ datetime.in_range (datetime.wall dt + period_delta) = true) dts ->
  for_in_list dts (window_step fmt points period_delta stats) (O, []) = Ok (O, []).
Proof.
  intros Hpoints Hdts. induction Hdts as [|dt dts (Hdt & Hend & Hrange) _ IH]; [done|].
  cbn [for_in_list].
  assert (Hstep : window_step fmt points period_delta stats (O, []) dt = Ok (O, []));
    [|by rewrite Hstep, bind_ok].
  unfold window_step.
  rewrite while_append_sorted by (done || lia). cbn zeta.
  rewrite drop_0, filter_all_false; [done|].
  clear IH.
  pose proof points_sorted as Hsorted. rewrite Hpoints in Hsorted |- *.
  apply StronglySorted_inv in Hsorted as [_ Hall].
  constructor.
  - unfold before. apply Z.ltb_ge. lia.
  - eapply Forall_impl; [exact Hall|]. unfold by_timestamp, before.
    intros y Hy. simpl in *. apply Z.ltb_ge. lia.
Qed.

End loops.

(** ** daterange *)

Lemma progression_in (count : nat) (start : datetime.t) (step : Z) (dt : datetime.t) :
  dt ∈ progression count start step ->
  exists k : nat, (k < count)%nat /\ dt = shifted start (Z.of_nat k * step).
Proof.
  revert start. induction count as [|count IH]; intros start; simpl.
  - by intros ?%elem_of_nil.
  - intros [->|Hin]%elem_of_cons.
    + exists O. split; [lia|]. by rewrite shifted_0.
    + destruct (IH _ Hin) as (k & Hk & ->). exists (S k). split; [lia|].
      rewrite shifted_shifted. f_equal. lia.
Qed.

Lemma progression_sorted (count : nat) (start : datetime.t) (step : Z) :
  0 < step -> StronglySorted earlier (progression count start step).
Proof.
  intros Hstep. revert start. induction count as [|count IH]; intros start; simpl.
  - constructor.
  - constructor; [apply IH|].
    apply Forall_forall. intros dt Hdt.
    destruct (progression_in _ _ _ _ Hdt) as (k & _ & ->).
    unfold earlier. rewrite !instant_shifted. nia.
Qed.

Lemma progression_aware (count : nat) (start : datetime.t) (step : Z) :
  Forall (fun dt => datetime.aware dt = datetime.aware start)
         (progression count start step).
Proof.
  apply Forall_forall. intros dt Hdt.
  by destruct (progression_in _ _ _ _ Hdt) as (k & _ & ->).
Qed.

(** The forward loop.  It yields [start], [start + step], ... as long as
    they are before [stop], and ends when the next one is not; unless an
    addition leaves the range of [datetime] first, which ends it with
    [OverflowError] after the values before are yielded. *)
Lemma daterange_forward_cases (fuel : nat) (start stop : datetime.t) (step : Z) :
  0 < step ->
  datetime.aware start = datetime.aware stop ->
  (Z.to_nat (datetime.instant stop - datetime.instant start) <= fuel)%nat ->
  exists count : nat,
    (forall k : nat, (k < count)%nat ->
       datetime.instant start + Z.of_nat k * step < datetime.instant stop)
    /\ (forall k : nat, (1 <= k < count)%nat ->
          datetime.in_range (datetime.wall start + Z.of_nat k * step) = true)
    /\ ((datetime.instant stop <= datetime.instant start + Z.of_nat count * step
         /\ ((0 < count)%nat ->
             datetime.in_range (datetime.wall start + Z.of_nat count * step) = true)
         /\ daterange_forward fuel start stop step
            = (progression count start step, Ok (shifted start (Z.of_nat count * step))))
        \/ ((0 < count)%nat
            /\ datetime.in_range (datetime.wall start + Z.of_nat count * step) = false
            /\ daterange_forward fuel start stop step
               = (progression count start step, Raise OverflowError))).
Proof.
  intros Hstep. revert start. induction fuel as [|fuel IH]; intros start Hkind Hfuel.
  - exists O. split; [lia|]. split; [lia|]. left.
    split; [lia|]. split; [lia|]. cbn [daterange_forward]. unfold datetime.lt.
    rewrite compare_comparable by done. rewrite shifted_0.
    by destruct (_ <? _).
  - cbn [daterange_forward]. unfold datetime.lt. rewrite compare_comparable by done.
    destruct (datetime.instant start <? datetime.instant stop) eqn:Hlt.
    2:{ apply Z.ltb_ge in Hlt. exists O. split; [lia|]. split; [lia|]. left.
        split; [lia|]. split; [lia|]. by rewrite shifted_0. }
    apply Z.ltb_lt in Hlt.
    destruct (datetime.in_range (datetime.wall start + step)) eqn:Hrange.
    2:{ rewrite add_out_of_range by done. exists 1%nat.
        split; [intros k Hk; replace k with O by lia; lia|]. split; [lia|]. right.
        split; [lia|]. split; [|done].
        replace (datetime.wall start + Z.of_nat 1 * step)
          with (datetime.wall start + step) by lia. done. }
    rewrite add_in_range by done.
    destruct (IH (shifted start step)) as (count & Hbelow & Hranges & Hend).
    { by rewrite aware_shifted. }
    { rewrite instant_shifted. lia. }
    assert (Hwall : forall k : nat,
               datetime.wall (shifted start step) + Z.of_nat k * step
               = datetime.wall start + Z.of_nat (S k) * step)
      by (intros k; unfold shifted; simpl; lia).
    assert (Hshift : shifted (shifted start step) (Z.of_nat count * step)
                     = shifted start (Z.of_nat (S count) * step))
      by (rewrite shifted_shifted; f_equal; lia).
    exists (S count). split; [|split].
    + intros [|k] Hk; [lia|]. specialize (Hbelow k). rewrite instant_shifted in Hbelow. lia.
    + intros [|[|k]] Hk; [lia| |].
      * replace (datetime.wall start + Z.of_nat 1 * step)
          with (datetime.wall start + step) by lia. done.
      * rewrite <- Hwall. apply Hranges. lia.
    + destruct Hend as [(Hstop & Hlast & ->) | (Hpos & Hlast & ->)]; [left | right].
      * rewrite instant_shifted in Hstop. split; [lia|]. split; [|by rewrite Hshift].
        intros _. destruct count as [|count].
        -- replace (datetime.wall start + Z.of_nat 1 * step)
             with (datetime.wall start + step) by lia. done.
        -- rewrite <- Hwall. apply Hlast. lia.
      * split; [lia|]. split; [|done]. by rewrite <- Hwall.
Qed.

(** The backward loop. *)
Lemma daterange_backward_cases (fuel : nat) (start stop : datetime.t) (step : Z) :
  step < 0 ->
  datetime.aware start = datetime.aware stop ->
  (Z.to_nat (datetime.instant start - datetime.instant stop) <= fuel)%nat ->
  exists count : nat,
    (forall k : nat, (k < count)%nat ->
       datetime.instant stop < datetime.instant start + Z.of_nat k * step)
    /\ (forall k : nat, (1 <= k < count)%nat ->
          datetime.in_range (datetime.wall start + Z.of_nat k * step) = true)
    /\ ((datetime.instant start + Z.of_nat count * step <= datetime.instant stop
         /\ ((0 < count)%nat ->
             datetime.in_range (datetime.wall start + Z.of_nat count * step) = true)
         /\ daterange_backward fuel start stop step
            = (progression count start step, Ok (shifted start (Z.of_nat count * step))))
        \/ ((0 < count)%nat
            /\ datetime.in_range (datetime.wall start + Z.of_nat count * step) = false
            /\ daterange_backward fuel start stop step
               = (progression count start step, Raise OverflowError))).
Proof.
  intros Hstep. revert start. induction fuel as [|fuel IH]; intros start Hkind Hfuel.
  - exists O. split; [lia|]. split; [lia|]. left.
    split; [lia|]. split; [lia|]. cbn [daterange_backward]. unfold datetime.lt.
    rewrite compare_comparable by done. rewrite shifted_0.
    by destruct (_ <? _).
  - cbn [daterange_backward]. unfold datetime.lt. rewrite compare_comparable by done.
    destruct (datetime.instant stop <? datetime.instant start) eqn:Hlt.
    2:{ apply Z.ltb_ge in Hlt. exists O. split; [lia|]. split; [lia|]. left.
        split; [lia|]. split; [lia|]. by rewrite shifted_0. }
    apply Z.ltb_lt in Hlt.
    destruct (datetime.in_range (datetime.wall start + step)) eqn:Hrange.
    2:{ rewrite add_out_of_range by done. exists 1%nat.
        split; [intros k Hk; replace k with O by lia; lia|]. split; [lia|]. right.
        split; [lia|]. split; [|done].
        replace (datetime.wall start + Z.of_nat 1 * step)
          with (datetime.wall start + step) by lia. done. }
    rewrite add_in_range by done.
    destruct (IH (shifted start step)) as (count & Hbelow & Hranges & Hend).
    { by rewrite aware_shifted. }
    { rewrite instant_shifted. lia. }
    assert (Hwall : forall k : nat,
               datetime.wall (shifted start step) + Z.of_nat k * step
               = datetime.wall start + Z.of_nat (S k) * step)
      by (intros k; unfold shifted; simpl; lia).
    assert (Hshift : shifted (shifted start step) (Z.of_nat count * step)
                     = shifted start (Z.of_nat (S count) * step))
      by (rewrite shifted_shifted; f_equal; lia).
    exists (S count). split; [|split].
    + intros [|k] Hk; [lia|]. specialize (Hbelow k). rewrite instant_shifted in Hbelow. lia.
    + intros [|[|k]] Hk; [lia| |].
      * replace (datetime.wall start + Z.of_nat 1 * step)
          with (datetime.wall start + step) by lia. done.
      * rewrite <- Hwall. apply Hranges. lia.
    + destruct Hend as [(Hstop & Hlast & ->) | (Hpos & Hlast & ->)]; [left | right].
      * rewrite instant_shifted in Hstop. split; [lia|]. split; [|by rewrite Hshift].
        intros _. destruct count as [|count].
        -- replace (datetime.wall start + Z.of_nat 1 * step)
             with (datetime.wall start + step) by lia. done.
        -- rewrite <- Hwall. apply Hlast. lia.
      * split; [lia|]. split; [|done]. by rewrite <- Hwall.
Qed.

(** ** Properties of the windows *)

Lemma in_window_spec (dt period_delta : Z) (md : MetricDatum.t) :
  in_window dt period_delta md = true <-> dt <= ts md < dt + period_delta.
Proof. unfold in_window. rewrite andb_true_iff, Z.leb_le, Z.ltb_lt. done. Qed.

Lemma in_window_agree (dt1 pd1 dt2 pd2 : Z) (md : MetricDatum.t) :
  (dt1 <= ts md < dt1 + pd1 <-> dt2 <= ts md < dt2 + pd2) ->
  in_window dt1 pd1 md = in_window dt2 pd2 md.
Proof.
  intros H. apply eq_true_iff_eq. by rewrite !in_window_spec.
Qed.

Lemma in_window_outside (dt pd : Z) (md : MetricDatum.t) :
  ~ (dt <= ts md < dt + pd) -> in_window dt pd md = false.
Proof.
  intros H. apply not_true_is_false. by rewrite in_window_spec.
Qed.

(** Two adjacent windows of a sorted list, one after the other, are the
    window that spans both. *)
Lemma windows_join (l : list MetricDatum.t) (a p q : Z) :
  StronglySorted by_timestamp l -> 0 <= p -> 0 <= q ->
  window_points l a p ++ window_points l (a + p) q = window_points l a (p + q).
Proof.
  intros Hsorted Hp Hq. unfold window_points.
  induction Hsorted as [|x l Hsorted IH Hall]; [done|].
  destruct (Z.lt_ge_cases (ts x) (a + p)) as [Hlt|Hge].
  - cbn [List.filter].
    rewrite (in_window_outside (a + p) q x) by lia.
    rewrite (in_window_agree a p a (p + q) x) by lia.
    destruct (in_window a (p + q) x); simpl; by rewrite IH.
  - assert (Hafter : Forall (fun md => a + p <= ts md) (x :: l)).
    { constructor; [done|]. eapply Forall_impl; [exact Hall|].
      unfold by_timestamp. intros y Hy. simpl in *. lia. }
    rewrite (filter_all_false (in_window a p)).
    + rewrite app_nil_l. apply filter_agree.
      eapply Forall_impl; [exact Hafter|]. intros y Hy. simpl in *.
      apply in_window_agree. lia.
    + eapply Forall_impl; [exact Hafter|]. intros y Hy. simpl in *.
      apply in_window_outside. lia.
Qed.

Lemma windows_in (points : list MetricDatum.t) (period_delta : Z) (dts : list datetime.t) :
  Forall (fun w => w.2 <> []
                   /\ w.2 = window_points points (datetime.instant w.1) period_delta
                   /\ w.1 ∈ dts)
         (windows points period_delta dts).
Proof.
  induction dts as [|dt dts IH]; [constructor|].
  rewrite windows_cons. apply Forall_app. split.
  - unfold windows. simpl.
    destruct (window_points points (datetime.instant dt) period_delta) as [|p ps] eqn:Hw;
      [constructor|].
    apply Forall_cons. split; [|constructor]. simpl.
    split; [done|]. split; [by rewrite Hw | by left].
  - eapply Forall_impl; [exact IH|]. intros w (? & ? & ?). repeat split; try done.
    by right.
Qed.

Lemma windows_sorted (points : list MetricDatum.t) (period_delta : Z)
    (dts : list datetime.t) :
  StronglySorted earlier dts ->
  StronglySorted earlier (map fst (windows points period_delta dts)).
Proof.
  induction 1 as [|dt dts Hsorted IH Hall]; [constructor|].
  rewrite windows_cons, map_app. apply StronglySorted_app_2; [| |exact IH].
  - intros x1 x2 Hx1 Hx2.
    assert (x1 = dt) as ->.
    { unfold windows in Hx1. simpl in Hx1.
      destruct (window_points points (datetime.instant dt) period_delta); simpl in Hx1.
      - by apply elem_of_nil in Hx1.
      - by apply list_elem_of_singleton in Hx1. }
    apply list_elem_of_fmap in Hx2 as (w & -> & Hw).
    pose proof (windows_in points period_delta dts) as Hin.
    rewrite Forall_forall in Hin. destruct (Hin w Hw) as (_ & _ & Hdts).
    rewrite Forall_forall in Hall. by apply Hall.
  - unfold windows. simpl.
    destruct (window_points points (datetime.instant dt) period_delta); simpl.
    + constructor.
    + repeat constructor.
Qed.

Lemma windows_concat (points : list MetricDatum.t) (period_delta : Z) (count : nat)
    (start : datetime.t) :
  StronglySorted by_timestamp points -> 0 <= period_delta ->
  concat (map snd (windows points period_delta (progression count start period_delta)))
  = window_points points (datetime.instant start) (Z.of_nat count * period_delta).
Proof.
  intros Hsorted Hpd. revert start. induction count as [|count IH]; intros start.
  - simpl. unfold window_points. rewrite filter_all_false; [done|].
    apply Forall_forall. intros md _. apply in_window_outside. lia.
  - cbn [progression]. rewrite windows_cons, map_app, concat_app, IH.
    replace (Z.of_nat (S count) * period_delta)
      with (period_delta + Z.of_nat count * period_delta) by lia.
    rewrite <- windows_join by (done || lia). rewrite instant_shifted. f_equal.
    unfold windows. simpl.
    destruct (window_points points (datetime.instant start) period_delta); simpl; [done|].
    by rewrite app_nil_r.
Qed.

(** ** get_metric_statistics, characterised *)

Lemma sorted_last (l : list MetricDatum.t) (d : MetricDatum.t) :
  StronglySorted by_timestamp l ->
  Forall (fun md => ts md <= ts (List.last l d)) l.
Proof.
  induction 1 as [|x l Hsorted IH Hall]; [constructor|].
  destruct l as [|y l]; [by repeat constructor|].
  change (List.last (x :: y :: l) d) with (List.last (y :: l) d).
  constructor; [|exact IH].
  apply Forall_inv in IH, Hall. unfold by_timestamp in Hall. lia.
Qed.

Lemma last_in (l : list MetricDatum.t) (d : MetricDatum.t) :
  l <> [] -> List.last l d ∈ l.
Proof.
  induction l as [|x l IH]; [done|]. intros _.
  destruct l as [|y l]; [by left|].
  change (List.last (x :: y :: l) d) with (List.last (y :: l) d).
  right. by apply IH.
Qed.

Section characterisation.
Variable fmt : datetime.t -> string.
Variables (self : CloudWatchBackend.t) (namespace metric_name : string).
Variables (start_time end_time : datetime.t) (period : Z) (stats : list string).

Local Abbreviation points :=
  (selected_points self namespace metric_name start_time end_time).
Local Abbreviation period_delta := (microseconds period).
Local Abbreviation call :=
  (get_metric_statistics fmt self namespace metric_name start_time end_time period stats).

(** The loops of the call on the selected points, of which [first] is the
    first. *)
Local Abbreviation loops first :=
  (stop ← datetime.add (MetricDatum.timestamp (List.last points first)) period_delta;
   state ← for_in (daterange (MetricDatum.timestamp first) stop period_delta false)
                  (window_step fmt points period_delta stats) (O, []);
   Ok state.2).

(** The call up to its loops: the period may be out of the range of
    [timedelta], and the comprehension may meet a naive and an aware
    datetime. *)
Lemma get_metric_statistics_cases :
  (~ timedelta_range period /\ call = Raise OverflowError)
  \/ (timedelta_range period
      /\ filtered_data self namespace metric_name start_time end_time = Raise TypeError
      /\ call = Raise TypeError)
  \/ (timedelta_range period
      /\ filtered_data self namespace metric_name start_time end_time = Ok points
      /\ Forall (fun md => datetime.aware (MetricDatum.timestamp md)
                           = datetime.aware start_time) points
      /\ call = match points with
                | [] => Ok []
                | first :: _ => loops first
                end).
Proof.
  unfold get_metric_statistics.
  destruct (timedelta_seconds period) as [delta|e] eqn:Hdelta.
  - apply timedelta_seconds_returns in Hdelta as [Hrange ->]. right.
    destruct (filtered_data self namespace metric_name start_time end_time)
      as [l|e] eqn:Hfiltered.
    + apply filtered_data_returns in Hfiltered as [-> Hkind]. right. done.
    + apply filtered_data_raises in Hfiltered as ->. left. done.
  - left. assert (Hout : ~ timedelta_range period).
    { intros Hrange. rewrite timedelta_seconds_range in Hdelta by done. done. }
    rewrite timedelta_seconds_overflow in Hdelta by done.
    injection Hdelta as <-. done.
Qed.

Lemma points_cases : points = [] \/ exists first rest, points = first :: rest.
Proof. destruct points; eauto. Qed.

Section selected.
Variables (first : MetricDatum.t) (rest : list MetricDatum.t).
Hypothesis Hpoints : points = first :: rest.
Hypothesis Hkind :
  Forall (fun md => datetime.aware (MetricDatum.timestamp md)
                    = datetime.aware start_time) points.

Local Abbreviation last := (List.last points first).

Lemma first_and_last :
  Forall (fun md => ts first <= ts md <= ts last) points
  /\ ts first <= ts last
  /\ datetime.aware (MetricDatum.timestamp first) = datetime.aware start_time
  /\ datetime.aware (MetricDatum.timestamp last) = datetime.aware start_time
  /\ count_before (ts first) points = O.
Proof.
  pose proof (selected_points_sorted self namespace metric_name start_time end_time)
    as Hsorted.
  pose proof (sorted_last points first Hsorted) as Hlast.
  assert (Hfirst : Forall (fun md => ts first <= ts md) points).
  { rewrite Hpoints in Hsorted |- *. apply StronglySorted_inv in Hsorted as [_ Hall].
    constructor; [lia | exact Hall]. }
  assert (Hin : first ∈ points) by (rewrite Hpoints; by left).
  assert (Hlast_in : last ∈ points) by (apply last_in; by rewrite Hpoints).
  rewrite Forall_forall in Hlast, Hfirst, Hkind.
  split; [|split; [|split; [|split]]].
  - apply Forall_forall. intros md Hmd. split; [by apply Hfirst | by apply Hlast].
  - by apply Hlast.
  - by apply Hkind.
  - by apply Hkind.
  - unfold count_before. rewrite filter_all_false; [done|].
    apply Forall_forall. intros md Hmd. unfold before. apply Z.ltb_ge. by apply Hfirst.
Qed.

Lemma for_in_raises (generator : list datetime.t) :
  Forall (fun dt => datetime.aware dt = datetime.aware start_time) generator ->
  for_in (generator, Some OverflowError)
         (window_step fmt points period_delta stats) (O, [])
  = Raise OverflowError.
Proof.
  intros Hdts. unfold for_in. cbn [fst snd].
  by destruct (for_in_list_cases fmt points (datetime.aware start_time) Hkind
                 period_delta stats generator (O, []) Hdts) as [[r ->] | ->].
Qed.

(** A positive period: the windows start at the first point and go on, one
    period after the other, until a window starts after the last point; the
    loops raise [OverflowError] when a window start, or the end of the last
    point's window, leaves the range of [datetime]. *)
Lemma loops_positive :
  0 < period ->
  (exists count : nat,
     (0 < count)%nat
     /\ Forall (fun md => ts first <= ts md < ts first + Z.of_nat count * period_delta)
               points
     /\ datetime.in_range (datetime.wall (MetricDatum.timestamp last) + period_delta)
        = true
     /\ (forall k : nat, (1 <= k <= count)%nat ->
           datetime.in_range (datetime.wall (MetricDatum.timestamp first)
                              + Z.of_nat k * period_delta) = true)
     /\ loops first
        = Ok (map (statistics_of fmt stats)
                  (windows points period_delta
                           (progression count (MetricDatum.timestamp first)
                                        period_delta))))
  \/ (loops first = Raise OverflowError
      /\ (datetime.in_range (datetime.wall (MetricDatum.timestamp last) + period_delta)
          = false
          \/ exists k : nat,
               (1 <= k)%nat
               /\ ts first + (Z.of_nat k - 1) * period_delta < ts last + period_delta
               /\ datetime.in_range (datetime.wall (MetricDatum.timestamp first)
                                     + Z.of_nat k * period_delta) = false)).
Proof.
  intros Hpos.
  assert (Hpd : 0 < period_delta) by (unfold microseconds; lia).
  destruct first_and_last as (Hbounds & Hfirst_last & Hfirst_kind & Hlast_kind & Hzero).
  pose proof (selected_points_sorted self namespace metric_name start_time end_time)
    as Hsorted.
  destruct (datetime.in_range (datetime.wall (MetricDatum.timestamp last) + period_delta))
    eqn:Hstop.
  2:{ right. rewrite add_out_of_range by done. split; [done | by left]. }
  rewrite add_in_range, bind_ok by done.
  set (stop := shifted (MetricDatum.timestamp last) period_delta).
  assert (Hstop_instant : datetime.instant stop = ts last + period_delta)
    by apply instant_shifted.
  unfold daterange.
  destruct (period_delta =? 0) eqn:Hz; [apply Z.eqb_eq in Hz; lia|].
  destruct (0 <? period_delta) eqn:Hp; [|apply Z.ltb_ge in Hp; lia].
  destruct (daterange_forward_cases
              (Z.to_nat (Z.abs (datetime.instant stop
                                - datetime.instant (MetricDatum.timestamp first))))
              (MetricDatum.timestamp first) stop period_delta Hpd)
    as (count & Hbelow & Hranges & [(Hend & Hlast_range & ->) | (Hcount & Hout & ->)]).
  { unfold stop. rewrite aware_shifted. congruence. }
  { lia. }
  - assert (Hcount : (0 < count)%nat).
    { destruct count; [|lia]. exfalso. unfold ts in *. lia. }
    left. exists count. split; [exact Hcount|]. split; [|split; [done|split]].
    + eapply Forall_impl; [exact Hbounds|]. intros md Hmd. unfold ts in *. simpl in *. lia.
    + intros k Hk. destruct (decide (k = count)) as [->|Hne].
      * by apply Hlast_range.
      * apply Hranges. lia.
    + cbn [andb]. rewrite app_nil_r. unfold for_in. cbn [fst snd].
      rewrite <- Hzero at 1. unfold ts at 1.
      rewrite (fold_windows_sorted fmt points Hsorted (datetime.aware start_time) Hkind).
      * done.
      * lia.
      * done.
      * intros k Hk. destruct (decide (k = count)) as [->|Hne].
        -- by apply Hlast_range.
        -- apply Hranges. lia.
  - right. rewrite for_in_raises.
    + split; [done|]. right. exists count. split; [lia|]. split; [|done].
      specialize (Hbelow (count - 1)%nat). unfold ts in *.
      replace (Z.of_nat (count - 1)) with (Z.of_nat count - 1) in Hbelow by lia. lia.
    + eapply Forall_impl; [apply progression_aware|]. intros dt Hdt. simpl in *.
      congruence.
Qed.

(** A negative period: the loop yields the first timestamp at most, and its
    window ends before the first point. *)
Lemma loops_negative :
  period < 0 ->
  (datetime.in_range (datetime.wall (MetricDatum.timestamp last) + period_delta) = true
   /\ (ts last + period_delta < ts first ->
       datetime.in_range (datetime.wall (MetricDatum.timestamp first) + period_delta)
       = true)
   /\ loops first = Ok [])
  \/ (loops first = Raise OverflowError
      /\ (datetime.in_range (datetime.wall (MetricDatum.timestamp last) + period_delta)
          = false
          \/ datetime.in_range (datetime.wall (MetricDatum.timestamp first)
                                + period_delta) = false)).
Proof.
  intros Hneg.
  assert (Hpd : period_delta < 0) by (unfold microseconds; lia).
  destruct first_and_last as (Hbounds & Hfirst_last & Hfirst_kind & Hlast_kind & Hzero).
  pose proof (selected_points_sorted self namespace metric_name start_time end_time)
    as Hsorted.
  destruct (datetime.in_range (datetime.wall (MetricDatum.timestamp last) + period_delta))
    eqn:Hstop.
  2:{ right. rewrite add_out_of_range by done. split; [done | by left]. }
  rewrite add_in_range, bind_ok by done.
  set (stop := shifted (MetricDatum.timestamp last) period_delta).
  assert (Hstop_instant : datetime.instant stop = ts last + period_delta)
    by apply instant_shifted.
  unfold daterange.
  destruct (period_delta =? 0) eqn:Hz; [apply Z.eqb_eq in Hz; lia|].
  destruct (0 <? period_delta) eqn:Hp; [apply Z.ltb_lt in Hp; lia|].
  destruct (daterange_backward_cases
              (Z.to_nat (Z.abs (datetime.instant stop
                                - datetime.instant (MetricDatum.timestamp first))))
              (MetricDatum.timestamp first) stop period_delta Hpd)
    as (count & Hbelow & Hranges & Hcases).
  { unfold stop. rewrite aware_shifted. congruence. }
  { lia. }
  assert (Hone : (count <= 1)%nat).
  { destruct count as [|[|count]]; [lia | lia |]. exfalso.
    specialize (Hbelow 1%nat). unfold ts in *. lia. }
  assert (Hwall : forall k : nat, k = 1%nat ->
             datetime.wall (MetricDatum.timestamp first) + Z.of_nat k * period_delta
             = datetime.wall (MetricDatum.timestamp first) + period_delta)
    by (intros k ->; lia).
  destruct Hcases as [(Hend & Hlast_range & ->) | (Hcount & Hout & ->)].
  - left. split; [done|]. split.
    + intros Hfar. destruct count as [|count]; [unfold ts in *; lia|].
      rewrite <- (Hwall (S count)) by lia. apply Hlast_range. lia.
    + cbn [andb]. rewrite app_nil_r. unfold for_in. cbn [fst snd].
      rewrite (fold_windows_before fmt points Hsorted (datetime.aware start_time) Hkind
                 period_delta stats _ first rest Hpoints); [done|].
      apply Forall_forall. intros dt Hdt.
      destruct (progression_in _ _ _ _ Hdt) as (k & Hk & ->).
      assert (k = O) as -> by lia.
      rewrite shifted_0. split; [done|]. split; [unfold ts; lia|].
      rewrite <- (Hwall count) by lia. apply Hlast_range. lia.
  - right. rewrite for_in_raises.
    + split; [done|]. right. rewrite <- (Hwall count) by lia. done.
    + eapply Forall_impl; [apply progression_aware|]. intros dt Hdt. simpl in *.
      congruence.
Qed.

(** A period of zero: the assertion of [daterange] fails. *)
Lemma loops_zero :
  period = 0 ->
  (datetime.in_range (datetime.wall (MetricDatum.timestamp last)) = true
   /\ loops first = Raise AssertionError)
  \/ (datetime.in_range (datetime.wall (MetricDatum.timestamp last)) = false
      /\ loops first = Raise OverflowError).
Proof.
  intros ->. change (microseconds 0) with 0.
  assert (Hwall : datetime.wall (MetricDatum.timestamp last) + 0
                  = datetime.wall (MetricDatum.timestamp last)) by lia.
  destruct (datetime.in_range (datetime.wall (MetricDatum.timestamp last))) eqn:Hstop.
  - left. split; [done|]. rewrite add_in_range by (by rewrite Hwall). done.
  - right. split; [done|]. rewrite add_out_of_range by (by rewrite Hwall). done.
Qed.

End selected.

(** The output is the sequence of the windows that hold a point. *)
Lemma get_metric_statistics_windows (data : list Statistics.t) :
  call = Ok data ->
  exists ws : list (datetime.t * list MetricDatum.t),
    data = map (statistics_of fmt stats) ws
    /\ Forall (fun w => w.2 <> []
                        /\ w.2 = window_points points (datetime.instant w.1) period_delta)
              ws
    /\ (forall first, head points = Some first ->
          Forall (fun w => exists k : nat,
                    w.1 = shifted (MetricDatum.timestamp first)
                                  (Z.of_nat k * period_delta)) ws)
    /\ StronglySorted earlier (map fst ws)
    /\ (0 < period -> concat (map snd ws) = points)
    /\ (0 < period -> forall first, head points = Some first ->
          exists w rest, ws = w :: rest /\ w.1 = MetricDatum.timestamp first).
Proof.
  intros Hcall.
  assert (Hempty : data = [] -> (0 < period -> points = []) ->
            exists ws : list (datetime.t * list MetricDatum.t),
              data = map (statistics_of fmt stats) ws
              /\ Forall (fun w => w.2 <> []
                                  /\ w.2 = window_points points (datetime.instant w.1)
                                                         period_delta) ws
              /\ (forall first, head points = Some first ->
                    Forall (fun w => exists k : nat,
                              w.1 = shifted (MetricDatum.timestamp first)
                                            (Z.of_nat k * period_delta)) ws)
              /\ StronglySorted earlier (map fst ws)
              /\ (0 < period -> concat (map snd ws) = points)
              /\ (0 < period -> forall first, head points = Some first ->
                    exists w rest, ws = w :: rest /\ w.1 = MetricDatum.timestamp first)).
  { intros -> Hnone. exists []. repeat split; try constructor.
    - intros Hpos. by rewrite Hnone.
    - intros Hpos first Hfirst. rewrite Hnone in Hfirst by done. done. }
  destruct get_metric_statistics_cases
    as [[_ Hrun] | [(_ & _ & Hrun) | (Hrange & Hfiltered & Hkind & Hrun)]];
    [congruence | congruence |].
  destruct points_cases as [Hnil | (first & rest & Hpoints)].
  - rewrite Hrun, Hnil in Hcall. apply Hempty; [congruence | done].
  - assert (Hloops : call = loops first) by (rewrite Hrun; by rewrite Hpoints).
    rewrite Hloops in Hcall. clear Hrun Hloops.
    destruct (Z.lt_total period 0) as [Hneg|[Hzero|Hpos]].
    + destruct (loops_negative first rest Hpoints Hkind Hneg)
        as [(_ & _ & Hrun) | (Hrun & _)]; rewrite Hrun in Hcall; [|done].
      apply Hempty; [congruence | lia].
    + destruct (loops_zero first Hzero) as [(_ & Hrun) | (_ & Hrun)];
        rewrite Hrun in Hcall; done.
    + clear Hempty.
      destruct (loops_positive first rest Hpoints Hkind Hpos)
        as [(count & Hcount & Hbounds & _ & _ & Hrun) | (Hrun & _)];
        rewrite Hrun in Hcall; [|done].
      injection Hcall as <-.
      assert (Hpd : 0 < period_delta) by (unfold microseconds; lia).
      set (ws := windows points period_delta
                         (progression count (MetricDatum.timestamp first) period_delta)).
      pose proof (windows_in points period_delta
                    (progression count (MetricDatum.timestamp first) period_delta))
        as Hin.
      fold ws in Hin.
      exists ws. split; [done|]. split; [|split; [|split; [|split]]].
      * eapply Forall_impl; [exact Hin|]. intros w (? & ? & _). by split.
      * intros first' Hfirst'. rewrite Hpoints in Hfirst'. injection Hfirst' as <-.
        eapply Forall_impl; [exact Hin|]. intros w (_ & _ & Hw).
        apply progression_in in Hw as (k & _ & ->). by exists k.
      * apply windows_sorted, progression_sorted, Hpd.
      * intros _. unfold ws. rewrite windows_concat.
        -- unfold window_points. apply filter_all_true.
           eapply Forall_impl; [exact Hbounds|]. intros md Hmd. simpl in *.
           by apply in_window_spec.
        -- apply selected_points_sorted.
        -- lia.
      * intros _ first' Hfirst'. rewrite Hpoints in Hfirst'. injection Hfirst' as <-.
        unfold ws. destruct count as [|count]; [lia|].
        cbn [progression]. rewrite windows_cons.
        assert (Hne : window_points points (ts first) period_delta <> []).
        { unfold window_points. rewrite Hpoints. simpl.
          by rewrite (proj2 (in_window_spec (ts first) period_delta first)) by lia. }
        unfold windows at 1. simpl. unfold ts in Hne.
        destruct (window_points points _ period_delta); [done|].
        simpl. eauto.
Qed.

(** The bounds under which the additions of the call stay in the range of
    [datetime], for timestamps in one zone. *)
Lemma one_zone_walls (md : MetricDatum.t) :
  one_zone self namespace metric_name start_time end_time ->
  md ∈ points ->
  datetime.wall start_time <= datetime.wall (MetricDatum.timestamp md)
                           <= datetime.wall end_time
  /\ ts md = datetime.wall (MetricDatum.timestamp md)
             - default 0 (datetime.utcoffset start_time).
Proof.
  intros [Hend Hall] (Hmd & Hns & Hname & Hts)%selected_points_in.
  specialize (Hall md Hmd Hns Hname).
  unfold ts, datetime.instant in *. rewrite Hall, Hend in *. lia.
Qed.

(** With a positive period that [timedelta] takes, timestamps in one zone
    and an end that is two periods before the end of the range of
    [datetime], the call returns. *)
Lemma get_metric_statistics_returns :
  0 < period ->
  timedelta_range period ->
  one_zone self namespace metric_name start_time end_time ->
  0 <= datetime.wall start_time ->
  datetime.wall end_time + 2 * period_delta <= datetime.end_of_time ->
  exists data, call = Ok data.
Proof.
  intros Hpos Hrange Hzone Hstart Hend.
  assert (Hpd : 0 < period_delta) by (unfold microseconds; lia).
  destruct get_metric_statistics_cases
    as [[Hout _] | [(_ & Hfiltered & _) | (_ & _ & Hkind & ->)]]; [done | |].
  { rewrite filtered_data_comparable in Hfiltered by (by apply one_zone_comparable).
    done. }
  destruct points_cases as [-> | (first & rest & Hpoints)]; [by eexists|].
  assert (Hloops : match points with
                   | [] => Ok []
                   | first :: _ => loops first
                   end = loops first) by (by rewrite Hpoints).
  rewrite Hloops.
  destruct (loops_positive first rest Hpoints Hkind Hpos)
    as [(count & _ & _ & _ & _ & ->) | (_ & Hout)]; [by eexists|].
  exfalso.
  assert (Hfirst : first ∈ points) by (rewrite Hpoints; by left).
  assert (Hlast : List.last points first ∈ points)
    by (apply last_in; by rewrite Hpoints).
  destruct (one_zone_walls first Hzone Hfirst) as [Hfirst_wall Hfirst_ts].
  destruct (one_zone_walls _ Hzone Hlast) as [Hlast_wall Hlast_ts].
  destruct Hout as [Hout | (k & Hk & Hbelow & Hout)];
    apply not_true_iff_false in Hout; apply Hout, in_range_spec.
  - lia.
  - rewrite Hfirst_ts, Hlast_ts in Hbelow. nia.
Qed.

(** A period that is not positive, when some point is selected. *)
Lemma get_metric_statistics_not_positive :
  period <= 0 ->
  timedelta_range period ->
  points <> [] ->
  one_zone self namespace metric_name start_time end_time ->
  0 <= datetime.wall start_time + period_delta ->
  datetime.wall end_time < datetime.end_of_time ->
  call = if period =? 0 then Raise AssertionError else Ok [].
Proof.
  intros Hperiod Hrange Hsome Hzone Hstart Hend.
  assert (Hpd : period_delta <= 0) by (unfold microseconds; lia).
  destruct get_metric_statistics_cases
    as [[Hout _] | [(_ & Hfiltered & _) | (_ & _ & Hkind & ->)]]; [done | |].
  { rewrite filtered_data_comparable in Hfiltered by (by apply one_zone_comparable).
    done. }
  destruct points_cases as [Hnone | (first & rest & Hpoints)]; [done|].
  assert (Hloops : match points with
                   | [] => Ok []
                   | first :: _ => loops first
                   end = loops first) by (by rewrite Hpoints).
  rewrite Hloops.
  assert (Hfirst : first ∈ points) by (rewrite Hpoints; by left).
  assert (Hlast : List.last points first ∈ points)
    by (apply last_in; by rewrite Hpoints).
  destruct (one_zone_walls first Hzone Hfirst) as [Hfirst_wall _].
  destruct (one_zone_walls _ Hzone Hlast) as [Hlast_wall _].
  destruct (period =? 0) eqn:Hzero.
  - apply Z.eqb_eq in Hzero.
    destruct (loops_zero first Hzero) as [[_ ->] | [Hout _]]; [done|].
    exfalso. apply not_true_iff_false in Hout. apply Hout, in_range_spec.
    unfold microseconds in *. lia.
  - apply Z.eqb_neq in Hzero.
    destruct (loops_negative first rest Hpoints Hkind) as [(_ & _ & ->) | (_ & Hout)];
      [lia | done |].
    exfalso.
    destruct Hout as [Hout | Hout];
      apply not_true_iff_false in Hout; apply Hout, in_range_spec; lia.
Qed.

End characterisation.
(** ** The statistics claims *)

(** The windows of the output, with what the call selected. *)
Lemma get_metric_statistics_selection (fmt : datetime.t -> string)
    (self : CloudWatchBackend.t) (namespace metric_name : string)
    (start_time end_time : datetime.t) (period : Z) (stats : list string)
    (data : list Statistics.t) :
  get_metric_statistics fmt self namespace metric_name start_time end_time period stats
  = Ok data ->
  timedelta_range period
  /\ filtered_data self namespace metric_name start_time end_time
     = Ok (selected_points self namespace metric_name start_time end_time).
Proof.
  intros Hcall.
  destruct (get_metric_statistics_cases fmt self namespace metric_name start_time
              end_time period stats)
    as [[_ Hrun] | [(_ & _ & Hrun) | (Hrange & Hfiltered & _)]];
    [congruence | congruence | done].
Qed.


(** C4.  The output of a call that returns is the sequence of the windows
    that hold a point, of the points that the call selected: every window
    has at least one value (so a sample count of at least 1 when SampleCount
    is requested); a window that starts at [dt] holds exactly the selected
    points with [dt <= timestamp < dt + period]; the window starts are the
    earliest selected timestamp plus whole multiples of the period, the first
    window starts at the earliest selected timestamp, and the starts are
    strictly ascending.  The call does return when the period is positive
    and within the range of [timedelta], the timestamps are in one zone, and
    the end is two periods before the end of the range of [datetime]. *)
Theorem windows_nonempty_and_ordered (fmt : datetime.t -> string)
    (self : CloudWatchBackend.t) (namespace metric_name : string)
    (start_time end_time : datetime.t) (period : Z) (stats : list string) :
  let points := selected_points self namespace metric_name start_time end_time in
  let period_delta := microseconds period in
  let call :=
    get_metric_statistics fmt self namespace metric_name start_time end_time period
                          stats in
  (0 < period ->
   timedelta_range period ->
   one_zone self namespace metric_name start_time end_time ->
   0 <= datetime.wall start_time ->
   datetime.wall end_time + 2 * period_delta <= datetime.end_of_time ->
   exists data, call = Ok data)
  /\ forall data, call = Ok data ->
       filtered_data self namespace metric_name start_time end_time = Ok points
       /\ exists ws : list (datetime.t * list MetricDatum.t),
            data = map (statistics_of fmt stats) ws
            /\ Forall (fun s =>
                         Statistics.values s <> []
                         /\ ("SampleCount" ∈ stats ->
                             exists n, Statistics.sample_count s = Some n /\ (1 <= n)%nat))
                      data
            /\ Forall (fun w =>
                         w.2 <> []
                         /\ w.2 = List.filter
                                    (fun md =>
                                       (datetime.instant w.1 <=? ts md)
                                       && (ts md <? datetime.instant w.1 + period_delta))
                                    points)
                      ws
            /\ (forall first, head points = Some first ->
                  (forall md, md ∈ points -> ts first <= ts md)
                  /\ Forall (fun w => exists k : nat,
                               w.1 = shifted (MetricDatum.timestamp first)
                                             (Z.of_nat k * period_delta)) ws
                  /\ (0 < period ->
                      exists w rest, ws = w :: rest /\ w.1 = MetricDatum.timestamp first))
            /\ StronglySorted earlier (map fst ws).
Proof.
  intros points period_delta call. split.
  - apply get_metric_statistics_returns.
  - intros data Hcall.
    split; [by eapply get_metric_statistics_selection|].
    destruct (get_metric_statistics_windows fmt self namespace metric_name start_time
                end_time period stats data Hcall)
      as (ws & -> & Hwin & Hstart & Hsorted & _ & Hfirst).
    exists ws. split; [done|]. split; [|split; [exact Hwin|split; [|exact Hsorted]]].
    + apply Forall_fmap. eapply Forall_impl; [exact Hwin|].
      intros [dt pts] [Hne _]. simpl in *. split.
      * by destruct pts.
      * intros Hreq. unfold Statistics.sample_count, Statistics.requested. simpl.
        rewrite bool_decide_eq_true_2 by done. simpl.
        exists (length (map MetricDatum.value pts)). split; [done|].
        destruct pts; [done|]. simpl. lia.
    + intros first Hhead. split; [|split; [by apply Hstart | intros; by apply Hfirst]].
      pose proof (selected_points_sorted self namespace metric_name start_time end_time)
        as Hs.
      fold points in Hs. destruct points as [|p rest]; [done|].
      injection Hhead as ->.
      apply StronglySorted_inv in Hs as [_ Hall].
      intros md [->|Hmd]%elem_of_cons; [lia|].
      rewrite Forall_forall in Hall. by apply Hall.
Qed.

Lemma windows_nonempty_and_ordered_witness :
  let point seconds := MetricDatum.make "N" "M" 1%float (utc_at seconds) [] in
  let self := CloudWatchBackend.make ∅ ∅ [point 70; point 0; point 130; point 30] ∅ in
  let fmt (dt : datetime.t) := EmptyString in
  exists (data : list Statistics.t) (ws : list (datetime.t * list MetricDatum.t)),
    get_metric_statistics fmt self "N" "M" (utc_at 0) (utc_at 200) 60 ["SampleCount"]
    = Ok data
    /\ length data = 3%nat
    /\ data = map (statistics_of fmt ["SampleCount"]) ws
    /\ StronglySorted earlier (map fst ws)
    /\ Forall (fun s => Statistics.values s <> []) data.
Proof.
  intros point self fmt.
  destruct (windows_nonempty_and_ordered fmt self "N" "M" (utc_at 0) (utc_at 200) 60
              ["SampleCount"]) as [Hreturns H].
  destruct Hreturns as [data Hcall].
  { lia. }
  { unfold timedelta_range. lia. }
  { split; [done|]. intros md Hmd _ _.
    repeat (apply elem_of_cons in Hmd as [->|Hmd]; [done|]). by apply elem_of_nil in Hmd. }
  { simpl. unfold microseconds. lia. }
  { simpl. unfold microseconds, datetime.end_of_time. lia. }
  destruct (H _ Hcall) as (_ & ws & Hdata & Hvalues & _ & _ & Hsorted).
  exists data, ws. split; [exact Hcall|]. split.
  { assert (Hrun : get_metric_statistics fmt self "N" "M" (utc_at 0) (utc_at 200) 60
                     ["SampleCount"]
                   = Ok [Statistics.make EmptyString [1%float; 1%float] ["SampleCount"];
                         Statistics.make EmptyString [1%float] ["SampleCount"];
                         Statistics.make EmptyString [1%float] ["SampleCount"]])
      by reflexivity.
    rewrite Hrun in Hcall. by injection Hcall as <-. }
  split; [exact Hdata|]. split; [exact Hsorted|].
  eapply Forall_impl; [exact Hvalues|]. by intros s [? _].
Defined.

(** C6.  In every window of the output, a statistic that was not requested
    reads as absent, and the unit reads as absent whatever was requested. *)
Theorem unrequested_statistics_absent (fmt : datetime.t -> string)
    (self : CloudWatchBackend.t) (namespace metric_name : string)
    (start_time end_time : datetime.t) (period : Z) (stats : list string)
    (data : list Statistics.t) :
  get_metric_statistics fmt self namespace metric_name start_time end_time period stats
  = Ok data ->
  Forall (fun s =>
            Statistics.stats s = stats
            /\ Statistics.unit s = None
            /\ ("SampleCount" ∉ stats -> Statistics.sample_count s = None)
            /\ ("Sum" ∉ stats -> Statistics.sum s = None)
            /\ ("Minimum" ∉ stats -> Statistics.minimum s = Ok None)
            /\ ("Maximum" ∉ stats -> Statistics.maximum s = Ok None)
            /\ ("Average" ∉ stats -> Statistics.average s = Ok None))
         data.
Proof.
  intros Hcall.
  destruct (get_metric_statistics_windows fmt self namespace metric_name start_time
              end_time period stats data Hcall) as (ws & -> & _).
  apply Forall_fmap, Forall_forall. intros w _. simpl.
  unfold Statistics.sample_count, Statistics.sum, Statistics.minimum,
    Statistics.maximum, Statistics.average, Statistics.requested. simpl.
  repeat split; intros Hnot; by rewrite bool_decide_eq_false_2.
Qed.

Lemma unrequested_statistics_absent_witness :
  let point seconds := MetricDatum.make "N" "M" 1%float (utc_at seconds) [] in
  let self := CloudWatchBackend.make ∅ ∅ [point 0; point 30; point 70; point 130] ∅ in
  let fmt (dt : datetime.t) := EmptyString in
  Forall (fun s =>
            Statistics.sample_count s <> None
            /\ Statistics.unit s = None
            /\ Statistics.sum s = None
            /\ Statistics.minimum s = Ok None
            /\ Statistics.maximum s = Ok None
            /\ Statistics.average s = Ok None)
         [Statistics.make EmptyString [1%float; 1%float] ["SampleCount"];
          Statistics.make EmptyString [1%float] ["SampleCount"];
          Statistics.make EmptyString [1%float] ["SampleCount"]].
Proof.
  intros point self fmt.
  pose proof (unrequested_statistics_absent fmt self "N" "M" (utc_at 0) (utc_at 200)
                60 ["SampleCount"] _ eq_refl) as H.
  eapply Forall_impl; [exact H|].
  intros s (Hstats & Hunit & _ & Hsum & Hmin & Hmax & Havg).
  assert (Hnot : forall stat, stat <> "SampleCount" -> stat ∉ ["SampleCount"])
    by (intros stat Hne Hin%list_elem_of_singleton; done).
  split.
  - unfold Statistics.sample_count, Statistics.requested. rewrite Hstats.
    rewrite bool_decide_eq_true_2 by apply list_elem_of_singleton, eq_refl. done.
  - split; [done|]. repeat split; [apply Hsum | apply Hmin | apply Hmax | apply Havg];
      by apply Hnot.
Defined.



(** ** The claims at concrete inputs *)

Lemma list_metrics_pagination_witness :
  let md := MetricDatum.make "N" "M" 1%float (utc_at 0) [] in
  let self := CloudWatchBackend.make ∅ ∅ (replicate 1200 md) ∅ in
  exists (t1 t2 : string) (self1 self2 self3 : CloudWatchBackend.t),
    CloudWatchBackend.list_metrics [] None None None None 1 self
    = (self1, Ok (Some t1, replicate 500 md))
    /\ CloudWatchBackend.list_metrics [] (Some t1) None None None 2 self1
       = (self2, Ok (Some t2, replicate 500 md))
    /\ CloudWatchBackend.list_metrics [] (Some t2) None None None 3 self2
       = (self3, Ok (None, replicate 200 md))
    /\ CloudWatchBackend.list_metrics [] (Some t1) None None None 4 self3
       = (self3, Raise PaginationException).
Proof.
  intros md self.
  destruct list_metrics_pagination as [H _].
  destruct (H self [] None None None 1%N 2%N 3%N 4%N eq_refl eq_refl)
    as (t1 & t2 & self1 & self2 & self3 & H1 & H2 & H3 & _ & _ & _ & _ & H4 & _).
  exists t1, t2, self1, self2, self3.
  split; [exact H1|]. split; [exact H2|]. split; [exact H3|]. exact H4.
Defined.

Lemma elements_iteration_order : iteration_order elements.
Proof. by intros s. Qed.

Lemma delete_dashboards_all_or_nothing_witness :
  let a := Dashboard.make "arn:aws:cloudwatch::123456789012:dashboard/a" "a" "{}" 0 in
  let self := CloudWatchBackend.make ∅ {["a" := a]} [] ∅ in
  (CloudWatchBackend.delete_dashboards elements ["a"; "missing"] self
   = (self, Ok (false, Some "The specified dashboard does not exist. [missing]"))
   /\ CloudWatchBackend.get_dashboard self "a" = Some a)
  /\ exists (missing : list string) (message : string),
       CloudWatchBackend.delete_dashboards elements ["m1"; "a"; "m2"; "m1"] self
       = (self, Ok (false, Some message))
       /\ missing ≡ₚ ["m1"; "m2"]
       /\ message = "The specified dashboard does not exist. ["
                    +:+ separated ", " missing +:+ "]"
       /\ occurs_in "m1" message
       /\ occurs_in "m2" message.
Proof.
  intros a self.
  destruct (delete_dashboards_all_or_nothing elements elements_iteration_order)
    as (_ & Hmissing & Hexample).
  split; [exact (Hexample self a eq_refl)|].
  destruct (Hmissing self ["m1"; "a"; "m2"; "m1"])
    as (missing & message & Hrun & Hnodup & Hin & Hmessage & Hoccurs).
  { exists "m1". split; [by left | reflexivity]. }
  exists missing, message. split; [exact Hrun|]. split; [|split; [exact Hmessage|]].
  - apply NoDup_Permutation; [exact Hnodup | |].
    + apply NoDup_cons. split; [|apply NoDup_singleton].
      intros H%list_elem_of_singleton. discriminate H.
    + intros n. rewrite Hin, !elem_of_cons, elem_of_nil. split.
      * intros [[->|[->|[->|[->|[]]]]] Hnone];
          first [by left | by right; left | discriminate Hnone].
      * intros [->|[->|[]]]; (split; [|reflexivity]); [by left | by right; right; left].
  - split; apply Hoccurs; try reflexivity; [by left | by right; right; left].
Defined.

Lemma attach_then_detach_witness :
  let gateway :=
    VpnGateway.make "vgw-1" "ipsec.1" None None "available" {["vpc-1" := 1%positive]} in
  let self :=
    VpnGatewayBackend.make
      {["vgw-1" := gateway]}
      {[1%positive := VPCGatewayAttachment.make "vpc-1" None (Some "attached")]}
      {["vpc-1"; "vpc-2"]} in
  exists (attachment2 : positive) (self1 self2 : VpnGatewayBackend.t)
         (gateway1 gateway2 : VpnGateway.t),
    VpnGatewayBackend.attach_vpn_gateway "vgw-1" "vpc-2" self = (self1, Ok attachment2)
    /\ VpnGatewayBackend.vpn_gateways self1 !! "vgw-1" = Some gateway1
    /\ VpnGateway.attachments gateway1 !! "vpc-1" = None
    /\ VpnGateway.attachments gateway1 !! "vpc-2" = Some attachment2
    /\ VpnGatewayBackend.detach_vpn_gateway "vgw-1" "vpc-2" self1 = (self2, Ok attachment2)
    /\ VpnGatewayBackend.vpn_gateways self2 !! "vgw-1" = Some gateway2
    /\ VpnGateway.attachments gateway2 !! "vpc-2" = Some attachment2
    /\ VpnGatewayBackend.objects self2 !! attachment2
       = Some (VPCGatewayAttachment.make "vpc-2" None (Some "detached")).
Proof.
  intros gateway self.
  assert (Hvpc : "vpc-2" ∈ VpnGatewayBackend.vpcs self).
  { apply elem_of_union. right. by apply elem_of_singleton. }
  assert (Hne : "vpc-1" <> "vpc-2") by discriminate.
  destruct (attach_then_detach self "vgw-1" "vpc-1" "vpc-2" gateway 1%positive
              eq_refl eq_refl eq_refl Hvpc Hne)
    as (attachment2 & self1 & self2 & gateway1 & gateway2
        & H1 & H2 & H3 & H4 & _ & H5 & H6 & _ & H7 & H8).
  exists attachment2, self1, self2, gateway1, gateway2.
  repeat split; assumption.
Defined.

(** * Further properties *)

(** ** Alarm state transitions *)





(** ** Deleting and querying alarms *)

Lemma delete_alarms_lookup (alarm_names : list string) (self : CloudWatchBackend.t) :
  exists self',
    CloudWatchBackend.delete_alarms alarm_names self = (self', Ok tt)
    /\ (forall key, CloudWatchBackend.alarms self' !! key
                    = if decide (key ∈ alarm_names) then None
                      else CloudWatchBackend.alarms self !! key)
    /\ CloudWatchBackend.dashboards self' = CloudWatchBackend.dashboards self
    /\ CloudWatchBackend.metric_data self' = CloudWatchBackend.metric_data self
    /\ CloudWatchBackend.paged_metric_data self'
       = CloudWatchBackend.paged_metric_data self.
Proof.
  revert self. induction alarm_names as [|n ns IH]; intros self.
  - exists self. split; [done|]. split; [|done]. intros key.
    destruct (decide (key ∈ [])) as [H|]; [by apply elem_of_nil in H | done].
  - destruct (IH (CloudWatchBackend.set_alarms (delete n) self))
      as (self' & Hrun & Hlook & Hd & Hm & Hp).
    exists self'. split; [|split; [|done]].
    + unfold CloudWatchBackend.delete_alarms in *. simpl. run_method. exact Hrun.
    + intros key. rewrite Hlook. simpl.
      destruct (decide (key ∈ ns)) as [Hin|Hnin], (decide (key ∈ n :: ns)) as [Hin'|Hnin'];
        try done.
      * exfalso. apply Hnin'. by right.
      * apply elem_of_cons in Hin' as [->|?]; [apply lookup_delete_eq | done].
      * rewrite lookup_delete_ne; [done|]. intros <-. apply Hnin'. by left.
Qed.

(** X3.  [delete_alarms] never raises, whether or not the names are stored
    and however often they are repeated: afterwards none of the names is
    stored, every other alarm is as before, and on a backend whose alarms are
    stored under their names [get_alarms_by_alarm_names] finds none of
    them. *)
Theorem delete_alarms_removes (alarm_names : list string) (self : CloudWatchBackend.t) :
  exists self',
    CloudWatchBackend.delete_alarms alarm_names self = (self', Ok tt)
    /\ (forall key, key ∈ alarm_names -> CloudWatchBackend.alarms self' !! key = None)
    /\ (forall key, key ∉ alarm_names ->
          CloudWatchBackend.alarms self' !! key = CloudWatchBackend.alarms self !! key)
    /\ (alarms_keyed_by_name self ->
        CloudWatchBackend.get_alarms_by_alarm_names self' alarm_names = [])
    /\ CloudWatchBackend.dashboards self' = CloudWatchBackend.dashboards self
    /\ CloudWatchBackend.metric_data self' = CloudWatchBackend.metric_data self
    /\ CloudWatchBackend.paged_metric_data self'
       = CloudWatchBackend.paged_metric_data self.
Proof.
  destruct (delete_alarms_lookup alarm_names self) as (self' & Hrun & Hlook & Hrest).
  exists self'. split; [exact Hrun|].
  split; [|split; [|split; [|exact Hrest]]].
  - intros key Hin. rewrite Hlook. by rewrite decide_True.
  - intros key Hnin. rewrite Hlook. by rewrite decide_False.
  - intros Hinv. unfold CloudWatchBackend.get_alarms_by_alarm_names.
    apply filter_none. apply Forall_fmap, Forall_forall. intros [key alarm] Hin. simpl.
    apply elem_of_map_to_list in Hin. rewrite Hlook in Hin.
    destruct (decide (key ∈ alarm_names)) as [|Hnin]; [done|].
    by rewrite (Hinv key alarm Hin).
Qed.

(** ** Invariants of the alarm registry *)

Lemma preserved_by_set_alarms (P : string -> FakeAlarm.t -> Prop)
    (self : CloudWatchBackend.t) (key : string) (alarm : FakeAlarm.t) :
  (forall k a, CloudWatchBackend.alarms self !! k = Some a -> P k a) ->
  P key alarm ->
  forall k a,
    CloudWatchBackend.alarms (CloudWatchBackend.set_alarms (insert key alarm) self) !! k
    = Some a ->
    P k a.
Proof.
  intros Hall Hnew k a. simpl. rewrite lookup_insert.
  case_decide as Hk; [|apply Hall]. intros [= <-]. by subst k.
Qed.

Lemma set_alarm_state_state_valid (alarm_name reason : string)
    (reason_data : option string) (state_value : string) (now : Z)
    (interpreter : Json.limits) (self : CloudWatchBackend.t) :
  alarm_states_valid self ->
  alarm_states_valid
    (CloudWatchBackend.set_alarm_state alarm_name reason reason_data state_value now
       interpreter self).1.
Proof.
  intros Hinv. rewrite set_alarm_state_cases.
  destruct (reason_data_check interpreter reason_data) as [[]|e]; [|exact Hinv].
  destruct (CloudWatchBackend.alarms self !! alarm_name) as [alarm|]; [|exact Hinv].
  case_bool_decide as Hin; [|exact Hinv].
  unfold alarm_states_valid. cbn [fst].
  exact (preserved_by_set_alarms (fun _ a => FakeAlarm.state_value a ∈ state_values)
           self alarm_name
           (FakeAlarm.update_state alarm reason reason_data state_value now) Hinv Hin).
Qed.

Lemma for_each_dashboards_alarms (keys : list string) (self : CloudWatchBackend.t) :
  CloudWatchBackend.alarms
    (for_each keys
       (fun dashboard self =>
          match CloudWatchBackend.delitem dashboard (CloudWatchBackend.dashboards self) with
          | Ok d => (CloudWatchBackend.set_dashboards (fun _ => d) self, Ok tt)
          | Raise e => (self, Raise e)
          end) self).1
  = CloudWatchBackend.alarms self.
Proof.
  revert self. induction keys as [|key keys IH]; intros self; [done|].
  simpl. unfold and_then at 1.
  destruct (CloudWatchBackend.delitem key (CloudWatchBackend.dashboards self)); [|done].
  by rewrite IH.
Qed.

Lemma delete_dashboards_alarms (iterate : gset string -> list string) (names : list string)
    (self : CloudWatchBackend.t) :
  CloudWatchBackend.alarms (CloudWatchBackend.delete_dashboards iterate names self).1
  = CloudWatchBackend.alarms self.
Proof.
  unfold CloudWatchBackend.delete_dashboards. run_method.
  destruct (0 <? size _)%nat; [done|].
  pose proof (for_each_dashboards_alarms (iterate (list_to_set names : gset string)) self)
    as H.
  destruct (for_each _ _ self) as [self' [[]|e]]; exact H.
Qed.

Lemma list_metrics_alarms (metric_providers : CloudWatchBackend.providers)
    (next_token namespace metric_name : option string)
    (dimensions : option (list (gmap string string))) (random_bits : N)
    (self : CloudWatchBackend.t) :
  CloudWatchBackend.alarms
    (CloudWatchBackend.list_metrics metric_providers next_token namespace metric_name
       dimensions random_bits self).1
  = CloudWatchBackend.alarms self.
Proof.
  assert (Hpage : forall metrics s,
             CloudWatchBackend.alarms
               (CloudWatchBackend._get_paginated metrics random_bits s).1
             = CloudWatchBackend.alarms s).
  { intros metrics s. unfold CloudWatchBackend._get_paginated.
    by destruct (500 <? length metrics)%nat. }
  unfold CloudWatchBackend.list_metrics.
  destruct next_token as [[|c r]|]; run_method.
  - destruct (CloudWatchBackend.get_filtered_metrics _ _ _ _ _); [apply Hpage | done].
  - destruct (CloudWatchBackend.paged_metric_data self !! String c r); [|done].
    by rewrite Hpage.
  - destruct (CloudWatchBackend.get_filtered_metrics _ _ _ _ _); [apply Hpage | done].
Qed.

(** X4.  Every backend built from the initial one by the methods keeps two
    invariants of the alarm registry, whatever the calls returned: each alarm
    is stored under its own name, and each alarm's state value is OK, ALARM
    or INSUFFICIENT_DATA. *)
Theorem reachable_alarm_invariants (self : CloudWatchBackend.t) :
  reachable self -> alarms_keyed_by_name self /\ alarm_states_valid self.
Proof.
  induction 1 as [|self ? ? ? ? ? ? ? ? ? ? ? ? ? ? ? ? ? _ [IHk IHs]
                  |self names _ [IHk IHs]
                  |self ? ? ? ? ? ? _ [IHk IHs]
                  |self ? ? ? ? ? _ [IHk IHs]
                  |self iterate names _ [IHk IHs]
                  |self ? ? ? ? ? ? _ [IHk IHs]].
  - split; intros key alarm H; simpl in H; by rewrite lookup_empty in H.
  - split.
    + destruct (CloudWatchBackend.put_metric_alarm _ _ _ _ _ _ _ _ _ _ _ _ _ _ _ _ _ self)
        as [self' r] eqn:Hput.
      exact (put_metric_alarm_keyed _ _ _ _ _ _ _ _ _ _ _ _ _ _ _ _ _ self self' r IHk Hput).
    + unfold CloudWatchBackend.put_metric_alarm, FakeAlarm.__init__. run_method.
      destruct (comprehension _ dimensions) as [dims|e]; simpl; [|exact IHs].
      intros key alarm. simpl. rewrite lookup_insert. case_decide; [|apply IHs].
      intros [= <-]. simpl. by left.
  - split; [by apply delete_alarms_keyed|].
    destruct (delete_alarms_lookup names self) as (self' & -> & Hlook & _).
    intros key alarm. simpl. rewrite Hlook. case_decide; [done | apply IHs].
  - split; [by apply set_alarm_state_keyed | by apply set_alarm_state_state_valid].
  - split; intros key alarm; simpl; [apply IHk | apply IHs].
  - split; intros key alarm; rewrite delete_dashboards_alarms; [apply IHk | apply IHs].
  - split; intros key alarm; rewrite list_metrics_alarms; [apply IHk | apply IHs].
Qed.

Lemma reachable_alarm_invariants_witness :
  let self :=
    (CloudWatchBackend.set_alarm_state "cpu" "high" (Some "{}") "ALARM" 3 default_limits
       (CloudWatchBackend.put_metric_alarm "cpu" "N" "M" "GreaterThanThreshold" 1 60
          1%float "Sum" "d" [] [] [] [] None true 1 2 CloudWatchBackend.__init__).1).1 in
  alarms_keyed_by_name self /\ alarm_states_valid self.
Proof.
  intros self. apply reachable_alarm_invariants.
  apply reachable_set_alarm_state, reachable_put_metric_alarm, reachable_init.
Defined.

Lemma partition_by_state (l : list FakeAlarm.t) :
  Forall (fun a => FakeAlarm.state_value a ∈ state_values) l ->
  l ≡ₚ filter (fun a => FakeAlarm.state_value a = "OK") l
       ++ filter (fun a => FakeAlarm.state_value a = "ALARM") l
       ++ filter (fun a => FakeAlarm.state_value a = "INSUFFICIENT_DATA") l.
Proof.
  induction 1 as [|a l Ha _ IH]; [done|].
  unfold state_values in Ha.
  apply elem_of_cons in Ha as [Ha|Ha];
    [|apply elem_of_cons in Ha as [Ha|Ha];
      [|apply list_elem_of_singleton in Ha]].
  - rewrite (filter_cons_True (fun a => FakeAlarm.state_value a = "OK")) by exact Ha.
    rewrite !filter_cons_False by (rewrite Ha; discriminate).
    simpl. by apply Permutation_skip.
  - rewrite (filter_cons_True (fun a => FakeAlarm.state_value a = "ALARM")) by exact Ha.
    rewrite !filter_cons_False by (rewrite Ha; discriminate).
    cbn [app]. rewrite <- Permutation_middle. by apply Permutation_skip.
  - rewrite (filter_cons_True (fun a => FakeAlarm.state_value a = "INSUFFICIENT_DATA"))
      by exact Ha.
    rewrite !filter_cons_False by (rewrite Ha; discriminate).
    rewrite app_assoc, <- Permutation_middle, <- app_assoc. by apply Permutation_skip.
Qed.

(** X5.  On a backend whose alarms are in the three states, the queries by
    state value split the alarms: every stored alarm is returned by exactly
    one of the queries for OK, ALARM and INSUFFICIENT_DATA, and a query for
    any other value returns nothing. *)
Theorem alarms_split_by_state (self : CloudWatchBackend.t) :
  alarm_states_valid self ->
  CloudWatchBackend.get_all_alarms self
  ≡ₚ CloudWatchBackend.get_alarms_by_state_value self "OK"
     ++ CloudWatchBackend.get_alarms_by_state_value self "ALARM"
     ++ CloudWatchBackend.get_alarms_by_state_value self "INSUFFICIENT_DATA"
  /\ forall target_state, target_state ∉ state_values ->
       CloudWatchBackend.get_alarms_by_state_value self target_state = [].
Proof.
  intros Hinv.
  assert (Hall : Forall (fun a => FakeAlarm.state_value a ∈ state_values)
                   (values (CloudWatchBackend.alarms self))).
  { apply Forall_fmap, Forall_forall. intros [key alarm] Hin.
    apply elem_of_map_to_list in Hin. exact (Hinv key alarm Hin). }
  split.
  - by apply partition_by_state.
  - intros target Htarget. unfold CloudWatchBackend.get_alarms_by_state_value.
    apply filter_none. eapply Forall_impl; [exact Hall|].
    intros a Ha Heq. apply Htarget. by rewrite <- Heq.
Qed.

Lemma alarms_split_by_state_witness :
  let self :=
    CloudWatchBackend.set_alarms (insert "cpu" alarm_in_alarm) CloudWatchBackend.__init__ in
  CloudWatchBackend.get_all_alarms self
  ≡ₚ CloudWatchBackend.get_alarms_by_state_value self "OK"
     ++ CloudWatchBackend.get_alarms_by_state_value self "ALARM"
     ++ CloudWatchBackend.get_alarms_by_state_value self "INSUFFICIENT_DATA".
Proof.
  intros self.
  assert (Hinv : alarm_states_valid self).
  { intros key alarm H. simpl in H.
    apply lookup_insert_Some in H as [[_ <-] | [_ H]].
    - right. by left.
    - by rewrite lookup_empty in H. }
  exact (proj1 (alarms_split_by_state self Hinv)).
Defined.

Lemma list_element_starts_with_spec (items : list string) (needle : string) :
  CloudWatchBackend._list_element_starts_with items needle = true
  <-> exists item, item ∈ items /\ String.prefix needle item = true.
Proof.
  induction items as [|item items IH]; simpl.
  - split; [done|]. intros (item & Hin & _). by apply elem_of_nil in Hin.
  - destruct (String.prefix needle item) eqn:Hp.
    + split; [|done]. intros _. exists item. split; [by left | done].
    + rewrite IH. split.
      * intros (it & Hin & Hit). exists it. split; [by right | done].
      * intros (it & [->|Hin]%elem_of_cons & Hit); [congruence|]. eauto.
Qed.

Lemma prefix_empty (s : string) : String.prefix EmptyString s = true.
Proof. by destruct s. Qed.

(** X6.  The prefix queries on alarms.  [get_alarms_by_action_prefix]
    returns the stored alarms that have an alarm action starting with the
    prefix (the OK and insufficient-data actions are not looked at), so with
    the empty prefix it returns the alarms that have at least one alarm
    action; [get_alarms_by_alarm_name_prefix] with the empty prefix returns
    every alarm. *)
Theorem alarm_prefix_queries (self : CloudWatchBackend.t) :
  (forall action_prefix alarm,
     alarm ∈ CloudWatchBackend.get_alarms_by_action_prefix self action_prefix
     <-> alarm ∈ CloudWatchBackend.get_all_alarms self
         /\ exists action, action ∈ FakeAlarm.alarm_actions alarm
                           /\ String.prefix action_prefix action = true)
  /\ (forall alarm,
        alarm ∈ CloudWatchBackend.get_alarms_by_action_prefix self EmptyString
        <-> alarm ∈ CloudWatchBackend.get_all_alarms self
            /\ FakeAlarm.alarm_actions alarm <> [])
  /\ CloudWatchBackend.get_alarms_by_alarm_name_prefix self EmptyString
     = CloudWatchBackend.get_all_alarms self.
Proof.
  assert (Hprefix : forall action_prefix alarm,
             alarm ∈ CloudWatchBackend.get_alarms_by_action_prefix self action_prefix
             <-> alarm ∈ CloudWatchBackend.get_all_alarms self
                 /\ exists action, action ∈ FakeAlarm.alarm_actions alarm
                                   /\ String.prefix action_prefix action = true).
  { intros action_prefix alarm.
    unfold CloudWatchBackend.get_alarms_by_action_prefix, CloudWatchBackend.get_all_alarms.
    rewrite list_elem_of_filter, list_element_starts_with_spec. tauto. }
  split; [exact Hprefix|]. split.
  - intros alarm. rewrite Hprefix. split; intros [Hin Hact]; (split; [exact Hin|]).
    + destruct Hact as (action & Haction & _). intros Hnil. rewrite Hnil in Haction.
      by apply elem_of_nil in Haction.
    + destruct (FakeAlarm.alarm_actions alarm) as [|action actions]; [done|].
      exists action. split; [by left | apply prefix_empty].
  - unfold CloudWatchBackend.get_alarms_by_alarm_name_prefix,
      CloudWatchBackend.get_all_alarms.
    induction (values (CloudWatchBackend.alarms self)) as [|a l IH]; [done|].
    rewrite filter_cons_True by apply prefix_empty. by rewrite IH.
Qed.

(** ** Dashboards: put, get, list, delete *)

Lemma prefix_refl (s : string) : String.prefix s s = true.
Proof.
  induction s as [|c s IH]; [done|]. simpl.
  destruct (ascii_dec c c); [exact IH | done].
Qed.

(** X7.  [put_dashboard] is an upsert that [get_dashboard] reads back: the
    stored dashboard has the name, the body, the built ARN and the time of
    the call; other dashboards are untouched; a second put of the name
    replaces the first; [list_dashboards] yields the dashboard for every
    prefix of its name; and when the name was not stored, deleting it again
    gives back the backend as it was. *)
Theorem put_dashboard_round_trip (make_arn : string -> string -> string)
    (account name body : string) (now : Z) (self : CloudWatchBackend.t) :
  let stored := Dashboard.make (make_arn account name) name body now in
  let self1 := (CloudWatchBackend.put_dashboard make_arn account name body now self).1 in
  (CloudWatchBackend.put_dashboard make_arn account name body now self).2 = Ok tt
  /\ CloudWatchBackend.get_dashboard self1 name = Some stored
  /\ (forall other, other <> name ->
        CloudWatchBackend.get_dashboard self1 other
        = CloudWatchBackend.get_dashboard self other)
  /\ (forall body' now',
        CloudWatchBackend.put_dashboard make_arn account name body' now' self1
        = CloudWatchBackend.put_dashboard make_arn account name body' now' self)
  /\ (forall prefix, String.prefix prefix name = true ->
        stored ∈ CloudWatchBackend.list_dashboards self1 prefix)
  /\ (forall iterate, iteration_order iterate ->
        CloudWatchBackend.get_dashboard self name = None ->
        CloudWatchBackend.delete_dashboards iterate [name] self1
        = (self, Ok (true, None))).
Proof.
  intros stored self1. split; [done|]. split; [apply lookup_insert_eq|].
  split; [|split; [|split]].
  - intros other Hne. unfold CloudWatchBackend.get_dashboard, self1. simpl.
    by rewrite lookup_insert_ne.
  - intros body' now'. unfold CloudWatchBackend.put_dashboard, self1. run_method.
    unfold CloudWatchBackend.set_dashboards. simpl. by rewrite insert_insert_eq.
  - intros prefix Hprefix. unfold CloudWatchBackend.list_dashboards.
    apply list_elem_of_fmap. exists (name, stored). split; [done|].
    apply list_elem_of_filter. split; [exact Hprefix|].
    apply elem_of_map_to_list. apply lookup_insert_eq.
  - unfold CloudWatchBackend.get_dashboard. intros iterate Horder Hnone.
    assert (Hone : iterate {[name]} = [name]).
    { apply Permutation_singleton_r. rewrite (Horder _). by rewrite elements_singleton. }
    assert (Hleft : forall d : Dashboard.t,
               ({[name]} : gset string)
               ∖ dom (<[name:=d]> (CloudWatchBackend.dashboards self)) = ∅).
    { intros d. apply set_eq. intros k.
      rewrite elem_of_difference, elem_of_singleton, dom_insert_L.
      split; [|by intros ?%not_elem_of_empty].
      intros [-> Hk]. exfalso. apply Hk. apply elem_of_union. left.
      by apply elem_of_singleton. }
    unfold CloudWatchBackend.delete_dashboards, and_then at 1, gets.
    rewrite list_to_set_singleton_L. unfold self1. cbn [fst].
    unfold CloudWatchBackend.put_dashboard, modify. cbn [fst].
    unfold CloudWatchBackend.set_dashboards at 1 2. cbn [CloudWatchBackend.dashboards].
    rewrite Hleft, size_empty. simpl. rewrite Hone. simpl.
    unfold and_then, CloudWatchBackend.delitem. simpl. rewrite lookup_insert_eq. simpl.
    rewrite delete_insert_id by done. by destruct self.
Qed.

(** ** Filtering metric data *)

Lemma has_dimension_spec (self : MetricDatum.t) (x : Dimension.t) :
  MetricDatum.has_dimension self x = true <-> x ∈ MetricDatum.dimensions self.
Proof.
  unfold MetricDatum.has_dimension. rewrite existsb_exists. split.
  - intros (d & Hin & Heq). apply Dimension_eq_spec in Heq as ->.
    by apply list_elem_of_In.
  - intros Hin. exists x. split; [by apply list_elem_of_In | apply Dimension_eq_refl].
Qed.

Lemma any_not_in_spec (self : MetricDatum.t) (ds : list (gmap string string)) :
  metric_dimension_dicts ds ->
  exists missing,
    MetricDatum.any_not_in self ds = Ok missing
    /\ (missing = false
        <-> forall d, d ∈ ds ->
              exists dim, metric_dimension_of d dim /\ dim ∈ MetricDatum.dimensions self).
Proof.
  induction 1 as [|d ds [[n Hn] [v Hv]] _ (missing & Hrun & Hspec)].
  - exists false. split; [done|]. split; [|done]. intros _ d Hd. by apply elem_of_nil in Hd.
  - cbn [MetricDatum.any_not_in]. unfold getitem. rewrite Hn, Hv. simpl.
    destruct (MetricDatum.has_dimension self (Dimension.make n v)) eqn:Hhas; simpl.
    + exists missing. split; [exact Hrun|]. rewrite Hspec. split.
      * intros Hall d' [->|Hd']%elem_of_cons; [|by apply Hall].
        exists (Dimension.make n v). split; [by split|]. by apply has_dimension_spec.
      * intros Hall d' Hd'. apply Hall. by right.
    + exists true. split; [done|]. split; [done|]. intros Hall. exfalso.
      destruct (Hall d) as (dim & [Hdn Hdv] & Hin); [by left|].
      assert (dim = Dimension.make n v) as ->.
      { destruct dim as [dn dv]. simpl in *. congruence. }
      apply has_dimension_spec in Hin. congruence.
Qed.

Lemma metric_filter_cases (self : MetricDatum.t) (namespace name : option string)
    (dimensions : option (list (gmap string string))) :
  (forall ds, dimensions = Some ds -> metric_dimension_dicts ds) ->
  exists keep,
    MetricDatum.filter self namespace name dimensions = Ok keep
    /\ (keep = true
        <-> (truthy namespace = true -> namespace = Some (MetricDatum.namespace self))
            /\ (truthy name = true -> name = Some (MetricDatum.name self))
            /\ (forall ds d, dimensions = Some ds -> d ∈ ds ->
                  exists dim, metric_dimension_of d dim
                              /\ dim ∈ MetricDatum.dimensions self)).
Proof.
  intros Hdicts. unfold MetricDatum.filter.
  assert (Hcrit : forall (arg : option string) (field : string),
             truthy arg && MetricDatum.differs arg field = false
             <-> (truthy arg = true -> arg = Some field)).
  { intros arg field. destruct arg as [s|]; [|split; done].
    unfold MetricDatum.differs. destruct (String.eqb_spec s field) as [->|Hne].
    - cbn [negb]. rewrite andb_false_r. split; done.
    - cbn [negb]. rewrite andb_true_r. split; [by intros ->|].
      intros H. destruct (truthy (Some s)); [|done].
      specialize (H eq_refl). congruence. }
  destruct (truthy namespace && MetricDatum.differs namespace (MetricDatum.namespace self))
    eqn:Hns.
  { exists false. split; [done|]. split; [done|]. intros (H & _).
    apply Hcrit in H. congruence. }
  destruct (truthy name && MetricDatum.differs name (MetricDatum.name self)) eqn:Hname.
  { exists false. split; [done|]. split; [done|]. intros (_ & H & _).
    apply Hcrit in H. congruence. }
  pose proof (proj1 (Hcrit _ _) Hns) as Hns'.
  pose proof (proj1 (Hcrit _ _) Hname) as Hname'.
  destruct dimensions as [[|d ds]|].
  - exists true. split; [done|]. split; [|done]. intros _.
    split; [done|]. split; [done|]. intros ds d [= <-] Hd. by apply elem_of_nil in Hd.
  - destruct (any_not_in_spec self (d :: ds) (Hdicts _ eq_refl)) as (missing & Hrun & Hspec).
    rewrite Hrun. simpl. exists (negb missing). split; [done|].
    rewrite negb_true_iff, Hspec. split.
    + intros Hall. split; [done|]. split; [done|]. intros ds' d' [= <-]. apply Hall.
    + intros (_ & _ & Hall). intros d' Hd'. by apply (Hall (d :: ds)).
  - exists true. split; [done|]. split; [|done]. intros _.
    split; [done|]. split; [done|]. intros ds d [=].
Qed.

(** X8.  [MetricDatum.filter], when the requested dimension dictionaries
    carry their keys, returns True exactly when every given criterion holds:
    a non-empty namespace equals the datum's, a non-empty name equals the
    datum's, and every requested dimension is among the datum's dimensions;
    a criterion that is [None] or empty imposes nothing. *)
Theorem metric_filter_spec (self : MetricDatum.t) (namespace name : option string)
    (dimensions : option (list (gmap string string))) :
  (forall ds, dimensions = Some ds -> metric_dimension_dicts ds) ->
  exists keep,
    MetricDatum.filter self namespace name dimensions = Ok keep
    /\ (keep = true
        <-> (truthy namespace = true -> namespace = Some (MetricDatum.namespace self))
            /\ (truthy name = true -> name = Some (MetricDatum.name self))
            /\ (forall ds d, dimensions = Some ds -> d ∈ ds ->
                  exists dim, metric_dimension_of d dim
                              /\ dim ∈ MetricDatum.dimensions self)).
Proof.
  apply metric_filter_cases.
Qed.

Lemma metric_filter_spec_witness :
  let dim : gmap string string := <["Name" := "InstanceId"]> (<["Value" := "i-1"]> ∅) in
  let md :=
    MetricDatum.make "N" "M" 1%float (utc_at 0) [Dimension.make "InstanceId" "i-1"] in
  exists keep,
    MetricDatum.filter md (Some "N") (Some EmptyString) (Some [dim]) = Ok keep.
Proof.
  intros dim md.
  destruct (metric_filter_spec md (Some "N") (Some EmptyString) (Some [dim]))
    as (keep & Hrun & _).
  - intros ds [= <-]. repeat constructor; eexists; vm_compute; reflexivity.
  - exists keep. exact Hrun.
Defined.

(** X9.  [MetricDatum.filter] reads the requested dimensions only when the
    namespace and name criteria pass, and stops at the first requested
    dimension that the datum lacks: a mismatch returns False even when the
    dictionaries are malformed, while a dictionary without its Name or Value
    key raises [KeyError] once it is reached. *)
Theorem metric_filter_short_circuits (self : MetricDatum.t)
    (namespace name : option string) (dimensions : option (list (gmap string string))) :
  ((truthy namespace = true /\ namespace <> Some (MetricDatum.namespace self))
   \/ (truthy name = true /\ name <> Some (MetricDatum.name self)) ->
   MetricDatum.filter self namespace name dimensions = Ok false)
  /\ (forall d rest dim,
        metric_dimension_of d dim ->
        dim ∉ MetricDatum.dimensions self ->
        MetricDatum.filter self None None (Some (d :: rest)) = Ok false)
  /\ (forall d rest,
        d !! "Name" = None ->
        MetricDatum.filter self None None (Some (d :: rest)) = Raise (KeyError "Name"))
  /\ (forall d rest n,
        d !! "Name" = Some n -> d !! "Value" = None ->
        MetricDatum.filter self None None (Some (d :: rest)) = Raise (KeyError "Value")).
Proof.
  split; [|split; [|split]].
  - unfold MetricDatum.filter.
    assert (Hcrit : forall (arg : option string) (field : string),
               truthy arg = true -> arg <> Some field ->
               truthy arg && MetricDatum.differs arg field = true).
    { intros arg field Ht Hne. rewrite Ht. cbn [andb].
      destruct arg as [s|]; [|done]. unfold MetricDatum.differs.
      destruct (String.eqb_spec s field) as [->|]; done. }
    intros [[Ht Hne]|[Ht Hne]].
    + by rewrite (Hcrit _ _ Ht Hne).
    + rewrite (Hcrit _ _ Ht Hne). by destruct (_ && _).
  - intros d rest [dn dv] [Hn Hv] Hnot. simpl in *.
    unfold MetricDatum.filter. simpl. unfold getitem. rewrite Hn, Hv. simpl.
    destruct (MetricDatum.has_dimension self (Dimension.make dn dv)) eqn:Hhas; [|done].
    by apply has_dimension_spec in Hhas.
  - intros d rest Hn. unfold MetricDatum.filter. simpl. unfold getitem. by rewrite Hn.
  - intros d rest n Hn Hv. unfold MetricDatum.filter. simpl. unfold getitem.
    by rewrite Hn, Hv.
Qed.

Lemma comprehension_metric_dimensions (dimensions : list (gmap string string)) :
  metric_dimension_dicts dimensions ->
  exists dims,
    comprehension
      (fun dimension =>
         n ← getitem dimension "Name";
         v ← getitem dimension "Value";
         Ok (Dimension.make n v)) dimensions = Ok dims
    /\ Forall2 metric_dimension_of dimensions dims.
Proof.
  set (f := fun dimension : gmap string string => _).
  induction 1 as [|d ds [[n Hn] [v Hv]] _ (dims & IH & Hall)].
  - exists []. by split.
  - exists (Dimension.make n v :: dims).
    change (comprehension f (d :: ds))
      with (y ← f d; ys ← comprehension f ds; Ok (y :: ys)).
    rewrite IH. unfold f, getitem. rewrite Hn, Hv. simpl.
    split; [done|]. by constructor.
Qed.

(** X10.  A datum built by [MetricDatum.__init__] keeps its namespace, name
    and value, takes the given timestamp or else the time of the call in the
    zone of UTC, and passes [filter] for its own namespace and name together with any
    selection of the dimension dictionaries it was built from. *)
Theorem metric_datum_passes_its_own_filter (namespace name : string) (value : float)
    (dimensions : list (gmap string string)) (timestamp : option datetime.t) (now : Z) :
  metric_dimension_dicts dimensions ->
  exists md,
    MetricDatum.__init__ namespace name value dimensions timestamp now = Ok md
    /\ MetricDatum.namespace md = namespace
    /\ MetricDatum.name md = name
    /\ MetricDatum.value md = value
    /\ MetricDatum.timestamp md = default (datetime.make now (Some 0)) timestamp
    /\ forall requested,
         requested ⊆ dimensions ->
         MetricDatum.filter md (Some namespace) (Some name) (Some requested) = Ok true.
Proof.
  intros Hdicts.
  destruct (comprehension_metric_dimensions dimensions Hdicts) as (dims & Hcomp & Hall).
  unfold MetricDatum.__init__. rewrite Hcomp. simpl.
  eexists. split; [reflexivity|]. simpl.
  split; [done|]. split; [done|]. split; [done|]. split; [by destruct timestamp|].
  intros requested Hsub.
  set (md := MetricDatum.make _ _ _ _ _).
  destruct (metric_filter_cases md (Some namespace) (Some name) (Some requested))
    as (keep & Hrun & Hspec).
  { intros ds [= <-]. unfold metric_dimension_dicts in *.
    rewrite Forall_forall in Hdicts |- *. intros d Hd. apply Hdicts. by apply Hsub. }
  rewrite Hrun. f_equal. apply Hspec. split; [done|]. split; [done|].
  intros ds d [= <-] Hd. apply Hsub in Hd.
  apply list_elem_of_lookup in Hd as [i Hi].
  destruct (Forall2_lookup_l _ _ _ _ _ Hall Hi) as (dim & Hdim & Hof).
  exists dim. split; [exact Hof|]. simpl. by apply list_elem_of_lookup_2 in Hdim.
Qed.

Lemma metric_datum_passes_its_own_filter_witness :
  let d1 : gmap string string := <["Name" := "InstanceId"]> (<["Value" := "i-1"]> ∅) in
  let d2 : gmap string string := <["Name" := "Zone"]> (<["Value" := "a"]> ∅) in
  exists md,
    MetricDatum.__init__ "N" "M" 1%float [d1; d2] None 42 = Ok md
    /\ MetricDatum.timestamp md = datetime.make 42 (Some 0)
    /\ MetricDatum.filter md (Some "N") (Some "M") (Some [d2]) = Ok true.
Proof.
  intros d1 d2.
  destruct (metric_datum_passes_its_own_filter "N" "M" 1%float [d1; d2] None 42)
    as (md & Hrun & _ & _ & _ & Hts & Hfilter).
  - repeat constructor; eexists; vm_compute; reflexivity.
  - exists md. split; [exact Hrun|]. split; [exact Hts|].
    apply Hfilter. intros d Hd. apply list_elem_of_singleton in Hd as ->.
    right. by left.
Defined.

(** ** Listings *)

Lemma get_paginated_follow (metric_providers : CloudWatchBackend.providers)
    (draws : nat -> N) (fuel : nat) :
  forall (metrics : list MetricDatum.t) (i : nat) (self : CloudWatchBackend.t),
    (length metrics <= 500 * S fuel)%nat ->
    exists (next_token : option string) (self1 self2 : CloudWatchBackend.t)
           (pages : list (list MetricDatum.t)),
      CloudWatchBackend._get_paginated metrics (draws i) self
      = (self1, Ok (next_token, take 500 metrics))
      /\ pages_after fuel metric_providers next_token draws (S i) self1
         = (self2, Ok pages)
      /\ concat (take 500 metrics :: pages) = metrics
      /\ Forall (fun p => (0 < length p <= 500)%nat) pages
      /\ (forall token rest,
            CloudWatchBackend.paged_metric_data self2 !! token = Some rest ->
            CloudWatchBackend.paged_metric_data self !! token = Some rest)
      /\ CloudWatchBackend.alarms self2 = CloudWatchBackend.alarms self
      /\ CloudWatchBackend.dashboards self2 = CloudWatchBackend.dashboards self
      /\ CloudWatchBackend.metric_data self2 = CloudWatchBackend.metric_data self.
Proof.
  assert (Hlast : forall (metrics : list MetricDatum.t) i self n,
             (length metrics <= 500)%nat ->
             exists (next_token : option string) (self1 self2 : CloudWatchBackend.t)
                    (pages : list (list MetricDatum.t)),
               CloudWatchBackend._get_paginated metrics (draws i) self
               = (self1, Ok (next_token, take 500 metrics))
               /\ pages_after n metric_providers next_token draws (S i) self1
                  = (self2, Ok pages)
               /\ concat (take 500 metrics :: pages) = metrics
               /\ Forall (fun p => (0 < length p <= 500)%nat) pages
               /\ (forall token rest,
                     CloudWatchBackend.paged_metric_data self2 !! token = Some rest ->
                     CloudWatchBackend.paged_metric_data self !! token = Some rest)
               /\ CloudWatchBackend.alarms self2 = CloudWatchBackend.alarms self
               /\ CloudWatchBackend.dashboards self2 = CloudWatchBackend.dashboards self
               /\ CloudWatchBackend.metric_data self2
                  = CloudWatchBackend.metric_data self).
  { intros metrics i self n Hsmall.
    rewrite get_paginated_last by lia. rewrite take_ge by lia.
    exists None, self, self, []. split; [done|]. split; [by destruct n|].
    cbn [concat]. rewrite app_nil_r. repeat split; done. }
  induction fuel as [|fuel IH]; intros metrics i self Hlen.
  - apply Hlast. lia.
  - destruct (le_lt_dec (length metrics) 500) as [Hsmall|Hbig]; [by apply Hlast|].
    rewrite get_paginated_more by lia.
    set (token := Uuid.str (Uuid.uuid4 (draws i))).
    assert (Htoken : token <> EmptyString)
      by (destruct (uuid_str_not_empty (Uuid.uuid4 (draws i))) as (c & r & H);
          unfold token; by rewrite H).
    set (self1 := CloudWatchBackend.set_paged_metric_data
                    (insert token (drop 500 metrics)) self).
    destruct (IH (drop 500 metrics) (S i)
                 (CloudWatchBackend.set_paged_metric_data (delete token) self1))
      as (next_token & self1' & self2 & pages
          & Hpage & Hfollow & Hconcat & Hsizes & Htokens & Ha & Hd & Hm).
    { rewrite length_drop. lia. }
    exists (Some token), self1, self2, (take 500 (drop 500 metrics) :: pages).
    split; [done|]. split.
    { cbn [pages_after]. unfold and_then at 1.
      rewrite (list_metrics_known_token _ token _ _ _ _ self1 (drop 500 metrics) Htoken)
        by apply lookup_insert_eq.
      rewrite Hpage. unfold and_then. by rewrite Hfollow. }
    split; [|split; [|split; [|done]]].
    + cbn [concat]. cbn [concat] in Hconcat. rewrite Hconcat. apply take_drop.
    + constructor; [|exact Hsizes]. rewrite length_take, length_drop. lia.
    + intros t rest Hlook. apply Htokens in Hlook. simpl in Hlook.
      apply lookup_delete_Some in Hlook as [Hne Hlook].
      by rewrite lookup_insert_ne in Hlook.
Qed.

(** X11.  A listing without a token whose selection has at most 500 metrics
    returns all of them without a token and leaves the backend as it was;
    an empty token is read as no token. *)
Theorem list_metrics_single_page (metric_providers : CloudWatchBackend.providers)
    (namespace metric_name : option string)
    (dimensions : option (list (gmap string string))) (random_bits : N)
    (self : CloudWatchBackend.t) (metrics : list MetricDatum.t) :
  CloudWatchBackend.get_filtered_metrics self metric_providers metric_name namespace
    dimensions = Ok metrics ->
  (length metrics <= 500)%nat ->
  CloudWatchBackend.list_metrics metric_providers None namespace metric_name dimensions
    random_bits self = (self, Ok (None, metrics))
  /\ CloudWatchBackend.list_metrics metric_providers (Some EmptyString) namespace
       metric_name dimensions random_bits self = (self, Ok (None, metrics)).
Proof.
  intros Hfiltered Hlen.
  split; unfold CloudWatchBackend.list_metrics, and_then; rewrite Hfiltered;
    by apply get_paginated_last.
Qed.

Lemma list_metrics_single_page_witness :
  let md := MetricDatum.make "N" "M" 1%float (utc_at 0) [] in
  let self := CloudWatchBackend.make ∅ ∅ [md; md] ∅ in
  CloudWatchBackend.list_metrics [] None (Some "N") None None 7 self
  = (self, Ok (None, [md; md])).
Proof.
  intros md self.
  refine (proj1 (list_metrics_single_page [] (Some "N") None None 7%N self [md; md]
                   eq_refl _)).
  simpl. lia.
Defined.

(** X12.  Following the continuation tokens returns the whole selection,
    whatever [uuid4()] draws: the first page and the pages obtained by
    presenting each token in turn, put one after the other, are the selected
    metrics in order; the first page has the first 500 of them, every later
    page has between 1 and 500, the last one comes without a token, and
    afterwards no token of the listing is outstanding: the tokens left are
    tokens that were outstanding before, with their metrics. *)
Theorem list_metrics_pages_cover (metric_providers : CloudWatchBackend.providers)
    (namespace metric_name : option string)
    (dimensions : option (list (gmap string string))) (draws : nat -> N)
    (self : CloudWatchBackend.t) (metrics : list MetricDatum.t) :
  CloudWatchBackend.get_filtered_metrics self metric_providers metric_name namespace
    dimensions = Ok metrics ->
  exists (next_token : option string) (self1 self2 : CloudWatchBackend.t)
         (pages : list (list MetricDatum.t)),
    CloudWatchBackend.list_metrics metric_providers None namespace metric_name dimensions
      (draws O) self = (self1, Ok (next_token, take 500 metrics))
    /\ pages_after (length metrics) metric_providers next_token draws 1 self1
       = (self2, Ok pages)
    /\ concat (take 500 metrics :: pages) = metrics
    /\ Forall (fun p => (0 < length p <= 500)%nat) pages
    /\ (forall token rest,
          CloudWatchBackend.paged_metric_data self2 !! token = Some rest ->
          CloudWatchBackend.paged_metric_data self !! token = Some rest)
    /\ CloudWatchBackend.alarms self2 = CloudWatchBackend.alarms self
    /\ CloudWatchBackend.dashboards self2 = CloudWatchBackend.dashboards self
    /\ CloudWatchBackend.metric_data self2 = CloudWatchBackend.metric_data self.
Proof.
  intros Hfiltered.
  destruct (get_paginated_follow metric_providers draws (length metrics) metrics O self)
    as (next_token & self1 & self2 & pages & Hpage & Hrest); [lia|].
  exists next_token, self1, self2, pages. split; [|exact Hrest].
  unfold CloudWatchBackend.list_metrics, and_then. by rewrite Hfiltered.
Qed.

Lemma list_metrics_pages_cover_witness :
  let md := MetricDatum.make "N" "M" 1%float (utc_at 0) [] in
  let self := CloudWatchBackend.make ∅ ∅ (replicate 1001 md) ∅ in
  exists (next_token : option string) (self1 self2 : CloudWatchBackend.t)
         (pages : list (list MetricDatum.t)),
    CloudWatchBackend.list_metrics [] None None None None 5 self
    = (self1, Ok (next_token, replicate 500 md))
    /\ pages_after 1001 [] next_token (fun i => 5 + N.of_nat i)%N 1 self1
       = (self2, Ok pages)
    /\ concat (replicate 500 md :: pages) = replicate 1001 md.
Proof.
  intros md self.
  destruct (list_metrics_pages_cover [] None None None (fun i => 5 + N.of_nat i)%N self
              (replicate 1001 md) eq_refl)
    as (next_token & self1 & self2 & pages & H1 & H2 & H3 & _).
  exists next_token, self1, self2, pages.
  split; [exact H1|]. split; [exact H2|]. exact H3.
Defined.

(** ** daterange *)

(** X13.  [daterange] with a zero step fails its assertion before it yields
    anything, and with a naive and an aware bound the first comparison raises
    [TypeError].  Otherwise, with a positive step it yields [start],
    [start + step], ... as long as they are below [stop], and with a negative
    step as long as they are above [stop]: the loop ends on the first value
    that is not, so nothing is yielded when [start] is already at or past
    [stop]; with [inclusive] it then yields that value as well, exactly when
    it is [stop].  When the value after the last one yielded is out of the
    range of [datetime], the generator raises [OverflowError] after it has
    yielded the values before. *)
Theorem daterange_yields (start stop : datetime.t) (step : Z) (inclusive : bool) :
  let reached (count : nat) := datetime.instant start + Z.of_nat count * step in
  let fields (count : nat) := datetime.wall start + Z.of_nat count * step in
  (step = 0 -> daterange start stop step inclusive = ([], Some AssertionError))
  /\ (step <> 0 ->
      datetime.aware start <> datetime.aware stop ->
      daterange start stop step inclusive = ([], Some TypeError))
  /\ (0 < step ->
      datetime.aware start = datetime.aware stop ->
      exists count : nat,
        (forall k : nat, (k < count)%nat -> reached k < datetime.instant stop)
        /\ (forall k : nat, (1 <= k < count)%nat -> datetime.in_range (fields k) = true)
        /\ ((datetime.instant stop <= reached count
             /\ ((0 < count)%nat -> datetime.in_range (fields count) = true)
             /\ daterange start stop step inclusive
                = (progression count start step
                   ++ (if inclusive && (reached count =? datetime.instant stop)
                       then [shifted start (Z.of_nat count * step)] else []), None))
            \/ ((0 < count)%nat
                /\ datetime.in_range (fields count) = false
                /\ daterange start stop step inclusive
                   = (progression count start step, Some OverflowError))))
  /\ (step < 0 ->
      datetime.aware start = datetime.aware stop ->
      exists count : nat,
        (forall k : nat, (k < count)%nat -> datetime.instant stop < reached k)
        /\ (forall k : nat, (1 <= k < count)%nat -> datetime.in_range (fields k) = true)
        /\ ((reached count <= datetime.instant stop
             /\ ((0 < count)%nat -> datetime.in_range (fields count) = true)
             /\ daterange start stop step inclusive
                = (progression count start step
                   ++ (if inclusive && (reached count =? datetime.instant stop)
                       then [shifted start (Z.of_nat count * step)] else []), None))
            \/ ((0 < count)%nat
                /\ datetime.in_range (fields count) = false
                /\ daterange start stop step inclusive
                   = (progression count start step, Some OverflowError)))).
Proof.
  intros reached fields. unfold daterange.
  split; [by intros ->|]. split; [|split].
  - intros Hstep Hkind. apply Z.eqb_neq in Hstep. rewrite Hstep.
    assert (Hmixed : Bool.eqb (datetime.aware start) (datetime.aware stop) = false)
      by (by destruct (datetime.aware start), (datetime.aware stop)).
    assert (Hmixed' : Bool.eqb (datetime.aware stop) (datetime.aware start) = false)
      by (by destruct (datetime.aware start), (datetime.aware stop)).
    destruct (0 <? step);
      destruct (Z.to_nat _); cbn [daterange_forward daterange_backward];
      unfold datetime.lt, datetime.compare; by rewrite ?Hmixed, ?Hmixed'.
  - intros Hstep Hkind.
    destruct (step =? 0) eqn:Hz; [apply Z.eqb_eq in Hz; lia|].
    destruct (0 <? step) eqn:Hp; [|apply Z.ltb_ge in Hp; lia].
    destruct (daterange_forward_cases
                (Z.to_nat (Z.abs (datetime.instant stop - datetime.instant start)))
                start stop step Hstep Hkind)
      as (count & Hbelow & Hrange & [(Hstop & Hlast & Hrun) | (Hcount & Hlast & Hrun)]);
      [lia| |]; exists count; (split; [exact Hbelow|]); (split; [exact Hrange|]).
    + left. split; [exact Hstop|]. split; [exact Hlast|].
      rewrite Hrun. cbn beta iota. unfold datetime.eq.
      rewrite aware_shifted, Hkind, instant_shifted.
      by destruct (datetime.aware stop).
    + right. split; [exact Hcount|]. split; [exact Hlast|]. by rewrite Hrun.
  - intros Hstep Hkind.
    destruct (step =? 0) eqn:Hz; [apply Z.eqb_eq in Hz; lia|].
    destruct (0 <? step) eqn:Hp; [apply Z.ltb_lt in Hp; lia|].
    destruct (daterange_backward_cases
                (Z.to_nat (Z.abs (datetime.instant stop - datetime.instant start)))
                start stop step Hstep Hkind)
      as (count & Hbelow & Hrange & [(Hstop & Hlast & Hrun) | (Hcount & Hlast & Hrun)]);
      [lia| |]; exists count; (split; [exact Hbelow|]); (split; [exact Hrange|]).
    + left. split; [exact Hstop|]. split; [exact Hlast|].
      rewrite Hrun. cbn beta iota. unfold datetime.eq.
      rewrite aware_shifted, Hkind, instant_shifted.
      by destruct (datetime.aware stop).
    + right. split; [exact Hcount|]. split; [exact Hlast|]. by rewrite Hrun.
Qed.

Lemma daterange_yields_witness :
  let last := datetime.end_of_time - 1 in
  daterange (naive_at 0) (naive_at 10) (microseconds 5) true
  = ([naive_at 0; naive_at 5; naive_at 10], None)
  /\ daterange (naive_at 0) (naive_at 11) (microseconds 5) true
     = ([naive_at 0; naive_at 5; naive_at 10], None)
  /\ daterange (utc_at 10) (utc_at 0) (microseconds (-5)) false
     = ([utc_at 10; utc_at 5], None)
  /\ daterange (datetime.make (last - 9) None) (datetime.make last None) 6 false
     = ([datetime.make (last - 9) None; datetime.make (last - 3) None],
        Some OverflowError)
  /\ daterange (naive_at 10) (utc_at 0) (microseconds (-5)) false = ([], Some TypeError)
  /\ exists count : nat,
       datetime.instant (naive_at 10) <= datetime.instant (naive_at 0) + Z.of_nat count * 5000000
       /\ daterange (naive_at 0) (naive_at 10) (microseconds 5) true
          = (progression count (naive_at 0) 5000000
             ++ (if true && (datetime.instant (naive_at 0) + Z.of_nat count * 5000000
                             =? datetime.instant (naive_at 10))
                 then [shifted (naive_at 0) (Z.of_nat count * 5000000)] else []), None).
Proof.
  intros last.
  split; [reflexivity|]. split; [reflexivity|]. split; [reflexivity|].
  split; [reflexivity|].
  split; [by apply (daterange_yields (naive_at 10) (utc_at 0) (microseconds (-5)) false)|].
  destruct (proj1 (proj2 (proj2 (daterange_yields (naive_at 0) (naive_at 10)
                                   (microseconds 5) true))))
    as (count & _ & _ & [(Hstop & _ & Hrun) | (_ & _ & Hrun)]);
    [done | done | | discriminate Hrun].
  exists count. split; [exact Hstop | exact Hrun].
Defined.

(** ** Reading the statistics of a window *)

Lemma fold_pick_in (pick : float -> float -> float) (v : float) (vs : list float) :
  (forall m x, pick m x = m \/ pick m x = x) ->
  foldl pick v vs ∈ v :: vs.
Proof.
  intros Hpick. revert v. induction vs as [|x vs IH]; intros v; simpl; [by left|].
  destruct (Hpick v x) as [-> | ->].
  - specialize (IH v). apply elem_of_cons in IH as [->|IH]; [by left|].
    by right; right.
  - right. apply IH.
Qed.

(** X14.  On every window of the output the requested statistics can be
    read: the minimum and the maximum are values of the window, the average
    is the sum of the values divided by their number, and none of them
    raises.  On a [Statistics] object without values, which the loop never
    appends, a requested minimum or maximum raises [ValueError] and a
    requested average raises [ZeroDivisionError]. *)
Theorem statistics_of_windows_can_be_read (fmt : datetime.t -> string)
    (self : CloudWatchBackend.t) (namespace metric_name : string)
    (start_time end_time : datetime.t) (period : Z) (stats : list string)
    (data : list Statistics.t) :
  get_metric_statistics fmt self namespace metric_name start_time end_time period stats
  = Ok data ->
  Forall (fun s =>
            ("SampleCount" ∈ stats ->
             Statistics.sample_count s = Some (length (Statistics.values s)))
            /\ ("Sum" ∈ stats ->
                Statistics.sum s = Some (Statistics.py_sum (Statistics.values s)))
            /\ ("Minimum" ∈ stats ->
                exists v, Statistics.minimum s = Ok (Some v) /\ v ∈ Statistics.values s)
            /\ ("Maximum" ∈ stats ->
                exists v, Statistics.maximum s = Ok (Some v) /\ v ∈ Statistics.values s)
            /\ ("Average" ∈ stats ->
                Statistics.average s
                = Ok (Some (PrimFloat.div
                              (Statistics.py_sum (Statistics.values s))
                              (Statistics.float_of_len (length (Statistics.values s)))))))
         data
  /\ (forall dt : datetime.t,
        let empty := Statistics.__init__ fmt stats dt in
        ("Minimum" ∈ stats ->
         Statistics.minimum empty = Raise (ValueError "min() arg is an empty sequence"))
        /\ ("Maximum" ∈ stats ->
            Statistics.maximum empty = Raise (ValueError "max() arg is an empty sequence"))
        /\ ("Average" ∈ stats -> Statistics.average empty = Raise ZeroDivisionError)).
Proof.
  intros Hcall. split.
  - destruct (get_metric_statistics_windows fmt self namespace metric_name start_time
                end_time period stats data Hcall) as (ws & -> & Hwin & _).
    apply Forall_fmap. eapply Forall_impl; [exact Hwin|].
    intros [dt pts] [Hne _]. simpl in Hne.
    destruct pts as [|p pts]; [done|].
    unfold Statistics.sample_count, Statistics.sum, Statistics.minimum,
      Statistics.maximum, Statistics.average, Statistics.requested. simpl.
    repeat split; intros Hreq; rewrite bool_decide_eq_true_2 by done; simpl; try done.
    + eexists. split; [reflexivity|]. apply fold_pick_in.
      intros m x. destruct (PrimFloat.ltb x m); auto.
    + eexists. split; [reflexivity|]. apply fold_pick_in.
      intros m x. destruct (PrimFloat.ltb m x); auto.
  - intros dt. unfold Statistics.minimum, Statistics.maximum, Statistics.average,
      Statistics.requested. simpl.
    repeat split; intros Hreq; by rewrite bool_decide_eq_true_2.
Qed.

Lemma statistics_of_windows_can_be_read_witness :
  let point seconds v := MetricDatum.make "N" "M" v (utc_at seconds) [] in
  let self :=
    CloudWatchBackend.make ∅ ∅ [point 0 3%float; point 30 1%float; point 70 2%float] ∅ in
  let fmt (dt : datetime.t) := EmptyString in
  Forall (fun s => exists v, Statistics.minimum s = Ok (Some v) /\ v ∈ Statistics.values s)
         [Statistics.make EmptyString [3%float; 1%float] ["Minimum"];
          Statistics.make EmptyString [2%float] ["Minimum"]]
  /\ Statistics.minimum (Statistics.make EmptyString [3%float; 1%float] ["Minimum"])
     = Ok (Some 1%float).
Proof.
  intros point self fmt. split; [|reflexivity].
  pose proof (proj1 (statistics_of_windows_can_be_read fmt self "N" "M" (utc_at 0)
                       (utc_at 200) 60 ["Minimum"] _ eq_refl)) as H.
  eapply Forall_impl; [exact H|].
  intros s (_ & _ & Hmin & _). apply Hmin. by left.
Defined.



(** ** VPN gateways: further operations *)

(** X16.  [attach_vpn_gateway] checks the gateway first and the VPC second:
    an unknown gateway raises the invalid-gateway error, a known gateway with
    a VPC that the VPC backend does not know raises the invalid-VPC error,
    and both leave the backend, the store of attachments included, as it
    was. *)
Theorem attach_vpn_gateway_rejects (self : VpnGatewayBackend.t)
    (vpn_gateway_id vpc_id : string) :
  (VpnGatewayBackend.vpn_gateways self !! vpn_gateway_id = None ->
   VpnGatewayBackend.attach_vpn_gateway vpn_gateway_id vpc_id self
   = (self, Raise (InvalidVpnGatewayIdError vpn_gateway_id)))
  /\ (is_Some (VpnGatewayBackend.vpn_gateways self !! vpn_gateway_id) ->
      vpc_id ∉ VpnGatewayBackend.vpcs self ->
      VpnGatewayBackend.attach_vpn_gateway vpn_gateway_id vpc_id self
      = (self, Raise (InvalidVPCIdError vpc_id))).
Proof.
  unfold VpnGatewayBackend.attach_vpn_gateway, VpnGatewayBackend.get_vpn_gateway,
    VpnGatewayBackend.get_vpc.
  split.
  - intros Hnone. run_method. by rewrite Hnone.
  - intros [gateway Hgw] Hvpc. run_method. rewrite Hgw. simpl.
    by rewrite bool_decide_eq_false_2.
Qed.

(** X17.  A successful [attach_vpn_gateway] leaves the gateway with the
    entry of the attached VPC as its only entry under a key that starts with
    "vpc-" (entries under other keys are kept); it touches no other gateway;
    and it creates a new attachment object without changing any earlier one:
    an attachment that was dropped from the dictionary still reads as it
    did for whoever holds it. *)
Theorem attach_vpn_gateway_effect (self : VpnGatewayBackend.t)
    (vpn_gateway_id vpc_id : string) (vpn_gateway : VpnGateway.t) :
  VpnGatewayBackend.vpn_gateways self !! vpn_gateway_id = Some vpn_gateway ->
  vpc_id ∈ VpnGatewayBackend.vpcs self ->
  exists (attachment : positive) (self' : VpnGatewayBackend.t) (gateway' : VpnGateway.t),
    VpnGatewayBackend.attach_vpn_gateway vpn_gateway_id vpc_id self
    = (self', Ok attachment)
    /\ VpnGatewayBackend.vpn_gateways self' !! vpn_gateway_id = Some gateway'
    /\ (forall key,
          VpnGateway.attachments gateway' !! key
          = if decide (key = vpc_id) then Some attachment
            else if String.prefix "vpc-" key then None
                 else VpnGateway.attachments vpn_gateway !! key)
    /\ (VpnGateway.id gateway' = VpnGateway.id vpn_gateway
        /\ VpnGateway.type gateway' = VpnGateway.type vpn_gateway
        /\ VpnGateway.state gateway' = VpnGateway.state vpn_gateway)
    /\ (forall other, other <> vpn_gateway_id ->
          VpnGatewayBackend.vpn_gateways self' !! other
          = VpnGatewayBackend.vpn_gateways self !! other)
    /\ VpnGatewayBackend.objects self !! attachment = None
    /\ VpnGatewayBackend.objects self' !! attachment
       = Some (VPCGatewayAttachment.make vpc_id None (Some "attached"))
    /\ (forall earlier a,
          VpnGatewayBackend.objects self !! earlier = Some a ->
          VpnGatewayBackend.objects self' !! earlier = Some a).
Proof.
  intros Hgw Hvpc.
  pose proof (attach_vpn_gateway_runs self vpn_gateway_id vpc_id vpn_gateway Hgw Hvpc)
    as Hrun. simpl in Hrun.
  assert (Hfresh : VpnGatewayBackend.objects self
                   !! fresh (dom (VpnGatewayBackend.objects self)) = None)
    by apply not_elem_of_dom, is_fresh.
  eexists _, _, _. split; [exact Hrun|].
  split; [apply lookup_insert_eq|]. split; [|split; [done|split; [|split; [|split]]]].
  - intros key. simpl. rewrite lookup_insert. destruct (decide (vpc_id = key)) as [->|Hne].
    + by rewrite decide_True.
    + rewrite decide_False by congruence. apply pop_vpc_keys_lookup.
  - intros other Hne. simpl. by rewrite lookup_insert_ne.
  - exact Hfresh.
  - apply lookup_insert_eq.
  - intros earlier a Hearlier. simpl. rewrite lookup_insert_ne; [done|].
    intros Heq. rewrite Heq in Hfresh. congruence.
Qed.

Lemma attach_vpn_gateway_effect_witness :
  let gateway :=
    VpnGateway.make "vgw-1" "ipsec.1" None None "available"
      {["vpc-1" := 1%positive; "igw-1" := 2%positive]} in
  let self :=
    VpnGatewayBackend.make
      {["vgw-1" := gateway]}
      {[1%positive := VPCGatewayAttachment.make "vpc-1" None (Some "attached");
        2%positive := VPCGatewayAttachment.make "igw-1" None (Some "attached")]}
      {["vpc-1"; "vpc-2"]} in
  exists (attachment : positive) (self' : VpnGatewayBackend.t) (gateway' : VpnGateway.t),
    VpnGatewayBackend.attach_vpn_gateway "vgw-1" "vpc-2" self = (self', Ok attachment)
    /\ VpnGatewayBackend.vpn_gateways self' !! "vgw-1" = Some gateway'
    /\ VpnGateway.attachments gateway' !! "vpc-1" = None
    /\ VpnGateway.attachments gateway' !! "igw-1" = Some 2%positive
    /\ VpnGatewayBackend.objects self' !! 1%positive
       = Some (VPCGatewayAttachment.make "vpc-1" None (Some "attached")).
Proof.
  intros gateway self.
  assert (Hvpc : "vpc-2" ∈ VpnGatewayBackend.vpcs self).
  { apply elem_of_union. right. by apply elem_of_singleton. }
  destruct (attach_vpn_gateway_effect self "vgw-1" "vpc-2" gateway eq_refl Hvpc)
    as (attachment & self' & gateway' & Hrun & Hgw & Hkeys & _ & _ & _ & _ & Hearlier).
  exists attachment, self', gateway'.
  split; [exact Hrun|]. split; [exact Hgw|].
  split; [exact (Hkeys "vpc-1")|]. split; [exact (Hkeys "igw-1")|].
  apply Hearlier. reflexivity.
Defined.

Lemma alter_twice_same {V : Type} (f : V -> V) (r : positive) (m : gmap positive V) :
  (forall v, f (f v) = f v) -> alter f r (alter f r m) = alter f r m.
Proof.
  intros Hf. apply map_eq. intros k. destruct (decide (k = r)) as [->|Hne].
  - rewrite !lookup_alter_eq. destruct (m !! r); simpl; by rewrite ?Hf.
  - by rewrite !lookup_alter_ne.
Qed.

(** X18.  [detach_vpn_gateway] raises the invalid-gateway error on an
    unknown gateway and the invalid-attachment error, with the gateway's own
    identifier, when the gateway has no entry for the VPC; both leave the
    backend as it was.  When the entry exists, the call returns its
    attachment, sets that object's state to detached and changes no
    dictionary; so detaching the same VPC once more succeeds again and
    changes nothing. *)
Theorem detach_vpn_gateway_cases (self : VpnGatewayBackend.t)
    (vpn_gateway_id vpc_id : string) :
  (VpnGatewayBackend.vpn_gateways self !! vpn_gateway_id = None ->
   VpnGatewayBackend.detach_vpn_gateway vpn_gateway_id vpc_id self
   = (self, Raise (InvalidVpnGatewayIdError vpn_gateway_id)))
  /\ (forall vpn_gateway,
        VpnGatewayBackend.vpn_gateways self !! vpn_gateway_id = Some vpn_gateway ->
        VpnGateway.attachments vpn_gateway !! vpc_id = None ->
        VpnGatewayBackend.detach_vpn_gateway vpn_gateway_id vpc_id self
        = (self, Raise (InvalidVpnGatewayAttachmentError (VpnGateway.id vpn_gateway)
                                                        vpc_id)))
  /\ (forall vpn_gateway detached,
        VpnGatewayBackend.vpn_gateways self !! vpn_gateway_id = Some vpn_gateway ->
        VpnGateway.attachments vpn_gateway !! vpc_id = Some detached ->
        exists self',
          VpnGatewayBackend.detach_vpn_gateway vpn_gateway_id vpc_id self
          = (self', Ok detached)
          /\ VpnGatewayBackend.vpn_gateways self' = VpnGatewayBackend.vpn_gateways self
          /\ VpnGatewayBackend.vpcs self' = VpnGatewayBackend.vpcs self
          /\ VpnGatewayBackend.objects self' !! detached
             = VPCGatewayAttachment.set_state "detached"
                 <$> VpnGatewayBackend.objects self !! detached
          /\ (forall other, other <> detached ->
                VpnGatewayBackend.objects self' !! other
                = VpnGatewayBackend.objects self !! other)
          /\ VpnGatewayBackend.detach_vpn_gateway vpn_gateway_id vpc_id self'
             = (self', Ok detached)).
Proof.
  split; [|split].
  - intros Hnone.
    unfold VpnGatewayBackend.detach_vpn_gateway, VpnGatewayBackend.get_vpn_gateway.
    run_method. by rewrite Hnone.
  - intros vpn_gateway Hgw Hnone.
    unfold VpnGatewayBackend.detach_vpn_gateway, VpnGatewayBackend.get_vpn_gateway.
    run_method. rewrite Hgw. simpl. by rewrite Hnone.
  - intros vpn_gateway detached Hgw Hatt.
    eexists. split; [exact (detach_vpn_gateway_runs self vpn_gateway_id vpc_id
                              vpn_gateway detached Hgw Hatt)|].
    split; [done|]. split; [done|]. split; [apply lookup_alter_eq|]. split.
    + intros other Hne. simpl. by rewrite lookup_alter_ne.
    + rewrite (detach_vpn_gateway_runs _ vpn_gateway_id vpc_id vpn_gateway detached)
        by done.
      f_equal. unfold VpnGatewayBackend.set_objects. simpl. f_equal.
      by apply alter_twice_same.
Qed.

Lemma detach_vpn_gateway_cases_witness :
  let gateway :=
    VpnGateway.make "vgw-1" "ipsec.1" None None "available" {["vpc-1" := 1%positive]} in
  let self :=
    VpnGatewayBackend.make
      {["vgw-1" := gateway]}
      {[1%positive := VPCGatewayAttachment.make "vpc-1" None (Some "attached")]}
      {["vpc-1"]} in
  VpnGatewayBackend.detach_vpn_gateway "vgw-1" "vpc-9" self
  = (self, Raise (InvalidVpnGatewayAttachmentError "vgw-1" "vpc-9"))
  /\ exists self',
       VpnGatewayBackend.detach_vpn_gateway "vgw-1" "vpc-1" self = (self', Ok 1%positive)
       /\ VpnGatewayBackend.detach_vpn_gateway "vgw-1" "vpc-1" self'
          = (self', Ok 1%positive).
Proof.
  intros gateway self.
  destruct (detach_vpn_gateway_cases self "vgw-1" "vpc-9") as (_ & Hmissing & _).
  split; [exact (Hmissing gateway eq_refl eq_refl)|].
  destruct (detach_vpn_gateway_cases self "vgw-1" "vpc-1") as (_ & _ & Hdetach).
  destruct (Hdetach gateway 1%positive eq_refl eq_refl)
    as (self' & Hrun & _ & _ & _ & _ & Hagain).
  exists self'. split; [exact Hrun | exact Hagain].
Defined.

(** X19.  [delete_vpn_gateway] raises the invalid-gateway error on an
    unknown gateway.  On a stored gateway it returns the gateway with state
    deleted and keeps it stored: [get_vpn_gateway] still returns it, with its
    identifier, type and attachments, and every other gateway and every
    attachment object is untouched. *)
Theorem delete_vpn_gateway_keeps_record (self : VpnGatewayBackend.t)
    (vpn_gateway_id : string) :
  (VpnGatewayBackend.vpn_gateways self !! vpn_gateway_id = None ->
   VpnGatewayBackend.delete_vpn_gateway vpn_gateway_id self
   = (self, Raise (InvalidVpnGatewayIdError vpn_gateway_id)))
  /\ (forall vpn_gateway,
        VpnGatewayBackend.vpn_gateways self !! vpn_gateway_id = Some vpn_gateway ->
        exists self' deleted,
          VpnGatewayBackend.delete_vpn_gateway vpn_gateway_id self = (self', Ok deleted)
          /\ VpnGatewayBackend.get_vpn_gateway vpn_gateway_id self' = (self', Ok deleted)
          /\ VpnGateway.state deleted = "deleted"
          /\ VpnGateway.id deleted = VpnGateway.id vpn_gateway
          /\ VpnGateway.type deleted = VpnGateway.type vpn_gateway
          /\ VpnGateway.attachments deleted = VpnGateway.attachments vpn_gateway
          /\ (forall other, other <> vpn_gateway_id ->
                VpnGatewayBackend.vpn_gateways self' !! other
                = VpnGatewayBackend.vpn_gateways self !! other)
          /\ VpnGatewayBackend.objects self' = VpnGatewayBackend.objects self
          /\ VpnGatewayBackend.vpcs self' = VpnGatewayBackend.vpcs self).
Proof.
  unfold VpnGatewayBackend.delete_vpn_gateway, VpnGatewayBackend.get_vpn_gateway.
  split.
  - intros Hnone. run_method. by rewrite Hnone.
  - intros vpn_gateway Hgw. run_method. rewrite Hgw. simpl.
    eexists _, _. split; [reflexivity|]. simpl. rewrite lookup_insert_eq.
    repeat split; try done.
    intros other Hne. by rewrite lookup_insert_ne.
Qed.

(** X20.  [create_vpn_gateway] stores a gateway in state available without
    attachments under the identifier drawn, returns it, and touches no
    gateway stored under another identifier; [get_vpn_gateway] returns it,
    and detaching any VPC from it raises the invalid-attachment error. *)
Theorem create_vpn_gateway_fresh (self : VpnGatewayBackend.t)
    (vpn_gateway_id gateway_type : string) (amazon_side_asn availability_zone : option string) :
  exists self' created,
    VpnGatewayBackend.create_vpn_gateway vpn_gateway_id gateway_type amazon_side_asn
      availability_zone self = (self', Ok created)
    /\ VpnGatewayBackend.get_vpn_gateway vpn_gateway_id self' = (self', Ok created)
    /\ VpnGateway.id created = vpn_gateway_id
    /\ VpnGateway.type created = gateway_type
    /\ VpnGateway.state created = "available"
    /\ VpnGateway.attachments created = ∅
    /\ (forall other, other <> vpn_gateway_id ->
          VpnGatewayBackend.vpn_gateways self' !! other
          = VpnGatewayBackend.vpn_gateways self !! other)
    /\ (forall vpc_id,
          VpnGatewayBackend.detach_vpn_gateway vpn_gateway_id vpc_id self'
          = (self', Raise (InvalidVpnGatewayAttachmentError vpn_gateway_id vpc_id))).
Proof.
  unfold VpnGatewayBackend.create_vpn_gateway, VpnGatewayBackend.get_vpn_gateway,
    VpnGatewayBackend.detach_vpn_gateway, VpnGatewayBackend.get_vpn_gateway.
  run_method. eexists _, _. split; [reflexivity|]. simpl. rewrite lookup_insert_eq.
  repeat split; try done.
  intros other Hne. by rewrite lookup_insert_ne.
Qed.

(** ** Periods that are not positive *)



(** ** Selecting metrics *)

Lemma aws_metric_data_concat (metric_providers : CloudWatchBackend.providers) :
  CloudWatchBackend.aws_metric_data metric_providers = concat metric_providers.*2.
Proof.
  unfold CloudWatchBackend.aws_metric_data.
  assert (H : forall acc, foldl (fun md service => md ++ service.2) acc metric_providers
                          = acc ++ concat metric_providers.*2).
  { induction metric_providers as [|[name metrics] l IH]; intros acc; simpl.
    - by rewrite app_nil_r.
    - by rewrite IH, app_assoc. }
  apply (H []).
Qed.

(** X22.  [get_filtered_metrics] looks at the stored metrics first and then
    at the metrics of each provider, in the order of the providers; when the
    requested dimension dictionaries carry their keys it raises nothing and
    returns, in that order, exactly the metrics on which [filter] returns
    True. *)
Theorem get_filtered_metrics_selects (self : CloudWatchBackend.t)
    (metric_providers : CloudWatchBackend.providers) (metric_name namespace : option string)
    (dimensions : option (list (gmap string string))) :
  (forall ds, dimensions = Some ds -> metric_dimension_dicts ds) ->
  CloudWatchBackend.get_all_metrics self metric_providers
  = CloudWatchBackend.metric_data self ++ concat metric_providers.*2
  /\ exists metrics,
       CloudWatchBackend.get_filtered_metrics self metric_providers metric_name namespace
         dimensions = Ok metrics
       /\ metrics `sublist_of` CloudWatchBackend.get_all_metrics self metric_providers
       /\ (forall md,
             md ∈ metrics
             <-> md ∈ CloudWatchBackend.get_all_metrics self metric_providers
                 /\ MetricDatum.filter md namespace metric_name dimensions = Ok true).
Proof.
  intros Hdicts. split.
  - unfold CloudWatchBackend.get_all_metrics. by rewrite aws_metric_data_concat.
  - unfold CloudWatchBackend.get_filtered_metrics.
    induction (CloudWatchBackend.get_all_metrics self metric_providers) as [|md l IH].
    + exists []. split; [done|]. split; [done|]. intros md. split.
      * by intros ?%elem_of_nil.
      * by intros [?%elem_of_nil _].
    + destruct IH as (metrics & Hrun & Hsub & Hspec).
      destruct (metric_filter_cases md namespace metric_name dimensions Hdicts)
        as (keep & Hkeep & _).
      cbn [comprehension_if]. rewrite Hkeep, Hrun. simpl.
      destruct keep.
      * exists (md :: metrics). split; [done|]. split; [by apply sublist_skip|].
        intros md'. rewrite !elem_of_cons, Hspec. split.
        -- intros [->|[? ?]]; [by split; [left|] | by split; [right|]].
        -- intros [[->|?] ?]; [by left | by right].
      * exists metrics. split; [done|]. split; [by apply sublist_cons|].
        intros md'. rewrite elem_of_cons, Hspec. split.
        -- intros [? ?]. by split; [right|].
        -- intros [[->|?] Hf]; [congruence | done].
Qed.

Lemma get_filtered_metrics_selects_witness :
  let stored := MetricDatum.make "N" "M" 1%float (utc_at 0) [] in
  let provided := MetricDatum.make "AWS/S3" "BucketSizeBytes" 2%float (utc_at 0) [] in
  let self := CloudWatchBackend.make ∅ ∅ [stored] ∅ in
  CloudWatchBackend.get_all_metrics self [("s3", [provided])] = [stored; provided]
  /\ exists metrics,
       CloudWatchBackend.get_filtered_metrics self [("s3", [provided])] None
         (Some "AWS/S3") None = Ok metrics.
Proof.
  intros stored provided self.
  destruct (get_filtered_metrics_selects self [("s3", [provided])] None (Some "AWS/S3") None)
    as (Hall & metrics & Hrun & _).
  - intros ds Hds. discriminate Hds.
  - split; [exact Hall|]. exists metrics. exact Hrun.
Defined.

(** ** The order of the values in a window *)

Lemma filter_ties_insert (t : Z) (x : MetricDatum.t) (l : list MetricDatum.t) :
  List.filter (fun md => ts md =? t) (insert_in_order x l)
  = List.filter (fun md => ts md =? t) (x :: l).
Proof.
  induction l as [|y l IH]; [done|].
  cbn [insert_in_order]. destruct (ts y <? ts x) eqn:Hlt; [|done].
  apply Z.ltb_lt in Hlt.
  cbn [List.filter] in *. rewrite IH.
  destruct (ts x =? t) eqn:Hx, (ts y =? t) eqn:Hy; try done.
  apply Z.eqb_eq in Hx, Hy. lia.
Qed.

Lemma filter_ties_sorted (t : Z) (l : list MetricDatum.t) :
  List.filter (fun md => ts md =? t) (in_order l)
  = List.filter (fun md => ts md =? t) l.
Proof.
  induction l as [|x l IH]; [done|].
  cbn [in_order]. rewrite filter_ties_insert.
  cbn [List.filter]. by rewrite IH.
Qed.

Lemma sorted_filter (f : MetricDatum.t -> bool) (l : list MetricDatum.t) :
  StronglySorted by_timestamp l -> StronglySorted by_timestamp (List.filter f l).
Proof.
  induction 1 as [|x l Hsorted IH Hall]; simpl; [constructor|].
  destruct (f x); [|exact IH]. constructor; [exact IH|].
  apply Forall_forall. intros y Hy. apply list_elem_of_In, filter_In in Hy as [Hy _].
  rewrite Forall_forall in Hall. by apply Hall, list_elem_of_In.
Qed.

Lemma filter_commute {A : Type} (f g : A -> bool) (l : list A) :
  List.filter f (List.filter g l) = List.filter g (List.filter f l).
Proof.
  induction l as [|x l IH]; [done|]. simpl.
  destruct (f x) eqn:Hf, (g x) eqn:Hg; simpl; rewrite ?Hf, ?Hg, IH; done.
Qed.

Lemma filter_twice {A : Type} (f g : A -> bool) (l : list A) :
  List.filter f (List.filter g l) = List.filter (fun x => g x && f x) l.
Proof.
  induction l as [|x l IH]; [done|]. simpl.
  destruct (g x); simpl; [destruct (f x)|]; by rewrite IH.
Qed.

(** X23.  The values of a window come in the order of the timestamps of
    their points, and points with the same timestamp come in the order in
    which they are stored: the sort of [get_metric_statistics] is stable. *)
Theorem window_values_in_stored_order (fmt : datetime.t -> string)
    (self : CloudWatchBackend.t) (namespace metric_name : string)
    (start_time end_time : datetime.t) (period : Z) (stats : list string)
    (data : list Statistics.t) :
  get_metric_statistics fmt self namespace metric_name start_time end_time period stats
  = Ok data ->
  exists ws : list (datetime.t * list MetricDatum.t),
    data = map (statistics_of fmt stats) ws
    /\ Forall (fun w =>
                 StronglySorted by_timestamp w.2
                 /\ forall t,
                      List.filter (fun md => ts md =? t) w.2
                      = List.filter
                          (fun md =>
                             selects namespace metric_name start_time end_time md
                             && (ts md =? t)
                             && in_window (datetime.instant w.1) (microseconds period) md)
                          (CloudWatchBackend.metric_data self))
              ws.
Proof.
  intros Hcall.
  destruct (get_metric_statistics_windows fmt self namespace metric_name start_time
              end_time period stats data Hcall) as (ws & Hdata & Hwin & _).
  exists ws. split; [exact Hdata|].
  eapply Forall_impl; [exact Hwin|]. intros w [_ Hw]. rewrite Hw. split.
  - apply sorted_filter, selected_points_sorted.
  - intros t. unfold window_points, selected_points.
    rewrite filter_commute, filter_ties_sorted, !filter_twice.
    apply List.filter_ext. intros md. by rewrite andb_assoc.
Qed.

Lemma window_values_in_stored_order_witness :
  let point v := MetricDatum.make "N" "M" v (utc_at 0) [] in
  let self := CloudWatchBackend.make ∅ ∅ [point 3%float; point 1%float; point 2%float] ∅ in
  let fmt (dt : datetime.t) := EmptyString in
  get_metric_statistics fmt self "N" "M" (utc_at 0) (utc_at 10) 60 ["Sum"]
  = Ok [Statistics.make EmptyString [3%float; 1%float; 2%float] ["Sum"]]
  /\ exists ws : list (datetime.t * list MetricDatum.t),
       [Statistics.make EmptyString [3%float; 1%float; 2%float] ["Sum"]]
       = map (statistics_of fmt ["Sum"]) ws
       /\ Forall (fun w => StronglySorted by_timestamp w.2) ws.
Proof.
  intros point self fmt. split; [reflexivity|].
  destruct (window_values_in_stored_order fmt self "N" "M" (utc_at 0) (utc_at 10) 60
              ["Sum"] _ eq_refl)
    as (ws & Hdata & Hall).
  exists ws. split; [exact Hdata|].
  eapply Forall_impl; [exact Hall|]. by intros w [? _].
Defined.

(** ** Further properties at concrete inputs *)

Lemma delete_alarms_removes_witness :
  let self :=
    CloudWatchBackend.set_alarms (insert "cpu" alarm_in_alarm) CloudWatchBackend.__init__ in
  exists self',
    CloudWatchBackend.delete_alarms ["cpu"; "ghost"; "cpu"] self = (self', Ok tt)
    /\ CloudWatchBackend.alarms self' !! "cpu" = None
    /\ CloudWatchBackend.get_alarms_by_alarm_names self' ["cpu"; "ghost"; "cpu"] = [].
Proof.
  intros self.
  destruct (delete_alarms_removes ["cpu"; "ghost"; "cpu"] self)
    as (self' & Hrun & Hgone & _ & Hget & _).
  exists self'. split; [exact Hrun|]. split.
  - apply Hgone. by left.
  - apply Hget. intros key alarm H. simpl in H.
    apply lookup_insert_Some in H as [[<- <-] | [_ H]]; [reflexivity|].
    by rewrite lookup_empty in H.
Defined.

Lemma put_dashboard_round_trip_witness :
  let make_arn (account name : string) := account +:+ ":dashboard/" +:+ name in
  let self1 :=
    (CloudWatchBackend.put_dashboard make_arn "123456789012" "ops" "{}" 4
       CloudWatchBackend.__init__).1 in
  CloudWatchBackend.get_dashboard self1 "ops"
  = Some (Dashboard.make "123456789012:dashboard/ops" "ops" "{}" 4)
  /\ CloudWatchBackend.delete_dashboards elements ["ops"] self1
     = (CloudWatchBackend.__init__, Ok (true, None)).
Proof.
  intros make_arn self1.
  destruct (put_dashboard_round_trip make_arn "123456789012" "ops" "{}" 4
              CloudWatchBackend.__init__) as (_ & Hget & _ & _ & _ & Hdelete).
  split; [exact Hget|]. apply Hdelete; [apply elements_iteration_order | reflexivity].
Defined.

Lemma metric_filter_short_circuits_witness :
  let md := MetricDatum.make "N" "M" 1%float (utc_at 0) [] in
  let malformed : gmap string string := ∅ in
  MetricDatum.filter md (Some "other") None (Some [malformed]) = Ok false
  /\ MetricDatum.filter md None None (Some [malformed]) = Raise (KeyError "Name").
Proof.
  intros md malformed.
  destruct (metric_filter_short_circuits md (Some "other") None (Some [malformed]))
    as (Hmismatch & _ & _).
  destruct (metric_filter_short_circuits md None None (Some [malformed]))
    as (_ & _ & Hname & _).
  split.
  - apply Hmismatch. left. split; [reflexivity | discriminate].
  - apply Hname. reflexivity.
Defined.

Lemma attach_vpn_gateway_rejects_witness :
  let gateway := VpnGateway.make "vgw-1" "ipsec.1" None None "available" ∅ in
  let self := VpnGatewayBackend.make {["vgw-1" := gateway]} ∅ ∅ in
  VpnGatewayBackend.attach_vpn_gateway "vgw-9" "vpc-1" self
  = (self, Raise (InvalidVpnGatewayIdError "vgw-9"))
  /\ VpnGatewayBackend.attach_vpn_gateway "vgw-1" "vpc-1" self
     = (self, Raise (InvalidVPCIdError "vpc-1")).
Proof.
  intros gateway self.
  destruct (attach_vpn_gateway_rejects self "vgw-9" "vpc-1") as (Hgw & _).
  destruct (attach_vpn_gateway_rejects self "vgw-1" "vpc-1") as (_ & Hvpc).
  split; [exact (Hgw eq_refl)|].
  apply Hvpc; [by exists gateway | apply not_elem_of_empty].
Defined.

Lemma delete_vpn_gateway_keeps_record_witness :
  let gateway :=
    VpnGateway.make "vgw-1" "ipsec.1" None None "available" {["vpc-1" := 1%positive]} in
  let self := VpnGatewayBackend.make {["vgw-1" := gateway]} ∅ ∅ in
  exists self' deleted,
    VpnGatewayBackend.delete_vpn_gateway "vgw-1" self = (self', Ok deleted)
    /\ VpnGatewayBackend.get_vpn_gateway "vgw-1" self' = (self', Ok deleted)
    /\ VpnGateway.state deleted = "deleted"
    /\ VpnGateway.attachments deleted = {["vpc-1" := 1%positive]}.
Proof.
  intros gateway self.
  destruct (delete_vpn_gateway_keeps_record self "vgw-1") as (_ & H).
  destruct (H gateway eq_refl) as (self' & deleted & H1 & H2 & H3 & _ & _ & H4 & _).
  exists self', deleted. repeat split; assumption.
Defined.
